(** * Voyager: the LinkedIn response scrubbers, embedded and verified

    A shallow embedding of the [Voyager] client: its scrubbing functions,
    [_fetchProfileResource], [getFullProfile] and [getCompany], the
    [_sendRequest] of the base client, and the string helpers of [utils.js]
    ([extractRootDomain], which the company scrubber calls,
    [getCookieValue] and [getPublicIdentifier]).

    The raw API payloads are untyped JSON trees, and the code leans on the
    dynamic semantics of JavaScript: reading a property of [undefined] raises a
    [TypeError], [a || b] picks by truthiness, [hasOwnProperty] is itself a
    property that a payload can shadow.  The embedding therefore works on a
    type of JavaScript values and makes every one of these rules explicit. *)

Set Warnings "-register-all".
From Stdlib Require Import String Ascii List ZArith Lia Bool Arith.
From Stdlib Require Import DecimalString Decimal DecimalNat.
Import ListNotations.

Local Open Scope string_scope.
Local Open Scope list_scope.
Local Open Scope Z_scope.

(* ===================================================================== *)
(** ** JavaScript values *)
(* ===================================================================== *)

(** The values the scrubbers see and build: JSON data, plus [undefined] and
    [NaN], which only computation produces.

    - A number [VNum z] is an integer-valued double; [-0] is identified with
      [0] (both are falsy and [===]-equal).  The scrubbers do no arithmetic on
      payload numbers, they test and copy them.
    - A string is a [string] with one [ascii] per UTF-16 code unit, so the
      model covers the code units below 256.
    - An object is the list of its own enumerable properties in the order
      [Object.keys] lists them; a lookup takes the first binding of a key. *)
Inductive value : Type :=
| VUndef
| VNull
| VBool (b : bool)
| VNum (z : Z)
| VNaN
| VStr (s : string)
| VArr (l : list value)
| VObj (kv : list (string * value)).

(** What a JavaScript [throw] carries. *)
Inductive error : Type :=
| TypeError_read (prop : string) (base : value)
    (* Cannot read properties of undefined/null (reading 'prop') *)
| TypeError_not_a_function (method : string)
    (* x.method is not a function *)
| TypeError_to_object (base : value)
    (* Cannot convert undefined or null to object *)
| SyntaxError_json
    (* res.json() on a body that is not JSON *)
| Error_msg (msg : string)
    (* new Error(msg) *)
| Thrown_response (status_ok : bool)
    (* throw res *)
| Network_failure (detail : string)
    (* fetch() rejected *)
| TypeError_header_value (name value : string).
    (* Headers.append: invalid header value *)

(** The result of running a piece of code: it returns, it throws, or it
    leaves the fragment of JavaScript this development gives a meaning to
    ([Beyond]: string-to-number coercion inside [>], [ToString] of an array
    or object, integers past 2^53). No theorem below holds by way of
    [Beyond]: each one states an [Ok] or a [Throw]. *)
Inductive outcome (A : Type) : Type :=
| Ok (a : A)
| Throw (e : error)
| Beyond.

Arguments Ok {A} a.
Arguments Throw {A} e.
Arguments Beyond {A}.

Definition bind {A B : Type} (m : outcome A) (f : A -> outcome B) : outcome B :=
  match m with
  | Ok a => f a
  | Throw e => Throw e
  | Beyond => Beyond
  end.

Declare Scope js_scope.
Delimit Scope js_scope with js.
Notation "x <- m ;; k" := (bind m (fun x => k))
  (at level 61, m at next level, right associativity) : js_scope.
Local Open Scope js_scope.

Fixpoint mapM {A B : Type} (f : A -> outcome B) (l : list A) : outcome (list B) :=
  match l with
  | [] => Ok []
  | x :: r => y <- f x ;; ys <- mapM f r ;; Ok (y :: ys)
  end.

Fixpoint filterM {A : Type} (f : A -> outcome bool) (l : list A) : outcome (list A) :=
  match l with
  | [] => Ok []
  | x :: r => b <- f x ;; ys <- filterM f r ;; Ok (if b then x :: ys else ys)
  end.

(* ===================================================================== *)
(** ** The JavaScript operations the scrubbers use *)
(* ===================================================================== *)

Module JS.

(** ToBoolean. *)
Definition truthy (v : value) : bool :=
  match v with
  | VUndef | VNull | VNaN => false
  | VBool b => b
  | VNum z => negb (z =? 0)
  | VStr s => negb (s =? "")%string
  | VArr _ | VObj _ => true
  end.

(** [a || b]. *)
Definition or_else (a b : value) : value := if truthy a then a else b.

Fixpoint lookup (k : string) (kv : list (string * value)) : option value :=
  match kv with
  | [] => None
  | (k', v) :: r => if (k =? k')%string then Some v else lookup k r
  end.

Definition has_key (k : string) (kv : list (string * value)) : bool :=
  match lookup k kv with Some _ => true | None => false end.

(** [obj.k = v] on an object under construction: an existing property keeps
    its place, a new one goes last. *)
Fixpoint set_prop (k : string) (v : value) (kv : list (string * value))
  : list (string * value) :=
  match kv with
  | [] => [(k, v)]
  | (k', v') :: r =>
      if (k =? k')%string then (k, v) :: r else (k', v') :: set_prop k v r
  end.

Definition nat_to_string (n : nat) : string :=
  NilZero.string_of_uint (Nat.to_uint n).

(** An array index as a property name: the canonical decimal numeral. *)
Definition index_of_key (k : string) : option nat :=
  match NilZero.uint_of_string k with
  | Some u => let n := Nat.of_uint u in
              if (nat_to_string n =? k)%string then Some n else None
  | None => None
  end.

Fixpoint chars (s : string) : list value :=
  match s with
  | EmptyString => []
  | String a r => VStr (String a EmptyString) :: chars r
  end.

Definition indexed (l : list value) : list (string * value) :=
  combine (map nat_to_string (seq 0 (List.length l))) l.

(** The own properties of an array or a string besides its indices. *)
Definition elements_prop (l : list value) (k : string) : value :=
  if (k =? "length")%string then VNum (Z.of_nat (List.length l))
  else match index_of_key k with
       | Some i => nth i l VUndef
       | None => VUndef
       end.

(** A property of a record: [undefined] when it has none of that name. *)
Definition field (rec : list (string * value)) (k : string) : value :=
  match lookup k rec with Some x => x | None => VUndef end.

(** What [v.k] yields on a value that has properties at all, for the
    property names this code reads: none of them is defined on a built-in
    prototype, so a read that misses the own properties yields
    [undefined]. *)
Definition prop (v : value) (k : string) : value :=
  match v with
  | VObj kv => field kv k
  | VArr l => elements_prop l k
  | VStr s => elements_prop (chars s) k
  | _ => VUndef
  end.

(** [v.k] and [v[k]]. *)
Definition get (v : value) (k : string) : outcome value :=
  match v with
  | VUndef | VNull => Throw (TypeError_read k v)
  | _ => Ok (prop v k)
  end.

Definition elements_has (l : list value) (k : string) : bool :=
  if (k =? "length")%string then true
  else match index_of_key k with
       | Some i => (i <? List.length l)%nat
       | None => false
       end.

(** Whether [v] has an own property [k]. *)
Definition own (v : value) (k : string) : bool :=
  match v with
  | VObj kv => has_key k kv
  | VArr l => elements_has l k
  | VStr s => elements_has (chars s) k
  | _ => false
  end.

(** [v.hasOwnProperty(k)]. The method is inherited from [Object.prototype];
    an object with an own property of that name shadows it with a JSON value,
    which cannot be called. *)
Definition hasOwnProperty (v : value) (k : string) : outcome bool :=
  match v with
  | VUndef | VNull => Throw (TypeError_read "hasOwnProperty" v)
  | VObj kv =>
      if has_key "hasOwnProperty" kv
      then Throw (TypeError_not_a_function "hasOwnProperty")
      else Ok (own v k)
  | _ => Ok (own v k)
  end.

(** [v.constructor === Object]. *)
Definition constructor_is_Object (v : value) : outcome bool :=
  match v with
  | VUndef | VNull => Throw (TypeError_read "constructor" v)
  | VObj kv => Ok (negb (has_key "constructor" kv))
  | _ => Ok false
  end.

(** [Object.keys(v)]. *)
Definition keys (v : value) : outcome (list string) :=
  match v with
  | VUndef | VNull => Throw (TypeError_to_object v)
  | VObj kv => Ok (map fst kv)
  | VArr l => Ok (map fst (indexed l))
  | VStr s => Ok (map fst (indexed (chars s)))
  | VBool _ | VNum _ | VNaN => Ok []
  end.

(** [ks[0]] used as a property name: an empty array gives [undefined], whose
    property key is the string "undefined". *)
Definition first_key (ks : list string) : string :=
  match ks with
  | k :: _ => k
  | [] => "undefined"
  end.

(** [v.map(f)]: only an array has the method. *)
Definition array_map (v : value) (f : value -> outcome value) : outcome value :=
  match v with
  | VUndef | VNull => Throw (TypeError_read "map" v)
  | VArr l => l' <- mapM f l ;; Ok (VArr l')
  | _ => Throw (TypeError_not_a_function "map")
  end.

(** [v.filter(f)]. *)
Definition array_filter (v : value) (f : value -> outcome bool) : outcome value :=
  match v with
  | VUndef | VNull => Throw (TypeError_read "filter" v)
  | VArr l => l' <- filterM f l ;; Ok (VArr l')
  | _ => Throw (TypeError_not_a_function "filter")
  end.

(** [v > 0]. *)
Definition gt_zero (v : value) : outcome bool :=
  match v with
  | VNum z => Ok (0 <? z)
  | VBool b => Ok b
  | VUndef | VNull | VNaN => Ok false
  | VStr _ | VArr _ | VObj _ => Beyond
  end.

(** [a === b] for two values read from different places of a parsed JSON
    tree: arrays and objects compare by identity, so they differ. *)
Definition strict_eq (a b : value) : bool :=
  match a, b with
  | VUndef, VUndef | VNull, VNull => true
  | VBool x, VBool y => Bool.eqb x y
  | VNum x, VNum y => x =? y
  | VStr x, VStr y => (x =? y)%string
  | _, _ => false
  end.

(** The decimal digits of an integer, with its sign. *)
Definition Z_to_string (z : Z) : string :=
  if z <? 0 then "-" ++ NilZero.string_of_uint (N.to_uint (Z.to_N (- z)))
  else NilZero.string_of_uint (N.to_uint (Z.to_N z)).

(** ToString, as a template literal applies it. A number is printed with
    the shortest digits that read back as the same double: for an integer
    up to 2^53 in size these are its decimal digits; a larger one is left
    out (2^60 prints as 1152921504606847000). *)
Definition to_string (v : value) : outcome string :=
  match v with
  | VStr s => Ok s
  | VUndef => Ok "undefined"
  | VNull => Ok "null"
  | VBool true => Ok "true"
  | VBool false => Ok "false"
  | VNaN => Ok "NaN"
  | VNum z => if Z.abs z <=? 2 ^ 53 then Ok (Z_to_string z) else Beyond
  | VArr _ | VObj _ => Beyond
  end.

(** [s.split(c)] for a one-character separator. *)
Fixpoint split_on (c : ascii) (s : string) : list string :=
  match s with
  | EmptyString => [EmptyString]
  | String a r =>
      if Ascii.eqb a c then EmptyString :: split_on c r
      else match split_on c r with
           | p :: ps => String a p :: ps
           | [] => [String a EmptyString]
           end
  end.

(** [v.split(':')]: only a string has the method. *)
Definition split (v : value) (c : ascii) : outcome (list string) :=
  match v with
  | VUndef | VNull => Throw (TypeError_read "split" v)
  | VStr s => Ok (split_on c s)
  | _ => Throw (TypeError_not_a_function "split")
  end.

(** StrWhiteSpaceChar, among the code units below 256. *)
Definition is_ws (a : ascii) : bool :=
  let n := nat_of_ascii a in
  ((n =? 9) || (n =? 10) || (n =? 11) || (n =? 12) || (n =? 13)
   || (n =? 32) || (n =? 160))%nat.

Fixpoint trim_start (s : string) : string :=
  match s with
  | String a r => if is_ws a then trim_start r else s
  | EmptyString => s
  end.

Definition digit_val (a : ascii) : option nat :=
  let n := nat_of_ascii a in
  if ((48 <=? n) && (n <=? 57))%nat then Some (n - 48)%nat else None.

Fixpoint digits_prefix (s : string) : list nat :=
  match s with
  | String a r =>
      match digit_val a with
      | Some d => d :: digits_prefix r
      | None => []
      end
  | EmptyString => []
  end.

(** The integer a list of decimal digits denotes, most significant first. *)
Definition decimal (ds : list nat) : Z :=
  fold_left (fun acc d => 10 * acc + Z.of_nat d) ds 0.

(** [parseInt(s, 10)]: leading white space, a sign, then the longest prefix
    of decimal digits; [NaN] when there is no digit. With radix 10 a "0x"
    prefix is not special. Up to 2^53 the double is the integer itself. *)
Definition parseInt10 (s : string) : outcome value :=
  let t := trim_start s in
  let '(neg, body) :=
    match t with
    | String "-"%char r => (true, r)
    | String "+"%char r => (false, r)
    | _ => (false, t)
    end in
  match digits_prefix body with
  | [] => Ok VNaN
  | ds => let n := decimal ds in
          if n <=? 2 ^ 53 then Ok (VNum (if neg then - n else n)) else Beyond
  end.

End JS.

(* ===================================================================== *)
(** ** The scrubbers *)
(* ===================================================================== *)

Definition LI_CDN : string := "https://media-exp2.licdn.com/media".
Definition BASE_URL : string := "https://www.linkedin.com/voyager/api".

(** [_scrubIdFromUrn(urn)]. [split] never returns an empty array, so
    [pieces[pieces.length - 1]] is its last element. *)
Definition _scrubIdFromUrn (urn : value) : outcome value :=
  if negb (JS.truthy urn) then Ok (VStr "")
  else
    pieces <- JS.split urn ":"%char ;;
    JS.parseInt10 (last pieces "").

(** [_scrubPathToResource(resource)]. *)
Definition _scrubPathToResource (resource : value) : outcome value :=
  is_obj <- JS.constructor_is_Object resource ;;
  if negb is_obj then Ok (VStr "")
  else
    ks <- JS.keys resource ;;
    let key := JS.first_key ks in
    variant <- JS.get resource key ;;
    id <- JS.get variant "id" ;;
    let resourcePath := JS.or_else id (VStr "") in
    if JS.truthy resourcePath then
      p <- JS.to_string resourcePath ;;
      Ok (VStr (LI_CDN ++ p))
    else Ok resourcePath.

(** [v.k || d]. *)
Definition get_or (v : value) (k : string) (d : value) : outcome value :=
  x <- JS.get v k ;; Ok (JS.or_else x d).

(** [(member.member && member.member.k) ? member.member.k : ''], the shape
    of each of the four fields of [_scrubMemberInfo]. *)
Definition member_field (member : value) (k : string) : outcome value :=
  inner <- JS.get member "member" ;;
  if JS.truthy inner then
    f <- JS.get inner k ;;
    if JS.truthy f then
      inner' <- JS.get member "member" ;; JS.get inner' k
    else Ok (VStr "")
  else Ok (VStr "").

Definition empty_member : list (string * value) :=
  [("firstname", VStr ""); ("lastname", VStr "");
   ("occupation", VStr ""); ("publicIdentifier", VStr "")].

(** [_scrubMemberInfo(member)]. *)
Definition _scrubMemberInfo (member : value) : outcome value :=
  if negb (JS.truthy member) then Ok (VObj empty_member)
  else
    firstname <- member_field member "firstName" ;;
    lastname <- member_field member "lastName" ;;
    occupation <- member_field member "occupation" ;;
    publicIdentifier <- member_field member "publicIdentifier" ;;
    let memberInfo :=
      [("firstname", firstname); ("lastname", lastname);
       ("occupation", occupation); ("publicIdentifier", publicIdentifier)] in
    inner <- JS.get member "member" ;;
    has_picture <- (if JS.truthy inner then JS.hasOwnProperty inner "picture"
                    else Ok false) ;;
    if has_picture then
      inner' <- JS.get member "member" ;;
      pic <- JS.get inner' "picture" ;;
      path <- _scrubPathToResource pic ;;
      Ok (VObj (JS.set_prop "picture" path memberInfo))
    else Ok (VObj memberInfo).

(** [x.hasOwnProperty(k) && x.k.length > 0], the guard of the three member
    lists. *)
Definition has_nonempty (x : value) (k : string) : outcome bool :=
  has <- JS.hasOwnProperty x k ;;
  if has then
    l <- JS.get x k ;; len <- JS.get l "length" ;; JS.gt_zero len
  else Ok false.

(** [_scrubPatentInfo(patent)]. *)
Definition _scrubPatentInfo (patent : value) : outcome value :=
  applicationNumber <- get_or patent "applicationNumber" (VStr "") ;;
  description <- get_or patent "description" (VStr "") ;;
  filingDate <- get_or patent "filingDate" (VObj []) ;;
  issueDate <- get_or patent "issueDate" (VObj []) ;;
  number <- get_or patent "number" (VStr "") ;;
  pending <- JS.get patent "pending" ;;
  title <- get_or patent "title" (VStr "") ;;
  url <- get_or patent "url" (VStr "") ;;
  let patentInfo :=
    [("applicationNumber", applicationNumber); ("description", description);
     ("filingDate", filingDate); ("issueDate", issueDate);
     ("number", number); ("pending", pending);
     ("title", title); ("url", url)] in
  guard <- has_nonempty patent "inventors" ;;
  if guard then
    inventors <- JS.get patent "inventors" ;;
    withMember <- JS.array_filter inventors
                    (fun inventor => JS.hasOwnProperty inventor "member") ;;
    scrubbed <- JS.array_map withMember
                  (fun inventor =>
                     m <- JS.get inventor "member" ;; _scrubMemberInfo m) ;;
    Ok (VObj (JS.set_prop "inventors" scrubbed patentInfo))
  else Ok (VObj patentInfo).

(** [_scrubPublicationInfo(publication)]. *)
Definition _scrubPublicationInfo (publication : value) : outcome value :=
  date <- get_or publication "date" (VObj []) ;;
  description <- get_or publication "description" (VStr "") ;;
  name <- get_or publication "name" (VStr "") ;;
  publisher <- get_or publication "publisher" (VStr "") ;;
  url <- get_or publication "url" (VStr "") ;;
  let publicationInfo :=
    [("date", date); ("description", description); ("name", name);
     ("publisher", publisher); ("url", url)] in
  guard <- has_nonempty publication "authors" ;;
  if guard then
    authors <- JS.get publication "authors" ;;
    scrubbed <- JS.array_map authors (fun author => _scrubMemberInfo author) ;;
    Ok (VObj (JS.set_prop "authors" scrubbed publicationInfo))
  else Ok (VObj publicationInfo).

(** [x.k = v] on a payload object. Only an object reaches the one assignment
    of this kind ([project.members = ...] sits behind
    [project.hasOwnProperty('members')]). *)
Definition assign_prop (x : value) (k : string) (v : value) : value :=
  match x with
  | VObj kv => VObj (JS.set_prop k v kv)
  | _ => x
  end.

(** [_scrubProjectInfo(project)]. The function writes to its argument, so the
    embedding returns two things: the record the function returns
    ([projectInfo]) and the argument as the call leaves it ([project]). *)
Definition _scrubProjectInfo (project : value) : outcome (value * value) :=
  description <- get_or project "description" (VStr "") ;;
  timePeriod <- get_or project "timePeriod" (VObj []) ;;
  title <- get_or project "title" (VStr "") ;;
  url <- get_or project "url" (VStr "") ;;
  let projectInfo :=
    [("description", description); ("timePeriod", timePeriod);
     ("title", title); ("url", url)] in
  guard <- has_nonempty project "members" ;;
  if guard then
    members <- JS.get project "members" ;;
    scrubbed <- JS.array_map members (fun member => _scrubMemberInfo member) ;;
    Ok (VObj projectInfo, assign_prop project "members" scrubbed)
  else Ok (VObj projectInfo, project).

(** [a.hasOwnProperty(k1) && a.k1.hasOwnProperty(k2)]. *)
Definition has_nested (a : value) (k1 k2 : string) : outcome bool :=
  has <- JS.hasOwnProperty a k1 ;;
  if has then inner <- JS.get a k1 ;; JS.hasOwnProperty inner k2
  else Ok false.

(** [_scrubPositionInfo(position)]. *)
Definition _scrubPositionInfo (position : value) : outcome value :=
  companyUrn <- JS.get position "companyUrn" ;;
  linkedInCompanyId <-
    (if JS.truthy companyUrn then
       urn <- JS.get position "companyUrn" ;;
       pieces <- JS.split urn ":"%char ;;
       JS.parseInt10 (last pieces "")
     else Ok (VStr "")) ;;
  locationName <- get_or position "locationName" (VStr "") ;;
  companyName <- get_or position "companyName" (VStr "") ;;
  description <- get_or position "description" (VStr "") ;;
  timePeriod <- get_or position "timePeriod" (VObj []) ;;
  title <- get_or position "title" (VStr "") ;;
  let positionInfo :=
    [("locationName", locationName); ("companyName", companyName);
     ("linkedInCompanyId", linkedInCompanyId); ("description", description);
     ("timePeriod", timePeriod); ("title", title)] in
  has_company <- JS.hasOwnProperty position "company" ;;
  if has_company then
    company <- JS.get position "company" ;;
    employeeCountRange <- get_or company "employeeCountRange" (VObj []) ;;
    industries <- get_or company "industries" (VArr []) ;;
    let companyInfo :=
      [("employeeCountRange", employeeCountRange); ("industries", industries)] in
    has_logo <- has_nested company "miniCompany" "logo" ;;
    if has_logo then
      miniCompany <- JS.get company "miniCompany" ;;
      logo <- JS.get miniCompany "logo" ;;
      path <- _scrubPathToResource logo ;;
      Ok (VObj (JS.set_prop "company"
                  (VObj (JS.set_prop "logo" path companyInfo)) positionInfo))
    else Ok (VObj (JS.set_prop "company" (VObj companyInfo) positionInfo))
  else Ok (VObj positionInfo).

(** [_scrubEducationInfo(education)]. *)
Definition _scrubEducationInfo (education : value) : outcome value :=
  activities <- get_or education "activities" (VStr "") ;;
  degreeName <- get_or education "degreeName" (VStr "") ;;
  fieldOfStudy <- get_or education "fieldOfStudy" (VStr "") ;;
  timePeriod <- get_or education "timePeriod" (VObj []) ;;
  schoolName <- get_or education "schoolName" (VStr "") ;;
  let educationInfo :=
    [("activities", activities); ("degreeName", degreeName);
     ("fieldOfStudy", fieldOfStudy); ("timePeriod", timePeriod);
     ("schoolName", schoolName)] in
  has_school <- JS.hasOwnProperty education "school" ;;
  if has_school then
    school <- JS.get education "school" ;;
    active <- get_or school "active" (VBool false) ;;
    name <- get_or school "schoolName" (VStr "") ;;
    let schoolInfo := [("active", active); ("name", name)] in
    has_logo <- JS.hasOwnProperty school "logo" ;;
    if has_logo then
      logo <- JS.get school "logo" ;;
      path <- _scrubPathToResource logo ;;
      Ok (VObj (JS.set_prop "school"
                  (VObj (JS.set_prop "logo" path schoolInfo)) educationInfo))
    else Ok (VObj (JS.set_prop "school" (VObj schoolInfo) educationInfo))
  else Ok (VObj educationInfo).

(** [_scrubWebsiteInfo(website)]. *)
Definition _scrubWebsiteInfo (website : value) : outcome value :=
  type <- JS.get website "type" ;;
  ks <- JS.keys type ;;
  let categoryType := JS.first_key ks in
  url <- JS.get website "url" ;;
  type' <- JS.get website "type" ;;
  variant <- JS.get type' categoryType ;;
  category <- JS.get variant "category" ;;
  Ok (VObj [("website", url);
            ("type", JS.or_else category (VStr "Portfolio"))]).

(** [extractRootDomain(domain)] of [utils.js]. A string has [indexOf],
    [substring] and [split]; an array has [indexOf] only, and finds "://"
    among its elements by [===]; nothing else has [indexOf]. [host] and [tld]
    stay [undefined] unless the domain has two, three or four parts, and
    then print as "undefined". *)
Definition extractRootDomain (domain : value) : outcome value :=
  if negb (JS.truthy domain) then Ok (VStr "")
  else
    match domain with
    | VStr s =>
        match String.index 0 "://" s with
        | None => Ok domain
        | Some protocolIndex =>
            let remainingUrl :=
              substring (protocolIndex + 3)
                        (String.length s - (protocolIndex + 3)) s in
            let domainIndex :=
              match String.index 0 "/" remainingUrl with
              | None => String.length remainingUrl
              | Some i => i
              end in
            let parsed_domain := substring 0 domainIndex remainingUrl in
            let '(host, tld) :=
              match JS.split_on "."%char parsed_domain with
              | [a; b] => (a, b)
              | [_; b; c] => (b, c)
              | [_; b; c; d] => (b, (c ++ "." ++ d)%string)
              | _ => ("undefined", "undefined")
              end in
            Ok (VStr (host ++ "." ++ tld)%string)
        end
    | VArr l =>
        if existsb (fun x => JS.strict_eq x (VStr "://")) l
        then Throw (TypeError_not_a_function "substring")
        else Ok domain
    | _ => Throw (TypeError_not_a_function "indexOf")
    end.

(** [if (x.hasOwnProperty(k)) { ...update... }] on the record under
    construction. *)
Definition when_has (x : value) (k : string)
  (update : list (string * value) -> outcome (list (string * value)))
  (rec : list (string * value)) : outcome (list (string * value)) :=
  has <- JS.hasOwnProperty x k ;;
  if has then update rec else Ok rec.

(** [_scrubCompanyResponse(companyResponse)]. *)
Definition _scrubCompanyResponse (cr : value) : outcome value :=
  let company := [("source", VStr "LinkedIn")] in
  v <- get_or cr "affiliatedCompanies" (VArr []) ;;
  let company := JS.set_prop "affiliatedCompanies" v company in
  v <- get_or cr "companyPageUrl" (VStr "") ;;
  let company := JS.set_prop "pageUrl" v company in
  u <- JS.get cr "companyPageUrl" ;;
  v <- extractRootDomain u ;;
  let company := JS.set_prop "domain" v company in
  has <- JS.hasOwnProperty cr "companyType" ;;
  v <- (if has then t <- JS.get cr "companyType" ;; JS.get t "localizedName"
        else Ok (VStr "")) ;;
  let company := JS.set_prop "type" v company in
  v <- get_or cr "confirmedLocations" (VArr []) ;;
  let company := JS.set_prop "confirmedLocations" v company in
  v <- JS.get cr "description" ;;
  let company := JS.set_prop "description" v company in
  v <- JS.get cr "entityUrn" ;;
  let company := JS.set_prop "linkedInUrn" v company in
  v <- JS.get cr "name" ;;
  let company := JS.set_prop "name" v company in
  v <- get_or cr "specialities" (VArr []) ;;
  let company := JS.set_prop "specialities" v company in
  v <- JS.get cr "universalName" ;;
  let company := JS.set_prop "universalName" v company in
  v <- get_or cr "url" (VStr "") ;;
  let company := JS.set_prop "linkedInPageUrl" v company in
  u <- JS.get cr "parentCompany" ;;
  v <- _scrubIdFromUrn u ;;
  let company := JS.set_prop "parentCompanyLinkedInId" v company in
  u <- JS.get cr "entityUrn" ;;
  v <- _scrubIdFromUrn u ;;
  let company := JS.set_prop "linkedInId" v company in
  company <- when_has cr "foundedOn" (fun company =>
      f <- JS.get cr "foundedOn" ;;
      v <- get_or f "year" (VStr "") ;;
      Ok (JS.set_prop "foundedOn" v company)) company ;;
  company <- when_has cr "companyIndustries" (fun company =>
      l <- JS.get cr "companyIndustries" ;;
      names <- JS.array_map l (fun c => JS.get c "localizedName") ;;
      Ok (JS.set_prop "industries" (JS.or_else names (VArr [])) company))
    company ;;
  company <- when_has cr "headquarter" (fun company =>
      hq <- JS.get cr "headquarter" ;;
      v <- get_or hq "city" (VStr "") ;;
      let company := JS.set_prop "city" v company in
      v <- get_or hq "country" (VStr "") ;;
      let company := JS.set_prop "country" v company in
      v <- get_or hq "geographicArea" (VStr "") ;;
      let company := JS.set_prop "geographicArea" v company in
      v <- get_or hq "line1" (VStr "") ;;
      let company := JS.set_prop "addr1" v company in
      v <- get_or hq "line2" (VStr "") ;;
      let company := JS.set_prop "addr2" v company in
      v <- get_or hq "postalCode" (VStr "") ;;
      Ok (JS.set_prop "postalCode" v company)) company ;;
  company <- when_has cr "followingInfo" (fun company =>
      f <- JS.get cr "followingInfo" ;;
      v <- get_or f "followerCount" (VNum 0) ;;
      Ok (JS.set_prop "linkedInFollowerCount" v company)) company ;;
  company <- when_has cr "staffCount" (fun company =>
      v <- get_or cr "staffCount" (VNum 0) ;;
      Ok (JS.set_prop "staffCount" v company)) company ;;
  has_logo <- has_nested cr "logo" "image" ;;
  company <- (if has_logo then
                logo <- JS.get cr "logo" ;;
                image <- JS.get logo "image" ;;
                path <- _scrubPathToResource image ;;
                Ok (JS.set_prop "logo" (JS.or_else path (VStr "")) company)
              else Ok company) ;;
  has_cover <- has_nested cr "backgroundCoverImage" "image" ;;
  company <- (if has_cover then
                cover <- JS.get cr "backgroundCoverImage" ;;
                image <- JS.get cover "image" ;;
                path <- _scrubPathToResource image ;;
                Ok (JS.set_prop "backgroundCoverImage"
                      (JS.or_else path (VStr "")) company)
              else Ok company) ;;
  company <- when_has cr "backgroundCoverPhoto" (fun company =>
      photo <- JS.get cr "backgroundCoverPhoto" ;;
      path <- _scrubPathToResource photo ;;
      Ok (JS.set_prop "backgroundCoverPhoto"
            (JS.or_else path (VStr "")) company)) company ;;
  Ok (VObj company).

(** [profile.profile.k]. *)
Definition profile_field (profile : value) (k : string) : outcome value :=
  pp <- JS.get profile "profile" ;; JS.get pp k.

(** [profile.profile.k || d]. *)
Definition profile_field_or (profile : value) (k : string) (d : value)
  : outcome value :=
  x <- profile_field profile k ;; Ok (JS.or_else x d).

(** [profile.view.elements]. *)
Definition view_elements (profile : value) (view : string) : outcome value :=
  v <- JS.get profile view ;; JS.get v "elements".

(** [profile.view.elements.map(f) || []]. *)
Definition map_view (profile : value) (view : string)
  (f : value -> outcome value) : outcome value :=
  els <- view_elements profile view ;;
  r <- JS.array_map els f ;;
  Ok (JS.or_else r (VArr [])).

(** The filter of lines 441-442:
    [p.hasOwnProperty('timePeriod') && p.timePeriod.hasOwnProperty('startDate')
     && !p.timePeriod.hasOwnProperty('endDate')]. *)
Definition is_current_position (p : value) : outcome bool :=
  has_period <- JS.hasOwnProperty p "timePeriod" ;;
  if has_period then
    period <- JS.get p "timePeriod" ;;
    has_start <- JS.hasOwnProperty period "startDate" ;;
    if has_start then
      period' <- JS.get p "timePeriod" ;;
      has_end <- JS.hasOwnProperty period' "endDate" ;;
      Ok (negb has_end)
    else Ok false
  else Ok false.

(** Lines 438-445 of [_scrubFullProfileResponse]: the workaround for the
    upstream duplication of headline and occupation. *)
Definition rederive_occupation (profile : value)
  (socialProfile : list (string * value)) : outcome (list (string * value)) :=
  if JS.strict_eq (JS.field socialProfile "headline")
                  (JS.field socialProfile "occupation") then
    els <- view_elements profile "positionView" ;;
    filtered <- JS.array_filter els is_current_position ;;
    let currentPositions := JS.or_else filtered (VArr []) in
    first <- JS.get currentPositions "0" ;;
    let currentPosition := JS.or_else first (VObj []) in
    title <- get_or currentPosition "title" (VStr "") ;;
    Ok (JS.set_prop "occupation" title socialProfile)
  else Ok socialProfile.

(** [_scrubFullProfileResponse(profile)]. The projects are scrubbed through
    [_scrubProjectInfo], whose write to each raw project is not read again
    here: only its return value enters the result. *)
Definition _scrubFullProfileResponse (profile : value) : outcome value :=
  let sp := [("source", VStr "LinkedIn")] in
  v <- profile_field_or profile "firstName" (VStr "") ;;
  let sp := JS.set_prop "firstname" v sp in
  v <- profile_field_or profile "lastName" (VStr "") ;;
  let sp := JS.set_prop "lastname" v sp in
  v <- profile_field_or profile "headline" (VStr "") ;;
  let sp := JS.set_prop "headline" v sp in
  v <- profile_field_or profile "industryName" (VStr "") ;;
  let sp := JS.set_prop "industryName" v sp in
  v <- profile_field_or profile "summary" (VStr "") ;;
  let sp := JS.set_prop "summary" v sp in
  v <- profile_field_or profile "locationName" (VStr "") ;;
  let sp := JS.set_prop "location" v sp in
  v <- get_or profile "emailAddress" (VStr "") ;;
  let sp := JS.set_prop "emailAddress" v sp in
  v <- JS.get profile "publicIdentifier" ;;
  let sp := JS.set_prop "publicIdentifier" v sp in
  mini <- profile_field profile "miniProfile" ;;
  v <- get_or mini "occupation" (VStr "") ;;
  let sp := JS.set_prop "occupation" v sp in
  v <- profile_field_or profile "address" (VStr "") ;;
  let sp := JS.set_prop "address" v sp in
  v <- get_or profile "birthDateOn" (VObj []) ;;
  let sp := JS.set_prop "birthdate" v sp in
  let sp := JS.set_prop "phoneNumbers" (VArr []) sp in
  let sp := JS.set_prop "twitterHandles" (VArr []) sp in
  let sp := JS.set_prop "picture" (VStr "") sp in
  sp <- when_has profile "phoneNumbers" (fun sp =>
      v <- JS.get profile "phoneNumbers" ;;
      Ok (JS.set_prop "phoneNumbers" v sp)) sp ;;
  sp <- when_has profile "twitterHandles" (fun sp =>
      l <- JS.get profile "twitterHandles" ;;
      names <- JS.array_map l (fun twitter => JS.get twitter "name") ;;
      Ok (JS.set_prop "twitterHandles" (JS.or_else names (VArr [])) sp)) sp ;;
  pp <- JS.get profile "profile" ;;
  has_picture <- has_nested pp "pictureInfo" "masterImage" ;;
  sp <- (if has_picture then
           info <- profile_field profile "pictureInfo" ;;
           image <- JS.get info "masterImage" ;;
           path <- JS.to_string image ;;
           Ok (JS.set_prop "picture" (VStr (LI_CDN ++ path)) sp)
         else Ok sp) ;;
  v <- map_view profile "educationView" _scrubEducationInfo ;;
  let sp := JS.set_prop "education" v sp in
  v <- map_view profile "patentView" _scrubPatentInfo ;;
  let sp := JS.set_prop "patents" v sp in
  v <- map_view profile "publicationView" _scrubPublicationInfo ;;
  let sp := JS.set_prop "publications" v sp in
  v <- map_view profile "projectView"
         (fun p => r <- _scrubProjectInfo p ;; Ok (fst r)) ;;
  let sp := JS.set_prop "projects" v sp in
  v <- map_view profile "positionView" _scrubPositionInfo ;;
  let sp := JS.set_prop "positions" v sp in
  v <- map_view profile "languageView" (fun language => JS.get language "name") ;;
  let sp := JS.set_prop "languages" v sp in
  v <- map_view profile "skillView" (fun skill => JS.get skill "name") ;;
  let sp := JS.set_prop "skills" v sp in
  has_websites <- has_nonempty profile "websites" ;;
  sp <- (if has_websites then
           l <- JS.get profile "websites" ;;
           ws <- JS.array_map l _scrubWebsiteInfo ;;
           Ok (JS.set_prop "websites" (JS.or_else ws (VArr [])) sp)
         else Ok sp) ;;
  sp <- rederive_occupation profile sp ;;
  Ok (VObj sp).

(* ===================================================================== *)
(** ** The network layer *)
(* ===================================================================== *)

Record request : Type := mkRequest {
  req_url : string;
  req_method : string;
  req_credentials : string;
  req_headers : list (string * string)
}.

(** What [fetch] does with a request: the promise rejects, or it resolves
    with a response whose [ok] flag tells a 2xx status and whose body parses
    as JSON or does not. *)
Inductive fetch_result : Type :=
| Fetch_rejects (detail : string)
| Fetch_response (ok : bool) (body : option value).

(** A promise once it has settled. *)
Inductive promise (A : Type) : Type :=
| Resolved (a : A)
| Rejected (e : error).

Arguments Resolved {A} a.
Arguments Rejected {A} e.

(** What the client leaves behind: the requests it issued, oldest first, and
    what it wrote with [console.error]. Entries of sub-fetches in flight at
    the same time are recorded in the order of the fetches. *)
Record world : Type := mkWorld {
  requests : list request;
  console : list error
}.

Definition issue (r : request) (w : world) : world :=
  mkWorld (requests w ++ [r]) (console w).

Definition console_error (e : error) (w : world) : world :=
  mkWorld (requests w) (console w ++ [e]).

(** The own enumerable properties [Object.assign] copies from a source. *)
Definition own_properties (v : value) : list (string * value) :=
  match v with
  | VObj kv => kv
  | VArr l => JS.indexed l
  | VStr s => JS.indexed (JS.chars s)
  | _ => []
  end.

(** [Object.assign(target, src)], for a source without an own property
    named "__proto__". *)
Definition assign (target : list (string * value)) (src : value)
  : list (string * value) :=
  fold_left (fun t kv => JS.set_prop (fst kv) (snd kv) t)
            (own_properties src) target.

(** [Object.assign] writes with ordinary assignment, and assigning to
    "__proto__" replaces the prototype of the target instead of adding a
    property. Records with a prototype of their own are not modelled. *)
Definition sets_prototype (src : value) : bool :=
  JS.has_key "__proto__" (own_properties src).

(** [Headers.append(name, value)] on a byte string: the value loses its
    leading and trailing HTTP white space (tab, line feed, carriage return,
    space), and is refused with a [TypeError] when what is left holds a NUL,
    a line feed or a carriage return. The name "csrf-token", the only one
    this file appends, is a valid header name in lower case. *)
Definition is_http_whitespace (a : ascii) : bool :=
  Ascii.eqb a "009" || Ascii.eqb a "010" || Ascii.eqb a "013"
  || Ascii.eqb a " ".

Fixpoint strip_leading (s : string) : string :=
  match s with
  | String a r => if is_http_whitespace a then strip_leading r else s
  | EmptyString => s
  end.

Fixpoint strip_trailing (s : string) : string :=
  match s with
  | EmptyString => EmptyString
  | String a r =>
      match strip_trailing r with
      | EmptyString =>
          if is_http_whitespace a then EmptyString else String a EmptyString
      | r' => String a r'
      end
  end.

Definition header_value_normalize (value : string) : string :=
  strip_trailing (strip_leading value).

Fixpoint header_value_valid (value : string) : bool :=
  match value with
  | EmptyString => true
  | String a r =>
      negb (Ascii.eqb a "000" || Ascii.eqb a "010" || Ascii.eqb a "013")
      && header_value_valid r
  end.

Definition headers_append (name value : string)
  (h : list (string * string)) : outcome (list (string * string)) :=
  let value := header_value_normalize value in
  if header_value_valid value then Ok (h ++ [(name, value)])
  else Throw (TypeError_header_value name value).

Section Client.

(** The server, and the token the client was constructed with. *)
Variable network : request -> fetch_result.
Variable csrfToken : string.

(** [_getRequestHeaders()], as every call of this file makes it: without
    extra headers. It throws when [Headers.append] refuses the token. *)
Definition _getRequestHeaders : outcome (list (string * string)) :=
  headers_append "csrf-token" csrfToken [].

(** [_fetchProfileResource(publicIdentifier, resource)]. The URL is built
    first, then the headers, which can throw, and then [fetch] is called;
    [Throw] is a synchronous throw, before any request, and [Ok p] the
    promise the function returns, as it settles. *)
Definition _fetchProfileResource (publicIdentifier : value) (resource : string)
  (w : world) : outcome (promise value) * world :=
  match JS.to_string publicIdentifier with
  | Ok id =>
      let url := (BASE_URL ++ "/identity/profiles/" ++ id ++ "/")%string in
      let url := if (resource =? "")%string then (url ++ "profileView")%string
                 else (url ++ resource)%string in
      match _getRequestHeaders with
      | Ok headers =>
          let r := mkRequest url "GET" "same-origin" headers in
          let w := issue r w in
          match network r with
          | Fetch_response true (Some json) => (Ok (Resolved json), w)
          | Fetch_response true None =>
              (Ok (Resolved (VObj [])), console_error SyntaxError_json w)
          | Fetch_response false _ =>
              (Ok (Resolved (VObj [])),
               console_error (Thrown_response false) w)
          | Fetch_rejects detail =>
              (Ok (Resolved (VObj [])),
               console_error (Network_failure detail) w)
          end
      | Throw e => (Throw e, w)
      | Beyond => (Beyond, w)
      end
  | Throw e => (Throw e, w)
  | Beyond => (Beyond, w)
  end.

(** [resources.map(resource => this._fetchProfileResource(id, resource))]. *)
Fixpoint fetch_all (publicIdentifier : value) (resources : list string)
  (w : world) : outcome (list (promise value)) * world :=
  match resources with
  | [] => (Ok [], w)
  | r :: rest =>
      match _fetchProfileResource publicIdentifier r w with
      | (Ok p, w') =>
          match fetch_all publicIdentifier rest w' with
          | (Ok ps, w'') => (Ok (p :: ps), w'')
          | other => other
          end
      | (Throw e, w') => (Throw e, w')
      | (Beyond, w') => (Beyond, w')
      end
  end.

(** [Promise.all]: the values when every promise resolved, else the first
    rejection. *)
Fixpoint promise_all {A : Type} (ps : list (promise A)) : promise (list A) :=
  match ps with
  | [] => Resolved []
  | Resolved a :: rest =>
      match promise_all rest with
      | Resolved l => Resolved (a :: l)
      | Rejected e => Rejected e
      end
  | Rejected e :: _ => Rejected e
  end.

(** [getFullProfile(publicIdentifier)]: [Throw] is the synchronous throw of
    line 51, [Ok p] the promise the function returns. *)
Definition getFullProfile (publicIdentifier : value) (w : world)
  : outcome (promise value) * world :=
  if negb (JS.truthy publicIdentifier)
  then (Throw (Error_msg "a public identifier is required"), w)
  else
    let resources := ["profileView"; "profileContactInfo"; "highlights"] in
    match fetch_all publicIdentifier resources w with
    | (Ok ps, w') =>
        match promise_all ps with
        | Resolved responses =>
            if existsb sets_prototype responses then (Beyond, w')
            else
              let fullProfile := [("publicIdentifier", publicIdentifier)] in
              let fullProfile := fold_left assign responses fullProfile in
              match _scrubFullProfileResponse (VObj fullProfile) with
              | Ok p => (Ok (Resolved p), w')
              | Throw e => (Ok (Rejected e), w')
              | Beyond => (Beyond, w')
              end
        | Rejected e => (Ok (Rejected e), w')
        end
    | (Throw e, w') => (Throw e, w')
    | (Beyond, w') => (Beyond, w')
    end.

End Client.

(* ===================================================================== *)
(** ** The vocabulary of the statements *)
(* ===================================================================== *)

Definition digit_char (d : nat) : ascii := ascii_of_nat (48 + d).

(** The decimal numeral with the given digits, most significant first. *)
Fixpoint numeral (ds : list nat) : string :=
  match ds with
  | [] => EmptyString
  | d :: r => String (digit_char d) (numeral r)
  end.



(** The raw positions of a profile. *)
Definition positions_of (profile : value) : list value :=
  match JS.prop (JS.prop profile "positionView") "elements" with
  | VArr l => l
  | _ => []
  end.

(** The request [_fetchProfileResource] issues for an identifier that prints
    as [id], in a client whose token is accepted: the header carries the
    token without the white space around it. *)
Definition profile_request (csrfToken id resource : string) : request :=
  let url := (BASE_URL ++ "/identity/profiles/" ++ id ++ "/")%string in
  let url := if (resource =? "")%string then (url ++ "profileView")%string
             else (url ++ resource)%string in
  mkRequest url "GET" "same-origin"
            [("csrf-token", header_value_normalize csrfToken)].

(** A token that [Headers.append] accepts: once the white space around it
    is gone, it holds no NUL, line feed or carriage return. *)
Definition accepted (csrfToken : string) : Prop :=
  header_value_valid (header_value_normalize csrfToken) = true.

(** A sub-fetch fails when [fetch] rejects, when the status is not 2xx, or
    when the body is not JSON. *)
Definition failed (fr : fetch_result) : bool :=
  match fr with
  | Fetch_response true (Some _) => false
  | _ => true
  end.

(** What a sub-fetch hands to the merge. *)
Definition settled (fr : fetch_result) : value :=
  match fr with
  | Fetch_response true (Some json) => json
  | _ => VObj []
  end.

(** What a sub-fetch writes to the console. *)
Definition logged (fr : fetch_result) : list error :=
  match fr with
  | Fetch_response true (Some _) => []
  | Fetch_response true None => [SyntaxError_json]
  | Fetch_response false _ => [Thrown_response false]
  | Fetch_rejects detail => [Network_failure detail]
  end.

Definition profile_resources : list string :=
  ["profileView"; "profileContactInfo"; "highlights"].


Definition lacks (keys : list string) (v : value) : Prop :=
  Forall (fun k => JS.lookup k (own_properties v) = None) keys.

(** A mapping that does not shadow [hasOwnProperty]. *)
Definition plain (raw : list (string * value)) : Prop :=
  JS.has_key "hasOwnProperty" raw = false.

(** A profile as the three sub-resources make it, with headline and
    occupation duplicated, a past position and a current one. *)
Definition sample_profile_view : value :=
  VObj [("profile",
         VObj [("firstName", VStr "Ada"); ("lastName", VStr "Lovelace");
               ("headline", VStr "Mathematician at Analytical Engines");
               ("miniProfile",
                VObj [("occupation",
                       VStr "Mathematician at Analytical Engines")])]);
        ("educationView", VObj [("elements", VArr [])]);
        ("patentView", VObj [("elements", VArr [])]);
        ("publicationView", VObj [("elements", VArr [])]);
        ("projectView", VObj [("elements", VArr [])]);
        ("positionView",
         VObj [("elements",
                VArr [VObj [("title", VStr "Tutor");
                            ("timePeriod",
                             VObj [("startDate", VObj [("year", VNum 1840)]);
                                   ("endDate", VObj [("year", VNum 1842)])])];
                      VObj [("title", VStr "Engineer");
                            ("companyUrn", VStr "urn:li:fs_miniCompany:1843");
                            ("timePeriod",
                             VObj [("startDate",
                                    VObj [("year", VNum 1843)])])]])]);
        ("languageView", VObj [("elements", VArr [])]);
        ("skillView", VObj [("elements", VArr [])])].


(** A server that answers profile-view and highlights for "ada" and drops
    every other request. *)
Definition sample_network (r : request) : fetch_result :=
  if (req_url r =?
      "https://www.linkedin.com/voyager/api/identity/profiles/ada/profileView")%string
  then Fetch_response true (Some sample_profile_view)
  else if (req_url r =?
           "https://www.linkedin.com/voyager/api/identity/profiles/ada/highlights")%string
  then Fetch_response true (Some (VObj [("elements", VArr [])]))
  else Fetch_rejects "connection reset".

(** No server at all. *)
Definition offline (r : request) : fetch_result := Fetch_rejects "offline".

Definition fresh_world : world := mkWorld [] [].

Definition sample_full_profile : value :=
  Eval vm_compute in
    match _scrubFullProfileResponse
            (VObj (assign (assign [("publicIdentifier", VStr "ada")]
                                  sample_profile_view)
                          (VObj [("elements", VArr [])])))
    with
    | Ok p => p
    | _ => VUndef
    end.

(* ===================================================================== *)
(** ** Further code and the vocabulary of its statements *)
(* ===================================================================== *)

(** Whether the character occurs in the string. *)
Fixpoint has_char (c : ascii) (s : string) : bool :=
  match s with
  | EmptyString => false
  | String a r => Ascii.eqb a c || has_char c r
  end.

(** What [extractRootDomain] makes of the dot-separated labels of a host
    name. *)
Definition root_of_labels (labels : list string) : string :=
  match labels with
  | [host; tld] => host ++ "." ++ tld
  | [_; host; tld] => host ++ "." ++ tld
  | [_; host; tld; tld2] => host ++ "." ++ tld ++ "." ++ tld2
  | _ => "undefined.undefined"
  end.

(** A URL path: nothing, or a slash and the rest. *)
Definition is_path (p : string) : Prop :=
  p = "" \/ exists rest, p = String "/"%char rest.

(** The lists of a normalized profile and the raw views they come from. *)
Definition profile_lists : list (string * string) :=
  [("education", "educationView"); ("patents", "patentView");
   ("publications", "publicationView"); ("projects", "projectView");
   ("positions", "positionView"); ("languages", "languageView");
   ("skills", "skillView")].

(** A profile whose headline and occupation differ. *)
Definition sample_profile_distinct : value :=
  VObj [("profile",
         VObj [("firstName", VStr "Ada");
               ("headline", VStr "Countess of Lovelace");
               ("miniProfile", VObj [("occupation", VStr "Mathematician")])]);
        ("educationView", VObj [("elements", VArr [])]);
        ("patentView", VObj [("elements", VArr [])]);
        ("publicationView", VObj [("elements", VArr [])]);
        ("projectView", VObj [("elements", VArr [])]);
        ("positionView",
         VObj [("elements",
                VArr [VObj [("title", VStr "Engineer");
                            ("timePeriod",
                             VObj [("startDate",
                                    VObj [("year", VNum 1843)])])]])]);
        ("languageView",
         VObj [("elements", VArr [VObj [("name", VStr "English")];
                                  VObj [("name", VStr "French")]])]);
        ("skillView", VObj [("elements", VArr [])])].

Definition sample_distinct_normalized : value :=
  Eval vm_compute in
    match _scrubFullProfileResponse sample_profile_distinct with
    | Ok p => p
    | _ => VUndef
    end.

(* ===================================================================== *)
(** ** The base client and the company lookup *)
(* ===================================================================== *)

(** A response, as far as the client reads it: [res.ok], and what
    [res.json()] resolves with ([None] when the body is not JSON and the
    promise rejects). *)
Record response : Type := mkResponse {
  res_ok : bool;
  res_json : option value
}.

(** What [fetch(url, options)] settles with. *)
Inductive fetch_reply : Type :=
| Reply_rejects (detail : string)
| Reply (res : response).

(** What a promise of the base client rejects with: the bare string of
    [Promise.reject('...')], the response of [throw res], or an error. *)
Inductive rejection : Type :=
| Reject_message (msg : string)
| Reject_response (res : response)
| Reject_error (e : error).

(** What [_sendRequest] fulfils with: the response itself under [raw], the
    parsed body otherwise. *)
Inductive delivery : Type :=
| Delivered_raw (res : response)
| Delivered_json (json : value).

Inductive settlement (A : Type) : Type :=
| Fulfils (a : A)
| Rejects (r : rejection).

Arguments Fulfils {A} a.
Arguments Rejects {A} r.

(** One call of [fetch]: the URL and the options object as passed. *)
Definition fetch_call : Type := (string * value)%type.

(** The result of a call of [_sendRequest]: what it returns, its options
    argument as the call leaves it, and the [fetch] calls made so far. *)
Record sent : Type := mkSent {
  sent_result : outcome (settlement delivery);
  sent_options : value;
  sent_calls : list fetch_call
}.

Section Transport.

(** The platform: [fetch] on a URL and an options object, and
    [JSON.stringify] on a value that is not [undefined]. *)
Variable fetch : string -> value -> fetch_reply.
Variable JSON_stringify : value -> string.

(** [requestOptions.body && requestOptions.body.constructor !== String]:
    no JSON value is the [String] constructor, so a truthy body passes
    unless it is a string. *)
Definition body_to_stringify (body : value) : bool :=
  JS.truthy body && match body with VStr _ => false | _ => true end.

(** [_sendRequest(url, requestOptions)] of [APIClient]. *)
Definition _sendRequest (url : string) (requestOptions : value)
  (calls : list fetch_call) : sent :=
  let required :=
    mkSent (Ok (Rejects (Reject_message "A request options object is required")))
           requestOptions calls in
  match JS.constructor_is_Object requestOptions with
  | Throw e => mkSent (Throw e) requestOptions calls
  | Beyond => mkSent Beyond requestOptions calls
  | Ok false => required
  | Ok true =>
      match JS.keys requestOptions with
      | Throw e => mkSent (Throw e) requestOptions calls
      | Beyond => mkSent Beyond requestOptions calls
      | Ok ks =>
          if (List.length ks =? 0)%nat then required
          else
            let body := JS.prop requestOptions "body" in
            let requestOptions :=
              if body_to_stringify body
              then assign_prop requestOptions "body"
                               (VStr (JSON_stringify body))
              else requestOptions in
            let calls := calls ++ [(url, requestOptions)] in
            let settled_as :=
              match fetch url requestOptions with
              | Reply_rejects detail =>
                  Rejects (Reject_error (Network_failure detail))
              | Reply res =>
                  if negb (res_ok res) then Rejects (Reject_response res)
                  else if JS.truthy (JS.prop requestOptions "raw")
                  then Fulfils (Delivered_raw res)
                  else match res_json res with
                       | Some json => Fulfils (Delivered_json json)
                       | None => Rejects (Reject_error SyntaxError_json)
                       end
              end in
            mkSent (Ok settled_as) requestOptions calls
      end
  end.

Variable csrfToken : string.

(** The options [getCompany] builds, once [_getRequestHeaders()] has
    returned the headers. The [Headers] object is carried as the mapping of
    its entries. *)
Definition company_options (headers : list (string * string)) : value :=
  VObj [("method", VStr "GET");
        ("credentials", VStr "same-origin");
        ("headers", VObj (map (fun h => (fst h, VStr (snd h))) headers))].

(** The options of a client whose token is accepted: the header carries the
    token without the white space around it. *)
Definition company_request : value :=
  company_options [("csrf-token", header_value_normalize csrfToken)].

Definition company_url (id : string) : string :=
  BASE_URL ++ "/organization/companies?q=universalName&universalName=" ++ id.

(** The [then] callback of [getCompany]:
    [this._scrubCompanyResponse(res.elements[0])]. A raw response has no
    [elements]. *)
Definition first_company (d : delivery) : outcome value :=
  match d with
  | Delivered_json res =>
      elements <- JS.get res "elements" ;;
      first <- JS.get elements "0" ;;
      _scrubCompanyResponse first
  | Delivered_raw _ => Throw (TypeError_read "0" VUndef)
  end.

(** [getCompany(companyId)]: [Throw] is a synchronous throw (of the URL
    template or of [_getRequestHeaders()], both evaluated before the
    request), [Ok p] the promise it returns, as it settles; and the [fetch]
    calls made. *)
Definition getCompany (companyId : value) (calls : list fetch_call)
  : outcome (promise value) * list fetch_call :=
  match JS.to_string companyId with
  | Ok id =>
      match _getRequestHeaders csrfToken with
      | Ok headers =>
          let s :=
            _sendRequest (company_url id) (company_options headers) calls in
          match sent_result s with
          | Ok (Fulfils d) =>
              match first_company d with
              | Ok company => (Ok (Resolved company), sent_calls s)
              | Throw _ => (Ok (Resolved (VObj [])), sent_calls s)
              | Beyond => (Beyond, sent_calls s)
              end
          | Ok (Rejects _) => (Ok (Resolved (VObj [])), sent_calls s)
          | Throw e => (Throw e, sent_calls s)
          | Beyond => (Beyond, sent_calls s)
          end
      | Throw e => (Throw e, calls)
      | Beyond => (Beyond, calls)
      end
  | Throw e => (Throw e, calls)
  | Beyond => (Beyond, calls)
  end.

End Transport.

(** The profile-view answer of [sample_network] with a stale e-mail address
    added. *)
Definition sample_view_with_email : value :=
  match sample_profile_view with
  | VObj kv => VObj (("emailAddress", VStr "stale@analytical.example") :: kv)
  | v => v
  end.

(** A server that answers all three sub-resources for "ada". *)
Definition sample_network_contact (r : request) : fetch_result :=
  if (req_url r =?
      "https://www.linkedin.com/voyager/api/identity/profiles/ada/profileView")%string
  then Fetch_response true (Some sample_view_with_email)
  else if (req_url r =?
           "https://www.linkedin.com/voyager/api/identity/profiles/ada/profileContactInfo")%string
  then Fetch_response true
         (Some (VObj [("emailAddress", VStr "ada@analytical.example");
                      ("twitterHandles", VArr [VObj [("name", VStr "ada")]])]))
  else Fetch_response true (Some (VObj [("elements", VArr [])])).

Definition sample_contact_profile : value :=
  Eval vm_compute in
    match fst (getFullProfile sample_network_contact "token" (VStr "ada")
                              fresh_world) with
    | Ok (Resolved p) => p
    | _ => VUndef
    end.

(** A raw company, and a company lookup that answers with it and one
    more. *)
Definition sample_company : value :=
  VObj [("name", VStr "Analytical Engines");
        ("universalName", VStr "analytical-engines");
        ("entityUrn", VStr "urn:li:fs_normalized_company:1843");
        ("companyPageUrl", VStr "https://www.analytical.example/about");
        ("headquarter", VObj [("city", VStr "London")])].

Definition sample_company_normalized : value :=
  Eval vm_compute in
    match _scrubCompanyResponse sample_company with
    | Ok c => c
    | _ => VUndef
    end.

Definition sample_lookup (url : string) (options : value) : fetch_reply :=
  Reply (mkResponse true
           (Some (VObj [("elements",
                         VArr [sample_company;
                               VObj [("name", VStr "Another")]])]))).

(** A lookup that finds nothing. *)
Definition empty_lookup (url : string) (options : value) : fetch_reply :=
  Reply (mkResponse true (Some (VObj [("elements", VArr [])]))).

Definition sample_stringify (v : value) : string := "{}".

(** A token with a line feed inside: "a", LF, "b". *)
Definition line_feed_token : string :=
  String "a" (String "010" (String "b" EmptyString)).

(* ===================================================================== *)
(** ** The string helpers of utils.js *)
(* ===================================================================== *)

(** The double quote character. *)
Definition dquote : ascii := "034"%char.

(** [while (c.charAt(0) == ' ') c = c.substring(1, c.length)]. *)
Fixpoint strip_spaces (c : string) : string :=
  match c with
  | String a r => if Ascii.eqb a " " then strip_spaces r else c
  | EmptyString => c
  end.

(** [s.replace(/x/g, '')] for a single character [x]. *)
Fixpoint remove_char (x : ascii) (s : string) : string :=
  match s with
  | EmptyString => EmptyString
  | String a r =>
      if Ascii.eqb a x then remove_char x r else String a (remove_char x r)
  end.

(** The loop of [getCookieValue] over the pieces of the cookie string:
    [c.indexOf(cookieKey) == 0] holds when [c] starts with [cookieKey]. *)
Fixpoint find_cookie (cookieKey : string) (ca : list string) : string :=
  match ca with
  | [] => ""
  | c :: rest =>
      let c := strip_spaces c in
      if prefix cookieKey c
      then remove_char dquote
             (substring (String.length cookieKey)
                        (String.length c - String.length cookieKey) c)
      else find_cookie cookieKey rest
  end.

(** [getCookieValue(cookies, key)] of [utils.js]. *)
Definition getCookieValue (cookies key : value) : outcome value :=
  if negb (JS.truthy cookies) || negb (JS.truthy key) then Ok (VStr "")
  else
    k <- JS.to_string key ;;
    let cookieKey := (k ++ "=")%string in
    ca <- JS.split cookies ";"%char ;;
    Ok (VStr (find_cookie cookieKey ca)).

(** A cookie string: the pairs written [name=value] and joined by "; ", as
    [document.cookie] gives them. *)
Definition cookie_header (pairs : list (string * string)) : string :=
  String.concat "; " (map (fun p => (fst p ++ "=" ++ snd p)%string) pairs).

(** The value of the first pair with the given name. *)
Fixpoint cookie_named (key : string) (pairs : list (string * string))
  : option string :=
  match pairs with
  | [] => None
  | (name, v) :: rest =>
      if (key =? name)%string then Some v else cookie_named key rest
  end.

(** A pair a cookie string can carry: no "=", ";" or space in the name, no
    ";" in the value. *)
Definition cookie_pair_ok (p : string * string) : Prop :=
  has_char "=" (fst p) = false /\ has_char ";" (fst p) = false
  /\ has_char " " (fst p) = false /\ has_char ";" (snd p) = false.

(** Whether [pat] occurs in [s]: [s.indexOf(pat) !== -1]. *)
Fixpoint contains (pat s : string) : bool :=
  prefix pat s
  || match s with
     | EmptyString => false
     | String _ r => contains pat r
     end.

(** [s.split(sep)] for a separator of one character or more: the pieces
    between the occurrences of [sep], found from the left and not
    overlapping. [skip] counts the characters of a separator just found that
    are still to be passed over. *)
Fixpoint split_by (sep s : string) (skip : nat) : list string :=
  match s with
  | EmptyString => [EmptyString]
  | String a r =>
      match skip with
      | S k => split_by sep r k
      | O =>
          if prefix sep s
          then EmptyString :: split_by sep r (String.length sep - 1)
          else match split_by sep r 0 with
               | p :: ps => String a p :: ps
               | [] => [String a EmptyString]
               end
      end
  end.

(** [getPublicIdentifier(profileUrl)] of [utils.js]. A string has
    [indexOf], [split] and [substring]; an array has [indexOf], which looks
    for an element, and no [split]; nothing else has [indexOf]. *)
Definition getPublicIdentifier (profileUrl : value) : outcome value :=
  if negb (JS.truthy profileUrl) then Ok (VStr "")
  else
    match profileUrl with
    | VStr url =>
        if contains "linkedin.com/in/" url then
          match nth_error (split_by "/in/" url 0) 1 with
          | Some handle =>
              match String.index 0 "/" handle with
              | Some i => Ok (VStr (substring 0 i handle))
              | None => Ok (VStr handle)
              end
          | None => Throw (TypeError_read "indexOf" VUndef)
          end
        else if contains "linkedin.com/pub/" url then
          let dirtyHandle :=
            match nth_error (split_by "/pub/" url 0) 1 with
            | Some h => h
            | None => ""
            end in
          let dirtyIds := JS.split_on "/" dirtyHandle in
          let username := hd "" dirtyIds in
          Ok (VStr (username ++ "-" ++ String.concat "" (List.rev (tl dirtyIds))))
        else Ok (VStr "")
    | VArr l =>
        if existsb (fun x => JS.strict_eq x (VStr "linkedin.com/in/")) l
        then Throw (TypeError_not_a_function "split")
        else if existsb (fun x => JS.strict_eq x (VStr "linkedin.com/pub/")) l
        then Throw (TypeError_not_a_function "split")
        else Ok (VStr "")
    | _ => Throw (TypeError_not_a_function "indexOf")
    end.

(* ===================================================================== *)
(** ** The vocabulary of the defaults *)
(* ===================================================================== *)

(** [v.k1.k2...] read without throwing: [undefined] where the path
    breaks. *)
Fixpoint path (v : value) (ks : list string) : value :=
  match ks with
  | [] => v
  | k :: r => path (JS.prop v k) r
  end.

(** Whether [v] has the properties of a path as own properties, each inside
    the one before. *)
Fixpoint present (v : value) (ks : list string) : bool :=
  match ks with
  | [] => true
  | k :: r => JS.own v k && present (JS.prop v k) r
  end.

(** What a transform does with one field of the record it returns.
    - [Default given name key d]: written [raw.key || d], inside the
      optional part [given] when that is not empty;
    - [Initial name key d]: set to [d] first and overwritten only under
      [hasOwnProperty] of [key];
    - [Variant name key sub d]: written [raw.key[k].sub || d] for the first
      key [k] of [raw.key];
    - [Defined name d]: written [... || d] from more than one place;
    - [Copied name key]: written [raw.key], with no default;
    - [Omitted name key]: written only under [hasOwnProperty] of [key]. *)
Inductive rule : Type :=
| Default (given name key : list string) (d : value)
| Initial (name : string) (key : list string) (d : value)
| Variant (name key sub : string) (d : value)
| Defined (name : string) (d : value)
| Copied (name key : string)
| Omitted (name : string) (key : list string).

(** What each rule promises of the record [out] returned for [raw]: the
    default where the raw field is absent or otherwise falsy; the initial
    value where the raw field is absent; a value that is the default or
    truthy; the raw value itself, so [undefined] where it is absent; no
    field at all where the raw field is absent. *)
Definition holds (raw out : value) (r : rule) : Prop :=
  match r with
  | Default given name key d =>
      present raw given = true ->
      JS.truthy (path raw key) = false ->
      path out name = d
  | Initial name key d =>
      present raw key = false -> JS.prop out name = d
  | Variant name key sub d =>
      forall ks,
        JS.keys (JS.prop raw key) = Ok ks ->
        JS.truthy (path raw [key; JS.first_key ks; sub]) = false ->
        JS.prop out name = d
  | Defined name d =>
      JS.prop out name = d \/ JS.truthy (JS.prop out name) = true
  | Copied name key =>
      JS.own out name = true /\ JS.prop out name = JS.prop raw key
  | Omitted name key =>
      present raw key = false -> JS.own out name = false
  end.

(** A field of the record itself, written [raw.key || d]. *)
Definition top (name key : string) (d : value) : rule :=
  Default [] [name] [key] d.

Definition patent_rules : list rule :=
  [top "applicationNumber" "applicationNumber" (VStr "");
   top "description" "description" (VStr "");
   top "filingDate" "filingDate" (VObj []);
   top "issueDate" "issueDate" (VObj []);
   top "number" "number" (VStr "");
   Copied "pending" "pending";
   top "title" "title" (VStr "");
   top "url" "url" (VStr "");
   Omitted "inventors" ["inventors"]].

Definition publication_rules : list rule :=
  [top "date" "date" (VObj []);
   top "description" "description" (VStr "");
   top "name" "name" (VStr "");
   top "publisher" "publisher" (VStr "");
   top "url" "url" (VStr "");
   Omitted "authors" ["authors"]].

Definition project_rules : list rule :=
  [top "description" "description" (VStr "");
   top "timePeriod" "timePeriod" (VObj []);
   top "title" "title" (VStr "");
   top "url" "url" (VStr "");
   Omitted "members" ["members"]].

Definition position_rules : list rule :=
  [top "locationName" "locationName" (VStr "");
   top "companyName" "companyName" (VStr "");
   top "linkedInCompanyId" "companyUrn" (VStr "");
   top "description" "description" (VStr "");
   top "timePeriod" "timePeriod" (VObj []);
   top "title" "title" (VStr "");
   Default ["company"] ["company"; "employeeCountRange"]
           ["company"; "employeeCountRange"] (VObj []);
   Default ["company"] ["company"; "industries"]
           ["company"; "industries"] (VArr []);
   Omitted "company" ["company"]].

Definition education_rules : list rule :=
  [top "activities" "activities" (VStr "");
   top "degreeName" "degreeName" (VStr "");
   top "fieldOfStudy" "fieldOfStudy" (VStr "");
   top "timePeriod" "timePeriod" (VObj []);
   top "schoolName" "schoolName" (VStr "");
   Default ["school"] ["school"; "active"] ["school"; "active"]
           (VBool false);
   Default ["school"] ["school"; "name"] ["school"; "schoolName"]
           (VStr "");
   Omitted "school" ["school"]].

Definition company_rules : list rule :=
  [top "affiliatedCompanies" "affiliatedCompanies" (VArr []);
   top "pageUrl" "companyPageUrl" (VStr "");
   top "domain" "companyPageUrl" (VStr "");
   Initial "type" ["companyType"] (VStr "");
   top "confirmedLocations" "confirmedLocations" (VArr []);
   Copied "description" "description";
   Copied "linkedInUrn" "entityUrn";
   Copied "name" "name";
   top "specialities" "specialities" (VArr []);
   Copied "universalName" "universalName";
   top "linkedInPageUrl" "url" (VStr "");
   top "parentCompanyLinkedInId" "parentCompany" (VStr "");
   top "linkedInId" "entityUrn" (VStr "");
   Default ["foundedOn"] ["foundedOn"] ["foundedOn"; "year"] (VStr "");
   Default ["headquarter"] ["city"] ["headquarter"; "city"] (VStr "");
   Default ["headquarter"] ["country"] ["headquarter"; "country"] (VStr "");
   Default ["headquarter"] ["geographicArea"]
           ["headquarter"; "geographicArea"] (VStr "");
   Default ["headquarter"] ["addr1"] ["headquarter"; "line1"] (VStr "");
   Default ["headquarter"] ["addr2"] ["headquarter"; "line2"] (VStr "");
   Default ["headquarter"] ["postalCode"] ["headquarter"; "postalCode"]
           (VStr "");
   Default ["followingInfo"] ["linkedInFollowerCount"]
           ["followingInfo"; "followerCount"] (VNum 0);
   Default ["staffCount"] ["staffCount"] ["staffCount"] (VNum 0);
   Omitted "foundedOn" ["foundedOn"];
   Omitted "industries" ["companyIndustries"];
   Omitted "city" ["headquarter"];
   Omitted "country" ["headquarter"];
   Omitted "geographicArea" ["headquarter"];
   Omitted "addr1" ["headquarter"];
   Omitted "addr2" ["headquarter"];
   Omitted "postalCode" ["headquarter"];
   Omitted "linkedInFollowerCount" ["followingInfo"];
   Omitted "staffCount" ["staffCount"];
   Omitted "logo" ["logo"; "image"];
   Omitted "backgroundCoverImage" ["backgroundCoverImage"; "image"];
   Omitted "backgroundCoverPhoto" ["backgroundCoverPhoto"]].

Definition website_rules : list rule :=
  [Copied "website" "url";
   Variant "type" "type" "category" (VStr "Portfolio")].

Definition member_rules : list rule :=
  [Default [] ["firstname"] ["member"; "firstName"] (VStr "");
   Default [] ["lastname"] ["member"; "lastName"] (VStr "");
   Default [] ["occupation"] ["member"; "occupation"] (VStr "");
   Default [] ["publicIdentifier"] ["member"; "publicIdentifier"] (VStr "");
   Omitted "picture" ["member"; "picture"]].

Definition profile_rules : list rule :=
  [Default [] ["firstname"] ["profile"; "firstName"] (VStr "");
   Default [] ["lastname"] ["profile"; "lastName"] (VStr "");
   Default [] ["headline"] ["profile"; "headline"] (VStr "");
   Default [] ["industryName"] ["profile"; "industryName"] (VStr "");
   Default [] ["summary"] ["profile"; "summary"] (VStr "");
   Default [] ["location"] ["profile"; "locationName"] (VStr "");
   top "emailAddress" "emailAddress" (VStr "");
   Copied "publicIdentifier" "publicIdentifier";
   Defined "occupation" (VStr "");
   Default [] ["address"] ["profile"; "address"] (VStr "");
   top "birthdate" "birthDateOn" (VObj []);
   Initial "phoneNumbers" ["phoneNumbers"] (VArr []);
   Initial "twitterHandles" ["twitterHandles"] (VArr []);
   Initial "picture" ["profile"; "pictureInfo"; "masterImage"] (VStr "");
   Defined "education" (VArr []);
   Defined "patents" (VArr []);
   Defined "publications" (VArr []);
   Defined "projects" (VArr []);
   Defined "positions" (VArr []);
   Defined "languages" (VArr []);
   Defined "skills" (VArr []);
   Omitted "websites" ["websites"]].

(** [f] returns on [a]: it neither throws nor leaves the JavaScript this
    development gives a meaning to. *)
Definition accepts {A B : Type} (f : A -> outcome B) (a : A) : Prop :=
  exists b, f a = Ok b.

(** A value whose properties can be read. *)
Definition non_nullish (v : value) : Prop :=
  match v with
  | VUndef | VNull => False
  | _ => True
  end.

(** A value that answers [hasOwnProperty]: not [undefined], not [null], and
    not a mapping that shadows the method. *)
Definition record (v : value) : Prop :=
  match v with
  | VUndef | VNull => False
  | VObj kv => plain kv
  | _ => True
  end.

(** An optional property: absent, or fit. *)
Definition optional (v : value) (k : string) (fit : value -> Prop) : Prop :=
  JS.own v k = true -> fit (JS.prop v k).

Definition list_of (fit : value -> Prop) (v : value) : Prop :=
  exists l, v = VArr l /\ Forall fit l.

(** An image mapping that the resource-path rule accepts. *)
Definition image (v : value) : Prop := accepts _scrubPathToResource v.

(** A sub-record with an optional image under [k]. *)
Definition with_image (k : string) (v : value) : Prop :=
  record v /\ optional v k image.

(** The record [_scrubProjectInfo] returns. *)
Definition scrubbed_project (project : value) : outcome value :=
  r <- _scrubProjectInfo project ;; Ok (fst r).

(** The raw entities whose optional parts are absent or well-formed. *)
Definition member_fit (member : value) : Prop :=
  JS.truthy member = true ->
  JS.truthy (JS.prop member "member") = true ->
  with_image "picture" (JS.prop member "member").

Definition patent_fit (patent : value) : Prop :=
  record patent
  /\ optional patent "inventors"
       (list_of (fun inventor =>
                   record inventor
                   /\ optional inventor "member" (accepts _scrubMemberInfo))).

Definition publication_fit (publication : value) : Prop :=
  record publication
  /\ optional publication "authors" (list_of (accepts _scrubMemberInfo)).

Definition project_fit (project : value) : Prop :=
  record project
  /\ optional project "members" (list_of (accepts _scrubMemberInfo)).

Definition position_fit (position : value) : Prop :=
  record position
  /\ accepts _scrubIdFromUrn (JS.prop position "companyUrn")
  /\ optional position "company"
       (fun company =>
          record company
          /\ optional company "miniCompany" (with_image "logo")).

Definition education_fit (education : value) : Prop :=
  record education /\ optional education "school" (with_image "logo").

Definition company_fit (company : value) : Prop :=
  record company
  /\ accepts extractRootDomain (JS.prop company "companyPageUrl")
  /\ accepts _scrubIdFromUrn (JS.prop company "parentCompany")
  /\ accepts _scrubIdFromUrn (JS.prop company "entityUrn")
  /\ optional company "companyType" non_nullish
  /\ optional company "foundedOn" non_nullish
  /\ optional company "companyIndustries" (list_of non_nullish)
  /\ optional company "headquarter" non_nullish
  /\ optional company "followingInfo" non_nullish
  /\ optional company "logo" (with_image "image")
  /\ optional company "backgroundCoverImage" (with_image "image")
  /\ optional company "backgroundCoverPhoto" image.

Definition website_fit (website : value) : Prop :=
  non_nullish website
  /\ exists ks,
       JS.keys (JS.prop website "type") = Ok ks
       /\ non_nullish (path website ["type"; JS.first_key ks]).

(** A view of the profile: a part with a list of [elements]. *)
Definition view (profile : value) (name : string) (fit : value -> Prop)
  : Prop :=
  non_nullish (JS.prop profile name)
  /\ list_of fit (path profile [name; "elements"]).

Definition profile_fit (profile : value) : Prop :=
  record profile
  /\ record (JS.prop profile "profile")
  /\ non_nullish (path profile ["profile"; "miniProfile"])
  /\ optional (JS.prop profile "profile") "pictureInfo"
       (fun info =>
          record info /\ optional info "masterImage" (accepts JS.to_string))
  /\ optional profile "twitterHandles" (list_of non_nullish)
  /\ optional profile "websites" (list_of (accepts _scrubWebsiteInfo))
  /\ view profile "educationView" (accepts _scrubEducationInfo)
  /\ view profile "patentView" (accepts _scrubPatentInfo)
  /\ view profile "publicationView" (accepts _scrubPublicationInfo)
  /\ view profile "projectView" (accepts _scrubProjectInfo)
  /\ view profile "positionView"
       (fun position =>
          accepts _scrubPositionInfo position
          /\ record position
          /\ optional position "timePeriod" record)
  /\ view profile "languageView" non_nullish
  /\ view profile "skillView" non_nullish.

(** What C1 says of one transform: it returns on every fit raw entity, and
    whatever it returns, on any argument, keeps the rules of its fields. *)
Definition normalizes (f : value -> outcome value) (fit : value -> Prop)
  (rules : list rule) : Prop :=
  (forall raw, fit raw -> accepts f raw)
  /\ (forall raw out, f raw = Ok out -> Forall (holds raw out) rules).

(** A patent without a title, with one inventor who is a member and one who
    is not; an education whose school has a logo. *)
Definition sample_patent : value :=
  VObj [("number", VStr "GB-1843");
        ("inventors",
         VArr [VObj [("member",
                      VObj [("member", VObj [("firstName", VStr "Ada")])])];
               VObj [("name", VStr "anonymous")]])].

Definition sample_education : value :=
  VObj [("degreeName", VStr "Mathematics");
        ("school",
         VObj [("schoolName", VStr "University of London");
               ("logo",
                VObj [("com.linkedin.common.VectorImage",
                       VObj [("id", VStr "/school.png")])])])].

(* ===================================================================== *)
(** ** Generic facts about the operations *)
(* ===================================================================== *)

Lemma or_else_falsy (v d : value) : JS.truthy v = false -> JS.or_else v d = d.
Proof. unfold JS.or_else; intros ->; reflexivity. Qed.

Lemma or_else_truthy (v d : value) : JS.truthy v = true -> JS.or_else v d = v.
Proof. unfold JS.or_else; intros ->; reflexivity. Qed.

Lemma or_else_default_truthy (v d : value) :
  JS.truthy d = true -> JS.truthy (JS.or_else v d) = true.
Proof. unfold JS.or_else; destruct (JS.truthy v) eqn:E; auto. Qed.

Lemma field_head k v rest : JS.field ((k, v) :: rest) k = v.
Proof. unfold JS.field; cbn. now rewrite String.eqb_refl. Qed.

Lemma lookup_set_prop_same k v kv :
  JS.lookup k (JS.set_prop k v kv) = Some v.
Proof.
  induction kv as [|[k' v'] r IH]; cbn.
  - now rewrite String.eqb_refl.
  - destruct (k =? k')%string eqn:E; cbn; rewrite ?String.eqb_refl, ?E; auto.
Qed.

Lemma lookup_set_prop_other k k' v kv :
  k <> k' -> JS.lookup k (JS.set_prop k' v kv) = JS.lookup k kv.
Proof.
  intros N. apply String.eqb_neq in N.
  induction kv as [|[k0 v0] r IH]; cbn.
  - now rewrite N.
  - destruct (k' =? k0)%string eqn:E; cbn.
    + apply String.eqb_eq in E; subst k0. now rewrite N.
    + now rewrite IH.
Qed.

(** Copying from a source that has no property [k] leaves [k] alone. *)
Lemma lookup_assign_absent k target src :
  JS.lookup k (own_properties src) = None ->
  JS.lookup k (assign target src) = JS.lookup k target.
Proof.
  unfold assign. generalize (own_properties src) as props.
  intros props; revert target.
  induction props as [|[k0 v0] r IH]; intros target H; cbn in *; auto.
  destruct (k =? k0)%string eqn:E; [discriminate|].
  rewrite IH by assumption.
  apply lookup_set_prop_other. now apply String.eqb_neq.
Qed.

(* ===================================================================== *)
(** ** Splitting and parsing a urn *)
(* ===================================================================== *)

Lemma digit_cases (d : nat) :
  (d < 10)%nat ->
  d = 0%nat \/ d = 1%nat \/ d = 2%nat \/ d = 3%nat \/ d = 4%nat \/
  d = 5%nat \/ d = 6%nat \/ d = 7%nat \/ d = 8%nat \/ d = 9%nat.
Proof. lia. Qed.

Ltac each_digit H :=
  apply digit_cases in H;
  repeat (destruct H as [H | H]); subst.

Lemma split_on_nonempty c s : JS.split_on c s <> [].
Proof.
  destruct s as [|a r]; cbn; [discriminate|].
  destruct (Ascii.eqb a c); [discriminate|].
  destruct (JS.split_on c r); discriminate.
Qed.

Lemma split_on_app c a b :
  JS.split_on c (a ++ String c b) = JS.split_on c a ++ JS.split_on c b.
Proof.
  induction a as [|x a IH]; cbn.
  - now rewrite Ascii.eqb_refl.
  - destruct (Ascii.eqb x c); [now rewrite IH|].
    rewrite IH.
    destruct (JS.split_on c a) eqn:E; [now apply split_on_nonempty in E|].
    reflexivity.
Qed.

Lemma last_app_nonempty {A} (l1 l2 : list A) d :
  l2 <> [] -> last (l1 ++ l2) d = last l2 d.
Proof.
  intros N. induction l1 as [|x l1 IH]; [reflexivity|].
  change ((x :: l1) ++ l2) with (x :: (l1 ++ l2)).
  destruct (l1 ++ l2) eqn:E.
  - apply app_eq_nil in E. now destruct E.
  - rewrite <- IH. reflexivity.
Qed.

Lemma split_on_numeral ds :
  Forall (fun d => (d < 10)%nat) ds ->
  JS.split_on ":"%char (numeral ds) = [numeral ds].
Proof.
  induction 1 as [|d r Hd _ IH]; [reflexivity|].
  cbn [numeral JS.split_on]. rewrite IH.
  each_digit Hd; reflexivity.
Qed.

Lemma digits_prefix_numeral ds :
  Forall (fun d => (d < 10)%nat) ds -> JS.digits_prefix (numeral ds) = ds.
Proof.
  induction 1 as [|d r Hd _ IH]; [reflexivity|].
  cbn [numeral JS.digits_prefix]. rewrite IH.
  each_digit Hd; reflexivity.
Qed.

Lemma digit_val_digit_char d :
  (d < 10)%nat -> JS.digit_val (digit_char d) = Some d.
Proof. intros H. each_digit H; reflexivity. Qed.

(** A string that starts with a digit has no white space or sign to skip. *)
Lemma parseInt10_digit a rest d :
  JS.digit_val a = Some d ->
  JS.parseInt10 (String a rest) =
    (let n := JS.decimal (d :: JS.digits_prefix rest) in
     if n <=? 2 ^ 53 then Ok (VNum n) else Beyond).
Proof.
  intros H.
  destruct a as [[] [] [] [] [] [] [] []]; cbn in H; try discriminate H;
    injection H as <-; reflexivity.
Qed.

Lemma parseInt10_numeral ds :
  ds <> [] -> Forall (fun d => (d < 10)%nat) ds ->
  JS.decimal ds <= 2 ^ 53 ->
  JS.parseInt10 (numeral ds) = Ok (VNum (JS.decimal ds)).
Proof.
  intros N F B.
  destruct ds as [|d r]; [contradiction|].
  inversion F as [|? ? Hd Fr]; subst.
  cbn [numeral].
  rewrite (parseInt10_digit _ _ d) by now apply digit_val_digit_char.
  rewrite digits_prefix_numeral by assumption.
  cbv zeta. apply Z.leb_le in B. now rewrite B.
Qed.

Lemma truthy_with_colon pre rest :
  JS.truthy (VStr (pre ++ String ":"%char rest)) = true.
Proof. destruct pre; reflexivity. Qed.

(* ===================================================================== *)
(** ** Urn-to-ID extraction *)
(* ===================================================================== *)

(** C7. For every urn made of any prefix, a colon and a decimal numeral
    (of a value up to 2^53, which a double holds exactly),
    [_scrubIdFromUrn] returns the integer the numeral denotes, so
    "urn:li:company:12345" gives the number 12345, and so does a numeral
    alone; and for every falsy argument, among them [undefined], [null] and
    the empty string, it returns the empty string. *)
Theorem scrubIdFromUrn_spec :
  (forall (pre : string) (ds : list nat),
      ds <> [] ->
      Forall (fun d => (d < 10)%nat) ds ->
      JS.decimal ds <= 2 ^ 53 ->
      _scrubIdFromUrn (VStr (pre ++ ":" ++ numeral ds))
      = Ok (VNum (JS.decimal ds))
      /\ _scrubIdFromUrn (VStr (numeral ds)) = Ok (VNum (JS.decimal ds)))
  /\ _scrubIdFromUrn (VStr "urn:li:company:12345") = Ok (VNum 12345)
  /\ (forall urn : value,
         JS.truthy urn = false -> _scrubIdFromUrn urn = Ok (VStr ""))
  /\ _scrubIdFromUrn VUndef = Ok (VStr "")
  /\ _scrubIdFromUrn VNull = Ok (VStr "")
  /\ _scrubIdFromUrn (VStr "") = Ok (VStr "").
Proof.
  split; [|repeat split; try reflexivity].
  - intros pre ds N F B. unfold _scrubIdFromUrn. split.
    + change (pre ++ ":" ++ numeral ds)%string
        with (pre ++ String ":"%char (numeral ds))%string.
      rewrite truthy_with_colon. cbn [negb JS.split bind].
      rewrite split_on_app, last_app_nonempty by apply split_on_nonempty.
      rewrite split_on_numeral by assumption. cbn [last].
      now apply parseInt10_numeral.
    + assert (T : JS.truthy (VStr (numeral ds)) = true)
        by (destruct ds; [contradiction | reflexivity]).
      rewrite T. cbn [negb JS.split bind].
      rewrite split_on_numeral by assumption. cbn [last].
      now apply parseInt10_numeral.
  - intros urn H. unfold _scrubIdFromUrn. now rewrite H.
Qed.

Lemma scrubIdFromUrn_spec_witness :
  _scrubIdFromUrn (VStr ("urn:li:company" ++ ":" ++ numeral [1; 2; 3; 4; 5]%nat))
  = Ok (VNum (JS.decimal [1; 2; 3; 4; 5]%nat))
  /\ _scrubIdFromUrn VNaN = Ok (VStr "").
Proof.
  split.
  - apply (proj1 scrubIdFromUrn_spec "urn:li:company" [1; 2; 3; 4; 5]%nat).
    + discriminate.
    + repeat constructor.
    + vm_compute; discriminate.
  - apply (proj1 (proj2 (proj2 scrubIdFromUrn_spec))). reflexivity.
Defined.

(** Outside the urn format the result need not be a number: a last segment
    without a leading digit parses to [NaN]. *)
Example scrubIdFromUrn_not_numeric :
  _scrubIdFromUrn (VStr "urn:li:company:") = Ok VNaN
  /\ _scrubIdFromUrn (VStr "urn:li:member:ACoAAB") = Ok VNaN
  /\ _scrubIdFromUrn (VStr "urn:li:company:12ab") = Ok (VNum 12).
Proof. repeat split. Qed.

(** A truthy argument that is not a string has no [split]. *)
Example scrubIdFromUrn_not_a_string :
  _scrubIdFromUrn (VNum 12345) = Throw (TypeError_not_a_function "split").
Proof. reflexivity. Qed.

(* ===================================================================== *)
(** ** Resource-path resolution *)
(* ===================================================================== *)

(** C2. On the empty mapping, [_scrubPathToResource] does not return the
    empty string: [Object.keys(resource)[0]] is [undefined], so is
    [resource[key]], and reading its [id] throws. *)
Theorem scrubPathToResource_empty_mapping_throws :
  _scrubPathToResource (VObj []) = Throw (TypeError_read "id" VUndef).
Proof. reflexivity. Qed.

(** The other inputs the function cannot take: [undefined] and [null] have
    no [constructor], and a first variant that is [null] has no [id]. *)
Example scrubPathToResource_other_throws :
  _scrubPathToResource VUndef = Throw (TypeError_read "constructor" VUndef)
  /\ _scrubPathToResource VNull = Throw (TypeError_read "constructor" VNull)
  /\ _scrubPathToResource (VObj [("original", VNull)])
     = Throw (TypeError_read "id" VNull).
Proof. repeat split. Qed.

(** Where the function does what is asked of it: the CDN base in front of the
    first variant's id. *)
Example scrubPathToResource_original :
  _scrubPathToResource (VObj [("original", VObj [("id", VStr "/abc")])])
  = Ok (VStr (LI_CDN ++ "/abc")).
Proof. reflexivity. Qed.

(** A first variant that is a mapping with a string id, whatever else the
    resource holds. *)
Lemma scrubPathToResource_first_variant k variant rest id :
  JS.has_key "constructor" ((k, VObj variant) :: rest) = false ->
  JS.lookup "id" variant = Some (VStr id) ->
  _scrubPathToResource (VObj ((k, VObj variant) :: rest))
  = Ok (VStr (if (id =? "")%string then "" else LI_CDN ++ id)).
Proof.
  intros C I. unfold _scrubPathToResource.
  cbn [JS.constructor_is_Object bind]. rewrite C.
  cbn [negb JS.keys bind map fst JS.first_key JS.get JS.prop JS.field JS.lookup].
  rewrite field_head. cbn [bind JS.get JS.prop]. unfold JS.field. rewrite I.
  cbn [bind]. unfold JS.or_else.
  cbn [JS.truthy]. destruct (id =? "")%string eqn:E; cbn.
  - reflexivity.
  - rewrite E. reflexivity.
Qed.

(** A first variant that is a mapping without an id gives the empty
    string. *)
Lemma scrubPathToResource_no_id k variant rest :
  JS.has_key "constructor" ((k, VObj variant) :: rest) = false ->
  JS.lookup "id" variant = None ->
  _scrubPathToResource (VObj ((k, VObj variant) :: rest)) = Ok (VStr "").
Proof.
  intros C I. unfold _scrubPathToResource.
  cbn [JS.constructor_is_Object bind]. rewrite C.
  cbn [negb JS.keys bind map fst JS.first_key JS.get JS.prop JS.field JS.lookup].
  rewrite field_head. cbn [bind JS.get JS.prop]. unfold JS.field. rewrite I.
  reflexivity.
Qed.

(** Anything that is not a mapping, [undefined] and [null] apart, gives the
    empty string. *)
Lemma scrubPathToResource_not_a_mapping (v : value) :
  match v with VUndef | VNull | VObj _ => False | _ => True end ->
  _scrubPathToResource v = Ok (VStr "").
Proof. destruct v; intros H; try contradiction; reflexivity. Qed.

(* ===================================================================== *)
(** ** Websites *)
(* ===================================================================== *)



(** A first variant with a category passes it on; without a type mapping the
    function throws. *)
Example scrubWebsiteInfo_examples :
  _scrubWebsiteInfo
    (VObj [("url", VStr "https://acme.example");
           ("type", VObj [("com.linkedin.voyager.identity.profile.StandardWebsite",
                           VObj [("category", VStr "COMPANY")])])])
  = Ok (VObj [("website", VStr "https://acme.example");
              ("type", VStr "COMPANY")])
  /\ _scrubWebsiteInfo (VObj [("url", VStr "https://acme.example")])
     = Throw (TypeError_to_object VUndef)
  /\ _scrubWebsiteInfo (VObj [("type", VObj [])])
     = Throw (TypeError_read "category" VUndef).
Proof. repeat split. Qed.

(* ===================================================================== *)
(** ** Member references *)
(* ===================================================================== *)




(* ===================================================================== *)
(** ** Member lists *)
(* ===================================================================== *)

Lemma has_nonempty_array (x : list (string * value)) (k : string)
  (l : list value) :
  JS.has_key "hasOwnProperty" x = false ->
  JS.lookup k x = Some (VArr l) ->
  l <> [] ->
  has_nonempty (VObj x) k = Ok true.
Proof.
  intros S H N. unfold has_nonempty. cbn [JS.hasOwnProperty].
  rewrite S. cbn [bind JS.own]. unfold JS.has_key. rewrite H.
  cbn [JS.get JS.prop bind]. unfold JS.field. rewrite H.
  cbn [JS.get JS.prop bind]. unfold JS.elements_prop.
  cbn [String.eqb Ascii.eqb Bool.eqb bind JS.gt_zero].
  destruct l; [contradiction|]. reflexivity.
Qed.

Lemma has_nonempty_absent (x : list (string * value)) (k : string) :
  JS.has_key "hasOwnProperty" x = false ->
  JS.lookup k x = None ->
  has_nonempty (VObj x) k = Ok false.
Proof.
  intros S H. unfold has_nonempty. cbn [JS.hasOwnProperty].
  rewrite S. cbn [bind JS.own]. unfold JS.has_key. now rewrite H.
Qed.



(* ===================================================================== *)
(** ** Patents *)
(* ===================================================================== *)




(** The same list with the inner wrapper in place keeps the names. *)
Example scrubPatentInfo_nested_member :
  _scrubPatentInfo
    (VObj [("inventors",
            VArr [VObj [("member",
                         VObj [("member", VObj [("firstName", VStr "Ada")])])]])])
  = Ok (VObj [("applicationNumber", VStr ""); ("description", VStr "");
              ("filingDate", VObj []); ("issueDate", VObj []);
              ("number", VStr ""); ("pending", VUndef);
              ("title", VStr ""); ("url", VStr "");
              ("inventors",
               VArr [VObj [("firstname", VStr "Ada"); ("lastname", VStr "");
                           ("occupation", VStr "");
                           ("publicIdentifier", VStr "")]])]).
Proof. reflexivity. Qed.

(* ===================================================================== *)
(** ** Projects *)
(* ===================================================================== *)

Ltac bind_inv H :=
  match type of H with
  | bind ?m _ = Ok _ =>
      let x := fresh "x" in
      let E := fresh "E" in
      destruct m as [x| |] eqn:E; cbn [bind] in H;
      [|discriminate H|discriminate H]
  end.

(** C5. Whatever the raw project, the record [_scrubProjectInfo] returns has
    no [members] field: the scrubbed members are written to the raw project,
    which the function does not return. *)
Theorem scrubProjectInfo_returns_no_members
  (project out project' : value) :
  _scrubProjectInfo project = Ok (out, project') ->
  exists r, out = VObj r /\ JS.lookup "members" r = None.
Proof.
  unfold _scrubProjectInfo. intros H.
  repeat bind_inv H.
  destruct x3.
  - repeat bind_inv H. injection H as <- _. eexists; split; reflexivity.
  - injection H as <- _. eexists; split; reflexivity.
Qed.

Lemma scrubProjectInfo_returns_no_members_witness :
  _scrubProjectInfo
    (VObj [("title", VStr "Analytical Engine");
           ("members",
            VArr [VObj [("member", VObj [("firstName", VStr "Ada")])]])])
  = Ok (VObj [("description", VStr ""); ("timePeriod", VObj []);
              ("title", VStr "Analytical Engine"); ("url", VStr "")],
        VObj [("title", VStr "Analytical Engine");
              ("members",
               VArr [VObj [("firstname", VStr "Ada"); ("lastname", VStr "");
                           ("occupation", VStr "");
                           ("publicIdentifier", VStr "")]])])
  /\ exists r,
       VObj [("description", VStr ""); ("timePeriod", VObj []);
             ("title", VStr "Analytical Engine"); ("url", VStr "")] = VObj r
       /\ JS.lookup "members" r = None.
Proof.
  split; [reflexivity|].
  apply (scrubProjectInfo_returns_no_members
           (VObj [("title", VStr "Analytical Engine");
                  ("members",
                   VArr [VObj [("member", VObj [("firstName", VStr "Ada")])]])])
           _
           (VObj [("title", VStr "Analytical Engine");
                  ("members",
                   VArr [VObj [("firstname", VStr "Ada"); ("lastname", VStr "");
                               ("occupation", VStr "");
                               ("publicIdentifier", VStr "")]])])).
  reflexivity.
Defined.

(** X1. Where the scrubbed members do go: the raw project, under the same
    key, whenever the project has a non-empty member list. *)
Lemma scrubProjectInfo_writes_members
  (project : list (string * value)) (members scrubbed : list value) :
  JS.has_key "hasOwnProperty" project = false ->
  JS.lookup "members" project = Some (VArr members) ->
  members <> [] ->
  mapM _scrubMemberInfo members = Ok scrubbed ->
  exists r,
    _scrubProjectInfo (VObj project)
    = Ok (VObj r, VObj (JS.set_prop "members" (VArr scrubbed) project))
    /\ JS.lookup "members" r = None.
Proof.
  intros S H N M. unfold _scrubProjectInfo, get_or.
  cbn [JS.get JS.prop bind].
  rewrite (has_nonempty_array project "members" members) by assumption.
  cbn [bind].
  assert (I : JS.field project "members" = VArr members)
    by (unfold JS.field; now rewrite H).
  rewrite I. cbn [JS.array_map].
  change (fun member => _scrubMemberInfo member) with _scrubMemberInfo.
  rewrite M. cbn [bind assign_prop].
  eexists; split; reflexivity.
Qed.

(* ===================================================================== *)
(** ** The current position *)
(* ===================================================================== *)

Lemma hasOwnProperty_own v k b : JS.hasOwnProperty v k = Ok b -> b = JS.own v k.
Proof.
  destruct v; cbn [JS.hasOwnProperty]; try discriminate;
    try (intros H; injection H as <-; reflexivity).
  destruct (JS.has_key "hasOwnProperty" kv); [discriminate|].
  intros H; injection H as <-; reflexivity.
Qed.

Lemma get_prop v k x : JS.get v k = Ok x -> x = JS.prop v k.
Proof.
  destruct v; cbn [JS.get]; try discriminate;
    intros H; injection H as <-; reflexivity.
Qed.




Lemma elements_prop_0 l : JS.elements_prop l "0" = nth 0 l VUndef.
Proof. reflexivity. Qed.



Lemma rederive_occupation_differ profile sp0 sp :
  JS.strict_eq (JS.field sp0 "headline") (JS.field sp0 "occupation") = false ->
  rederive_occupation profile sp0 = Ok sp ->
  sp = sp0.
Proof.
  intros Q H. unfold rederive_occupation in H. rewrite Q in H.
  now injection H as <-.
Qed.

Lemma when_has_inv x k update rec r :
  when_has x k update rec = Ok r ->
  JS.hasOwnProperty x k = Ok (JS.own x k)
  /\ (if JS.own x k then update rec = Ok r else r = rec).
Proof.
  unfold when_has. intros H. bind_inv H.
  pose proof (hasOwnProperty_own _ _ _ E) as ->.
  split; [reflexivity|].
  destruct (JS.own x k); [exact H | now injection H as <-].
Qed.

Lemma has_nonempty_own x k b :
  has_nonempty x k = Ok b -> JS.own x k = false -> b = false.
Proof.
  unfold has_nonempty. intros H O. bind_inv H.
  apply hasOwnProperty_own in E. rewrite O in E. subst x0.
  now injection H as <-.
Qed.

Lemma rederive_occupation_preserves profile sp0 sp k :
  rederive_occupation profile sp0 = Ok sp ->
  k <> "occupation" ->
  JS.lookup k sp = JS.lookup k sp0.
Proof.
  unfold rederive_occupation. intros H N.
  destruct (JS.strict_eq _ _); [|now injection H as <-].
  repeat bind_inv H. injection H as <-.
  now apply lookup_set_prop_other.
Qed.

Lemma get_or_inv v k d x :
  get_or v k d = Ok x -> x = JS.or_else (JS.prop v k) d.
Proof.
  unfold get_or. intros H. bind_inv H. apply get_prop in E. subst.
  now injection H as <-.
Qed.

Lemma profile_field_inv profile k x :
  profile_field profile k = Ok x ->
  x = JS.prop (JS.prop profile "profile") k.
Proof.
  unfold profile_field. intros H. bind_inv H.
  apply get_prop in E. apply get_prop in H. now subst.
Qed.

Lemma profile_field_or_inv profile k d x :
  profile_field_or profile k d = Ok x ->
  x = JS.or_else (JS.prop (JS.prop profile "profile") k) d.
Proof.
  unfold profile_field_or. intros H. bind_inv H.
  apply profile_field_inv in E. subst. now injection H as <-.
Qed.

Ltac read_fields :=
  repeat match goal with
    | E : profile_field_or _ _ _ = Ok _ |- _ => apply profile_field_or_inv in E
    | E : profile_field _ _ = Ok _ |- _ => apply profile_field_inv in E
    | E : get_or _ _ _ = Ok _ |- _ => apply get_or_inv in E
    | E : JS.get _ _ = Ok _ |- _ => apply get_prop in E
    end.

Lemma map_view_inv profile view f x :
  map_view profile view f = Ok x ->
  view_elements profile view
  = Ok (VArr (match JS.prop (JS.prop profile view) "elements" with
              | VArr l => l
              | _ => []
              end)).
Proof.
  unfold map_view. intros H. bind_inv H.
  unfold view_elements in *. bind_inv E.
  apply get_prop in E0. subst x1.
  apply get_prop in E. subst x0. f_equal.
  destruct (JS.prop (JS.prop profile view) "elements");
    cbn in H; try discriminate H. reflexivity.
Qed.

(** What a successful profile normalization is made of: the record as it
    stands before the occupation workaround ([base]), and the workaround
    applied to it. *)
Lemma scrubFullProfileResponse_shape profile p :
  _scrubFullProfileResponse profile = Ok p ->
  exists base sp,
    p = VObj sp
    /\ rederive_occupation profile base = Ok sp
    /\ JS.field base "headline"
       = JS.or_else (JS.prop (JS.prop profile "profile") "headline") (VStr "")
    /\ JS.field base "occupation"
       = JS.or_else
           (JS.prop (JS.prop (JS.prop profile "profile") "miniProfile")
                    "occupation") (VStr "")
    /\ JS.field base "emailAddress"
       = JS.or_else (JS.prop profile "emailAddress") (VStr "")
    /\ JS.field base "birthdate"
       = JS.or_else (JS.prop profile "birthDateOn") (VObj [])
    /\ JS.field base "publicIdentifier" = JS.prop profile "publicIdentifier"
    /\ JS.field base "firstname"
       = JS.or_else (JS.prop (JS.prop profile "profile") "firstName") (VStr "")
    /\ (JS.own profile "phoneNumbers" = false ->
        JS.field base "phoneNumbers" = VArr [])
    /\ (JS.own profile "twitterHandles" = false ->
        JS.field base "twitterHandles" = VArr [])
    /\ (JS.own profile "websites" = false ->
        JS.lookup "websites" base = None)
    /\ view_elements profile "positionView" = Ok (VArr (positions_of profile)).
Proof.
  unfold _scrubFullProfileResponse. intros H.
  repeat bind_inv H. injection H as <-.
  match goal with
  | E : map_view profile "positionView" _ = Ok _ |- _ =>
      pose proof (map_view_inv _ _ _ _ E) as V
  end.
  match goal with
  | E : has_nonempty profile "websites" = Ok ?b |- _ =>
      pose proof (has_nonempty_own _ _ _ E) as W
  end.
  repeat match goal with
    | E : when_has _ _ _ _ = Ok _ |- _ => apply when_has_inv in E as [_ E]
    end.
  read_fields.
  match goal with
  | E : rederive_occupation profile ?b = Ok ?s |- _ => exists b, s
  end.
  split; [reflexivity|]. split; [assumption|].
  destruct (JS.own profile "phoneNumbers");
    destruct (JS.own profile "twitterHandles");
    repeat match goal with
      | E : (if ?b then _ else _) = Ok _ |- _ => destruct b
      | E : bind _ _ = Ok _ |- _ => bind_inv E
      | E : Ok _ = Ok _ |- _ => injection E as <-
      end;
    subst;
    repeat split; try reflexivity;
    try (intros O; discriminate O);
    try (intros O; specialize (W O); discriminate W);
    try exact V.
Qed.

(* ===================================================================== *)
(** ** The headline/occupation workaround *)
(* ===================================================================== *)



(* ===================================================================== *)
(** ** Sub-resource fetches and the full profile *)
(* ===================================================================== *)

Section ClientFacts.

Variable network : request -> fetch_result.
Variable csrfToken : string.

(** The headers are built, with the token trimmed, or the token is refused
    and building them throws. *)
Lemma getRequestHeaders_accepted :
  accepted csrfToken ->
  _getRequestHeaders csrfToken
  = Ok [("csrf-token", header_value_normalize csrfToken)].
Proof.
  unfold accepted, _getRequestHeaders, headers_append. now intros ->.
Qed.

Lemma getRequestHeaders_refused :
  ~ accepted csrfToken ->
  _getRequestHeaders csrfToken
  = Throw (TypeError_header_value "csrf-token"
             (header_value_normalize csrfToken)).
Proof.
  unfold accepted, _getRequestHeaders, headers_append. intros N.
  destruct (header_value_valid (header_value_normalize csrfToken));
    [now contradiction N | reflexivity].
Qed.

Lemma fetchProfileResource_run id s resource w :
  accepted csrfToken ->
  JS.to_string id = Ok s ->
  let r := profile_request csrfToken s resource in
  _fetchProfileResource network csrfToken id resource w
  = (Ok (Resolved (settled (network r))),
     mkWorld (requests w ++ [r]) (console w ++ logged (network r))).
Proof.
  intros A T r. unfold _fetchProfileResource.
  rewrite T, (getRequestHeaders_accepted A).
  fold (profile_request csrfToken s resource). fold r.
  destruct (network r) as [d|[] [j|]]; cbn;
    rewrite ?app_nil_r; reflexivity.
Qed.

(** With a token that is refused, a sub-fetch throws before any request. *)
Lemma fetchProfileResource_refused id s resource w :
  ~ accepted csrfToken ->
  JS.to_string id = Ok s ->
  _fetchProfileResource network csrfToken id resource w
  = (Throw (TypeError_header_value "csrf-token"
              (header_value_normalize csrfToken)), w).
Proof.
  intros A T. unfold _fetchProfileResource.
  now rewrite T, (getRequestHeaders_refused A).
Qed.

(** The three sub-fetches in a row, then the merge and the scrubbing. *)
Lemma getFullProfile_run id s w :
  accepted csrfToken ->
  JS.truthy id = true ->
  JS.to_string id = Ok s ->
  let answer := fun resource => network (profile_request csrfToken s resource) in
  let merged :=
    fold_left assign (map (fun r => settled (answer r)) profile_resources)
              [("publicIdentifier", id)] in
  getFullProfile network csrfToken id w
  = (if existsb sets_prototype
                (map (fun r => settled (answer r)) profile_resources)
     then Beyond
     else match _scrubFullProfileResponse (VObj merged) with
          | Ok p => Ok (Resolved p)
          | Throw e => Ok (Rejected e)
          | Beyond => Beyond
          end,
     mkWorld (requests w ++ map (profile_request csrfToken s) profile_resources)
             (console w ++ flat_map (fun r => logged (answer r))
                                    profile_resources)).
Proof.
  intros A T S answer merged. unfold getFullProfile. rewrite T.
  cbn [negb fetch_all].
  rewrite !(fetchProfileResource_run id s) by assumption.
  cbn [promise_all requests console].
  subst merged. cbn [map profile_resources fold_left flat_map].
  rewrite <- !app_assoc. cbn [app]. rewrite app_nil_r.
  destruct (existsb sets_prototype _); [reflexivity|].
  destruct (_scrubFullProfileResponse _); reflexivity.
Qed.

Lemma to_string_no_throw v e : JS.to_string v <> Throw e.
Proof.
  destruct v; cbn [JS.to_string]; try discriminate.
  - destruct b; discriminate.
  - destruct (Z.abs z <=? 2 ^ 53); discriminate.
Qed.

Lemma failed_settled fr : failed fr = true -> settled fr = VObj [].
Proof. destruct fr as [d|[] [j|]]; cbn; intros H; try discriminate H; reflexivity. Qed.



(** C9. A merged structure without a top-level [profile] key does not
    normalize: reading [firstName] of [undefined] throws. That is the
    structure the merge produces when the profile-view sub-fetch fails and
    neither of the other two answers brings a [profile] key, so
    [getFullProfile] then returns a promise that rejects with that
    [TypeError] (the client holding a token that [Headers.append] accepts:
    with another the sub-fetches are not even issued). *)
Theorem profile_key_required (id : value) (s : string) (w : world) :
  (forall merged,
      JS.lookup "profile" merged = None ->
      _scrubFullProfileResponse (VObj merged)
      = Throw (TypeError_read "firstName" VUndef))
  /\ (accepted csrfToken ->
      JS.truthy id = true ->
      JS.to_string id = Ok s ->
      failed (network (profile_request csrfToken s "profileView")) = true ->
      lacks ["profile"; "__proto__"]
            (settled (network (profile_request csrfToken s
                                               "profileContactInfo"))) ->
      lacks ["profile"; "__proto__"]
            (settled (network (profile_request csrfToken s "highlights"))) ->
      fst (getFullProfile network csrfToken id w)
      = Ok (Rejected (TypeError_read "firstName" VUndef))).
Proof.
  assert (A : forall merged,
             JS.lookup "profile" merged = None ->
             _scrubFullProfileResponse (VObj merged)
             = Throw (TypeError_read "firstName" VUndef)).
  { intros merged H. unfold _scrubFullProfileResponse.
    unfold profile_field_or at 1. unfold profile_field at 1.
    cbn [JS.get JS.prop bind]. unfold JS.field. rewrite H. reflexivity. }
  split; [exact A|].
  intros Acc Tr T F Lc Lh.
  rewrite (getFullProfile_run id s) by assumption. cbv zeta.
  cbn [map profile_resources fold_left fst existsb].
  rewrite (failed_settled _ F).
  unfold lacks in *. rewrite Forall_forall in Lc, Lh.
  unfold sets_prototype, JS.has_key.
  rewrite (Lc "__proto__"), (Lh "__proto__") by (cbn; tauto).
  cbn [own_properties JS.lookup orb].
  rewrite A; [reflexivity|].
  rewrite !lookup_assign_absent; try reflexivity;
    try (apply Lc; now left); try (apply Lh; now left).
Qed.

(** With a token that [Headers.append] refuses, [getFullProfile] throws
    the [TypeError] of the first sub-fetch, synchronously and before any
    request. *)
Lemma getFullProfile_refused id s w :
  ~ accepted csrfToken ->
  JS.truthy id = true ->
  JS.to_string id = Ok s ->
  getFullProfile network csrfToken id w
  = (Throw (TypeError_header_value "csrf-token"
              (header_value_normalize csrfToken)), w).
Proof.
  intros A T S. unfold getFullProfile. rewrite T. cbn [negb fetch_all].
  now rewrite (fetchProfileResource_refused id s) by assumption.
Qed.

Lemma accepted_dec : accepted csrfToken \/ ~ accepted csrfToken.
Proof.
  unfold accepted.
  destruct (header_value_valid (header_value_normalize csrfToken));
    [now left | right; discriminate].
Qed.

(** C6, as the code has it. A falsy identifier ([undefined], [null], the
    empty string, but also [0], [NaN] and [false]) makes [getFullProfile]
    throw at once, the world untouched: no request is issued. A truthy
    identifier, string or not, never meets that error; a non-empty string
    goes on, in a client whose token [Headers.append] accepts, to issue the
    three requests. *)
Theorem getFullProfile_requires_identifier (id : value) (w : world) :
  (JS.truthy id = false ->
   getFullProfile network csrfToken id w
   = (Throw (Error_msg "a public identifier is required"), w))
  /\ (JS.truthy id = true ->
      fst (getFullProfile network csrfToken id w)
      <> Throw (Error_msg "a public identifier is required"))
  /\ (forall s, id = VStr s -> s <> "" ->
      accepted csrfToken ->
      (forall e, fst (getFullProfile network csrfToken id w) <> Throw e)
      /\ requests (snd (getFullProfile network csrfToken id w))
         = requests w ++ map (profile_request csrfToken s) profile_resources).
Proof.
  split; [|split].
  - intros F. unfold getFullProfile. now rewrite F.
  - intros T. destruct (JS.to_string id) as [s| |] eqn:S.
    + destruct accepted_dec as [A|A].
      * rewrite (getFullProfile_run id s) by assumption. cbv zeta. cbn [fst].
        destruct (existsb sets_prototype _); [discriminate|].
        destruct (_scrubFullProfileResponse _); discriminate.
      * rewrite (getFullProfile_refused id s) by assumption. discriminate.
    + now apply to_string_no_throw in S.
    + unfold getFullProfile. rewrite T. cbn [negb fetch_all].
      unfold _fetchProfileResource. rewrite S. discriminate.
  - intros s -> N A.
    assert (T : JS.truthy (VStr s) = true).
    { cbn. destruct s; [contradiction | reflexivity]. }
    rewrite (getFullProfile_run (VStr s) s) by (assumption || reflexivity).
    cbv zeta. cbn [fst snd requests]. split; [|reflexivity].
    intros e. destruct (existsb sets_prototype _); [discriminate|].
    destruct (_scrubFullProfileResponse _); discriminate.
Qed.

End ClientFacts.


Lemma profile_key_required_witness :
  fst (getFullProfile offline "token" (VStr "ada") fresh_world)
  = Ok (Rejected (TypeError_read "firstName" VUndef)).
Proof.
  apply (proj2 (profile_key_required offline "token" (VStr "ada") "ada"
                  fresh_world));
    try reflexivity; repeat constructor.
Defined.

Lemma getFullProfile_requires_identifier_witness :
  getFullProfile sample_network "token" (VStr "") fresh_world
  = (Throw (Error_msg "a public identifier is required"), fresh_world)
  /\ getFullProfile sample_network "token" VUndef fresh_world
     = (Throw (Error_msg "a public identifier is required"), fresh_world)
  /\ map req_url
         (requests (snd (getFullProfile sample_network "token" (VStr "ada")
                                        fresh_world)))
     = ["https://www.linkedin.com/voyager/api/identity/profiles/ada/profileView";
        "https://www.linkedin.com/voyager/api/identity/profiles/ada/profileContactInfo";
        "https://www.linkedin.com/voyager/api/identity/profiles/ada/highlights"].
Proof.
  split; [|split].
  - apply (proj1 (getFullProfile_requires_identifier sample_network "token"
                    (VStr "") fresh_world)). reflexivity.
  - apply (proj1 (getFullProfile_requires_identifier sample_network "token"
                    VUndef fresh_world)). reflexivity.
  - destruct (proj2 (proj2 (getFullProfile_requires_identifier
                              sample_network "token" (VStr "ada") fresh_world))
                    "ada" eq_refl) as [_ R].
    + discriminate.
    + reflexivity.
    + rewrite R. reflexivity.
Defined.

(** C6 as stated fails on an identifier that is present but not a string:
    the number 42 is not a non-empty string, yet the call throws nothing,
    issues its three requests and returns a promise (which rejects here
    because no sub-fetch succeeds). *)
Lemma getFullProfile_number_counterexample :
  (forall s, VNum 42 <> VStr s)
  /\ fst (getFullProfile offline "token" (VNum 42) fresh_world)
     = Ok (Rejected (TypeError_read "firstName" VUndef))
  /\ map req_url
         (requests (snd (getFullProfile offline "token" (VNum 42)
                                        fresh_world)))
     = ["https://www.linkedin.com/voyager/api/identity/profiles/42/profileView";
        "https://www.linkedin.com/voyager/api/identity/profiles/42/profileContactInfo";
        "https://www.linkedin.com/voyager/api/identity/profiles/42/highlights"].
Proof. split; [discriminate|]. split; reflexivity. Qed.

(* ===================================================================== *)
(** ** Further facts about strings *)
(* ===================================================================== *)

Lemma length_append a b :
  String.length (a ++ b) = (String.length a + String.length b)%nat.
Proof. induction a as [|x a IH]; cbn; [reflexivity | now rewrite IH]. Qed.

Lemma has_char_append c a b :
  has_char c (a ++ b) = has_char c a || has_char c b.
Proof.
  induction a as [|x a IH]; cbn; [reflexivity|].
  now rewrite IH, orb_assoc.
Qed.

Lemma substring_all s : substring 0 (String.length s) s = s.
Proof. induction s as [|x s IH]; cbn; [reflexivity | now rewrite IH]. Qed.

Lemma substring_head a b : substring 0 (String.length a) (a ++ b) = a.
Proof.
  induction a as [|x a IH]; cbn.
  - now destruct b.
  - now rewrite IH.
Qed.

Lemma substring_skip a b m :
  substring (String.length a) m (a ++ b) = substring 0 m b.
Proof. induction a as [|x a IH]; cbn; [reflexivity | exact IH]. Qed.

Lemma prefix_first_differs a b p s :
  a <> b -> prefix (String a p) (String b s) = false.
Proof. intros N. cbn. destruct (ascii_dec a b); [contradiction | reflexivity]. Qed.

Lemma index_absent c p s :
  has_char c s = false -> String.index 0 (String c p) s = None.
Proof.
  induction s as [|x s IH]; cbn [has_char]; intros H; [reflexivity|].
  apply orb_false_iff in H as [X H].
  cbn [String.index]. rewrite prefix_first_differs.
  - now rewrite IH.
  - intros ->. now rewrite Ascii.eqb_refl in X.
Qed.

Lemma prefix_append p s : prefix p (p ++ s) = true.
Proof.
  induction p as [|x p IH]; cbn; [now destruct s|].
  destruct (ascii_dec x x); [exact IH | contradiction].
Qed.

Lemma index_at_prefix c p a t :
  has_char c a = false ->
  prefix (String c p) t = true ->
  String.index 0 (String c p) (a ++ t) = Some (String.length a).
Proof.
  intros H T. induction a as [|x a IH]; cbn [has_char] in H.
  - cbn [append String.length]. destruct t as [|y t]; [discriminate T|].
    cbn [String.index]. now rewrite T.
  - apply orb_false_iff in H as [X H].
    cbn [append String.index String.length]. rewrite prefix_first_differs.
    + now rewrite IH.
    + intros ->. now rewrite Ascii.eqb_refl in X.
Qed.

Lemma index_after c p a s :
  has_char c a = false ->
  String.index 0 (String c p) (a ++ String c p ++ s) = Some (String.length a).
Proof. intros H. apply index_at_prefix; [exact H | apply prefix_append]. Qed.

Lemma split_on_free c s : has_char c s = false -> JS.split_on c s = [s].
Proof.
  induction s as [|x s IH]; cbn [has_char JS.split_on]; intros H;
    [reflexivity|].
  apply orb_false_iff in H as [X H]. rewrite X, IH by assumption.
  reflexivity.
Qed.

Lemma split_on_concat c labels :
  labels <> [] ->
  Forall (fun l => has_char c l = false) labels ->
  JS.split_on c (String.concat (String c "") labels) = labels.
Proof.
  intros N F. induction F as [|l r Hl Fr IH]; [contradiction|].
  destruct r as [|l' r'].
  - cbn [String.concat]. now apply split_on_free.
  - change (String.concat (String c "") (l :: l' :: r'))
      with (l ++ String c (String.concat (String c "") (l' :: r')))%string.
    rewrite split_on_app, split_on_free, IH by (assumption || discriminate).
    reflexivity.
Qed.

Lemma has_char_concat c d labels :
  d <> c ->
  Forall (fun l => has_char c l = false) labels ->
  has_char c (String.concat (String d "") labels) = false.
Proof.
  intros N F. induction F as [|l r Hl Fr IH]; [reflexivity|].
  destruct r as [|l' r']; [exact Hl|].
  change (String.concat (String d "") (l :: l' :: r'))
    with (l ++ String d (String.concat (String d "") (l' :: r')))%string.
  rewrite has_char_append, Hl. cbn [has_char orb]. rewrite IH.
  apply Ascii.eqb_neq in N. now rewrite N.
Qed.

(** The host part of a URL, as [extractRootDomain] cuts it out. *)
Lemma extractRootDomain_host proto host path :
  has_char ":" proto = false ->
  has_char "/" host = false ->
  is_path path ->
  extractRootDomain (VStr (proto ++ "://" ++ host ++ path))
  = (let '(h, tld) :=
       match JS.split_on "."%char host with
       | [a; b] => (a, b)
       | [_; b; c] => (b, c)
       | [_; b; c; d] => (b, (c ++ "." ++ d)%string)
       | _ => ("undefined", "undefined")
       end in
     Ok (VStr (h ++ "." ++ tld)%string)).
Proof.
  intros P H Q. unfold extractRootDomain.
  assert (T : JS.truthy (VStr (proto ++ "://" ++ host ++ path)) = true)
    by (destruct proto; reflexivity).
  rewrite T. cbn [negb].
  rewrite (index_after ":"%char "//" proto (host ++ path) P).
  rewrite !length_append.
  replace (String.length proto + (String.length "://" + (String.length host + String.length path)) - (String.length proto + 3))%nat
    with (String.length host + String.length path)%nat by (cbn; lia).
  rewrite <- (length_append host path).
  replace (String.length proto + 3)%nat
    with (String.length (proto ++ "://"))%nat by (rewrite length_append; reflexivity).
  replace (proto ++ "://" ++ host ++ path)%string
    with ((proto ++ "://") ++ (host ++ path))%string.
  2:{ clear. induction proto as [|x p IH]; cbn; [reflexivity | now rewrite IH]. }
  rewrite substring_skip, substring_all.
  destruct Q as [-> | [rest ->]].
  - assert (A : (host ++ "")%string = host)
      by (clear; induction host as [|x h IH]; cbn; [reflexivity | now rewrite IH]).
    rewrite A, index_absent by assumption.
    rewrite substring_all. reflexivity.
  - change (String "/"%char rest) with ("/" ++ rest)%string.
    rewrite (index_after "/"%char "" host rest H).
    change ("/" ++ rest)%string with (String "/"%char rest).
    rewrite substring_head. reflexivity.
Qed.

(* ===================================================================== *)
(** ** The root domain of a URL *)
(* ===================================================================== *)

Lemma extractRootDomain_of_labels (proto : string) (labels : list string)
  (path : string) :
  has_char ":" proto = false ->
  labels <> [] ->
  Forall (fun l => has_char "." l = false /\ has_char "/" l = false) labels ->
  is_path path ->
  extractRootDomain
    (VStr (proto ++ "://" ++ String.concat "." labels ++ path))
  = Ok (VStr (root_of_labels labels)).
Proof.
  intros P N F Q.
  assert (Fd : Forall (fun l => has_char "." l = false) labels)
    by (eapply Forall_impl; [|exact F]; now intros l [A _]).
  assert (Fs : Forall (fun l => has_char "/" l = false) labels)
    by (eapply Forall_impl; [|exact F]; now intros l [_ A]).
  rewrite extractRootDomain_host; auto.
  - rewrite (split_on_concat "."%char labels N Fd).
    destruct labels as [|a [|b [|c [|d [|e r]]]]]; reflexivity.
  - apply has_char_concat; [discriminate | exact Fs].
Qed.

(** X2. Take a URL made of a colon-free protocol, "://", a host and an
    optional path, the host being dot-separated labels. A two-label host is
    its own root domain; of a three-label host the first label is dropped;
    of a four-label host the first label is dropped and the last two make
    the top-level domain. Protocol and path do not matter. *)
Theorem extractRootDomain_registrable
  (proto path sub host tld tld2 : string) :
  has_char ":" proto = false ->
  is_path path ->
  Forall (fun l => has_char "." l = false /\ has_char "/" l = false)
         [sub; host; tld; tld2] ->
  extractRootDomain (VStr (proto ++ "://" ++ host ++ "." ++ tld ++ path))
  = Ok (VStr (host ++ "." ++ tld))
  /\ extractRootDomain
       (VStr (proto ++ "://" ++ sub ++ "." ++ host ++ "." ++ tld ++ path))
     = Ok (VStr (host ++ "." ++ tld))
  /\ extractRootDomain
       (VStr (proto ++ "://" ++ sub ++ "." ++ host ++ "." ++ tld ++ "."
                    ++ tld2 ++ path))
     = Ok (VStr (host ++ "." ++ tld ++ "." ++ tld2)).
Proof.
  intros P Q F.
  inversion F as [|? ? F1 Fa]; subst. inversion Fa as [|? ? F2 Fb]; subst.
  inversion Fb as [|? ? F3 Fc]; subst. inversion Fc as [|? ? F4 _]; subst.
  assert (A : forall a b c, ((a ++ b) ++ c = a ++ b ++ c)%string)
    by (intros a b c; induction a as [|x a IH]; cbn;
        [reflexivity | now rewrite IH]).
  pose proof (extractRootDomain_of_labels proto [host; tld] path P
                ltac:(discriminate) ltac:(repeat constructor; tauto) Q) as H2.
  pose proof (extractRootDomain_of_labels proto [sub; host; tld] path P
                ltac:(discriminate) ltac:(repeat constructor; tauto) Q) as H3.
  pose proof (extractRootDomain_of_labels proto [sub; host; tld; tld2] path P
                ltac:(discriminate) ltac:(repeat constructor; tauto) Q) as H4.
  cbn [String.concat root_of_labels] in H2, H3, H4.
  repeat rewrite A in H2. repeat rewrite A in H3. repeat rewrite A in H4.
  repeat split; assumption.
Qed.

Lemma extractRootDomain_registrable_witness :
  extractRootDomain (VStr "https://acme.co/about")
  = Ok (VStr "acme.co")
  /\ extractRootDomain (VStr "https://www.acme.co/about")
     = Ok (VStr "acme.co")
  /\ extractRootDomain (VStr "https://www.acme.co.uk/about")
     = Ok (VStr "acme.co.uk").
Proof.
  apply (extractRootDomain_registrable "https" "/about" "www" "acme" "co" "uk").
  - reflexivity.
  - right. eexists. reflexivity.
  - repeat constructor.
Defined.

(** X3. A host that does not have two, three or four labels (a bare
    "localhost", a host with a port and no dot, a five-label name) has no
    root domain: the function returns the text "undefined.undefined". *)
Theorem extractRootDomain_unparsed_host (proto : string)
  (labels : list string) (path : string) :
  has_char ":" proto = false ->
  labels <> [] ->
  Forall (fun l => has_char "." l = false /\ has_char "/" l = false) labels ->
  is_path path ->
  (List.length labels < 2 \/ 4 < List.length labels)%nat ->
  extractRootDomain
    (VStr (proto ++ "://" ++ String.concat "." labels ++ path))
  = Ok (VStr "undefined.undefined").
Proof.
  intros P N F Q L.
  assert (Fd : Forall (fun l => has_char "." l = false) labels)
    by (eapply Forall_impl; [|exact F]; now intros l [A _]).
  assert (Fs : Forall (fun l => has_char "/" l = false) labels)
    by (eapply Forall_impl; [|exact F]; now intros l [_ A]).
  rewrite extractRootDomain_of_labels by assumption.
  destruct labels as [|a [|b [|c [|d [|e r]]]]]; cbn in L;
    try reflexivity; lia.
Qed.

Lemma extractRootDomain_unparsed_host_witness :
  extractRootDomain (VStr "http://localhost:3000/companies")
  = Ok (VStr "undefined.undefined").
Proof.
  apply (extractRootDomain_unparsed_host "http" ["localhost:3000"]
           "/companies").
  - reflexivity.
  - discriminate.
  - repeat constructor.
  - right. eexists. reflexivity.
  - left. cbn. lia.
Defined.

(** X4. Without a protocol nothing is parsed: a non-empty string with no
    colon in it comes back as it is, path and all. *)
Theorem extractRootDomain_without_protocol (s : string) :
  s <> "" ->
  has_char ":" s = false ->
  extractRootDomain (VStr s) = Ok (VStr s).
Proof.
  intros N H. unfold extractRootDomain.
  assert (T : JS.truthy (VStr s) = true) by (destruct s; [contradiction | reflexivity]).
  rewrite T. cbn [negb]. now rewrite index_absent.
Qed.

Lemma extractRootDomain_without_protocol_witness :
  extractRootDomain (VStr "www.acme.com/about/us")
  = Ok (VStr "www.acme.com/about/us").
Proof.
  apply extractRootDomain_without_protocol; [discriminate | reflexivity].
Defined.

(** X5. On a string [extractRootDomain] never throws and returns a string;
    on a falsy argument it returns the empty string; on a truthy number,
    boolean or mapping it throws, these having no [indexOf]. *)
Theorem extractRootDomain_outcomes (v : value) :
  (forall s, v = VStr s -> exists r, extractRootDomain v = Ok (VStr r))
  /\ (JS.truthy v = false -> extractRootDomain v = Ok (VStr ""))
  /\ (JS.truthy v = true ->
      match v with VStr _ | VArr _ => False | _ => True end ->
      extractRootDomain v = Throw (TypeError_not_a_function "indexOf")).
Proof.
  split; [|split].
  - intros s ->. unfold extractRootDomain.
    destruct (JS.truthy (VStr s)) eqn:T; cbn [negb]; [|eauto].
    destruct (String.index 0 "://" s); [|eauto].
    match goal with
    | |- context [JS.split_on ?c ?d] => destruct (JS.split_on c d) as [|a [|b [|c' [|d' [|e r]]]]]
    end; eauto.
  - intros F. unfold extractRootDomain. now rewrite F.
  - intros T M. unfold extractRootDomain. rewrite T.
    destruct v; try contradiction; reflexivity.
Qed.

Lemma extractRootDomain_outcomes_witness :
  extractRootDomain VUndef = Ok (VStr "")
  /\ extractRootDomain (VNum 7)
     = Throw (TypeError_not_a_function "indexOf").
Proof.
  split.
  - apply (proj1 (proj2 (extractRootDomain_outcomes VUndef))). reflexivity.
  - apply (proj2 (proj2 (extractRootDomain_outcomes (VNum 7))));
      [reflexivity | exact I].
Defined.

(* ===================================================================== *)
(** ** The scrubbers, further *)
(* ===================================================================== *)

(** X6. The company id of a normalized position is what [_scrubIdFromUrn]
    makes of the raw [companyUrn]: the position scrubber's own copy of the
    urn parsing agrees with the shared helper on every position it
    accepts, with or without a [company] sub-record. *)
Theorem scrubPositionInfo_company_id (position : value)
  (out : list (string * value)) :
  _scrubPositionInfo position = Ok (VObj out) ->
  _scrubIdFromUrn (JS.prop position "companyUrn")
  = Ok (JS.field out "linkedInCompanyId").
Proof.
  unfold _scrubPositionInfo. intros H.
  bind_inv H. apply get_prop in E. subst x.
  bind_inv H.
  assert (U : _scrubIdFromUrn (JS.prop position "companyUrn") = Ok x).
  { unfold _scrubIdFromUrn.
    destruct (JS.truthy (JS.prop position "companyUrn")); cbn [negb];
      [cbn [bind] in E|]; exact E. }
  rewrite U. clear E U.
  repeat bind_inv H.
  repeat match goal with
    | H : (if ?b then _ else _) = Ok _ |- _ => destruct b
    | H : bind _ _ = Ok _ |- _ => bind_inv H
    | H : Ok _ = Ok _ |- _ => injection H as <-
    end; reflexivity.
Qed.

Lemma scrubPositionInfo_company_id_witness :
  _scrubIdFromUrn
    (JS.prop (VObj [("title", VStr "Engineer");
                    ("companyUrn", VStr "urn:li:fs_miniCompany:1441");
                    ("company", VObj [("industries", VArr [VStr "Software"])])])
             "companyUrn")
  = Ok (VNum 1441).
Proof.
  apply (scrubPositionInfo_company_id
           (VObj [("title", VStr "Engineer");
                  ("companyUrn", VStr "urn:li:fs_miniCompany:1441");
                  ("company", VObj [("industries", VArr [VStr "Software"])])])
           [("locationName", VStr ""); ("companyName", VStr "");
            ("linkedInCompanyId", VNum 1441); ("description", VStr "");
            ("timePeriod", VObj []); ("title", VStr "Engineer");
            ("company",
             VObj [("employeeCountRange", VObj []);
                   ("industries", VArr [VStr "Software"])])]).
  reflexivity.
Defined.

Lemma member_field_value member k v :
  member_field member k = Ok v -> v = VStr "" \/ JS.truthy v = true.
Proof.
  unfold member_field. intros H. bind_inv H.
  destruct (JS.truthy x); [|injection H as <-; now left].
  bind_inv H.
  destruct (JS.truthy x0) eqn:T; [|injection H as <-; now left].
  cbn [bind] in H. injection H as <-. now right.
Qed.

(** X7. Whatever the member, a normalized member has its four name fields,
    and each is the empty string or a truthy value: never [undefined],
    [null] or another falsy value. *)
Theorem scrubMemberInfo_fields_defined (member : value)
  (out : list (string * value)) :
  _scrubMemberInfo member = Ok (VObj out) ->
  Forall (fun k => exists v, JS.lookup k out = Some v
                             /\ (v = VStr "" \/ JS.truthy v = true))
         ["firstname"; "lastname"; "occupation"; "publicIdentifier"].
Proof.
  unfold _scrubMemberInfo. intros H.
  destruct (JS.truthy member); cbn [negb] in H.
  - bind_inv H. bind_inv H. bind_inv H. bind_inv H.
    apply member_field_value in E, E0, E1, E2.
    repeat bind_inv H.
    repeat match goal with
      | H : Ok false = Ok true |- _ => discriminate H
      | H : Ok true = Ok false |- _ => discriminate H
      | H : (if ?b then _ else _) = Ok _ |- _ => destruct b
      | H : bind _ _ = Ok _ |- _ => bind_inv H
      | H : Ok (VObj _) = Ok (VObj _) |- _ => injection H as <-
      end;
      repeat (apply Forall_cons;
              [eexists; split; [reflexivity | assumption] |]);
      apply Forall_nil.
  - injection H as <-.
    repeat (apply Forall_cons;
            [eexists; split; [reflexivity | now left] |]);
    apply Forall_nil.
Qed.

Lemma scrubMemberInfo_fields_defined_witness :
  Forall (fun k => exists v,
              JS.lookup k [("firstname", VStr "Ada"); ("lastname", VStr "");
                           ("occupation", VStr "");
                           ("publicIdentifier", VStr "ada-l")] = Some v
              /\ (v = VStr "" \/ JS.truthy v = true))
         ["firstname"; "lastname"; "occupation"; "publicIdentifier"].
Proof.
  apply (scrubMemberInfo_fields_defined
           (VObj [("member", VObj [("firstName", VStr "Ada");
                                   ("lastName", VNull);
                                   ("publicIdentifier", VStr "ada-l")])])).
  reflexivity.
Defined.

Lemma member_field_returns member k :
  JS.truthy member = true -> exists v, member_field member k = Ok v.
Proof.
  intros T. unfold member_field.
  destruct member; try discriminate T; cbn [JS.get bind];
    match goal with
    | |- context [JS.truthy ?i] =>
        destruct (JS.truthy i) eqn:I; [|eauto];
        destruct i; try discriminate I; cbn [JS.get bind];
        match goal with
        | |- context [if JS.truthy ?f then _ else _] =>
            destruct (JS.truthy f); eauto
        end
    end.
Qed.



(** X9. Whenever [_scrubPathToResource] returns, it returns a string that is
    empty or starts with the CDN base: never [undefined], never a bare
    relative path. *)
Theorem scrubPathToResource_result (resource r : value) :
  _scrubPathToResource resource = Ok r ->
  r = VStr "" \/ exists p, r = VStr (LI_CDN ++ p).
Proof.
  unfold _scrubPathToResource. intros H.
  bind_inv H. destruct x; cbn [negb] in H;
    [|injection H as <-; now left].
  repeat bind_inv H. unfold JS.or_else in H.
  destruct (JS.truthy x1) eqn:T.
  - rewrite T in H. bind_inv H. injection H as <-. right.
    eexists. reflexivity.
  - cbn in H. injection H as <-. now left.
Qed.

Lemma scrubPathToResource_result_witness :
  VStr "https://media-exp2.licdn.com/media/p/1/logo.png" = VStr ""
  \/ exists p,
       VStr "https://media-exp2.licdn.com/media/p/1/logo.png"
       = VStr (LI_CDN ++ p).
Proof.
  apply (scrubPathToResource_result
           (VObj [("com.linkedin.common.VectorImage",
                   VObj [("id", VStr "/p/1/logo.png")]);
                  ("thumbnail", VObj [("id", VStr "/p/1/thumb.png")])])).
  reflexivity.
Defined.

Lemma mapM_Forall2 {A B} (f : A -> outcome B) l out :
  Forall2 (fun a o => f a = Ok o) l out -> mapM f l = Ok out.
Proof.
  induction 1 as [|a o l outs Ha _ IH]; [reflexivity|].
  cbn [mapM]. rewrite Ha. cbn [bind]. now rewrite IH.
Qed.

Lemma mapM_length {A B} (f : A -> outcome B) l out :
  mapM f l = Ok out -> List.length out = List.length l.
Proof.
  revert out. induction l as [|a l IH]; intros out H; cbn [mapM] in H.
  - now injection H as <-.
  - bind_inv H. bind_inv H. injection H as <-. cbn. now rewrite (IH _ eq_refl).
Qed.

(** X10. The authors of a publication are scrubbed as they stand: each
    normalized author is [_scrubMemberInfo] of the raw author itself (where
    a patent passes the inventor's [member]), none is dropped, and the list
    keeps its length and order. *)
Theorem scrubPublicationInfo_authors
  (publication : list (string * value)) (authors scrubbed : list value) :
  JS.has_key "hasOwnProperty" publication = false ->
  JS.lookup "authors" publication = Some (VArr authors) ->
  authors <> [] ->
  Forall2 (fun a o => _scrubMemberInfo a = Ok o) authors scrubbed ->
  exists r,
    _scrubPublicationInfo (VObj publication) = Ok (VObj r)
    /\ JS.field r "authors" = VArr scrubbed
    /\ List.length scrubbed = List.length authors.
Proof.
  intros S H N F. unfold _scrubPublicationInfo, get_or.
  cbn [JS.get JS.prop bind].
  rewrite (has_nonempty_array publication "authors" authors) by assumption.
  cbn [bind].
  assert (I : JS.field publication "authors" = VArr authors)
    by (unfold JS.field; now rewrite H).
  rewrite I. cbn [JS.array_map].
  change (fun author => _scrubMemberInfo author) with _scrubMemberInfo.
  rewrite (mapM_Forall2 _ _ _ F). cbn [bind].
  eexists. split; [reflexivity|]. split; [reflexivity|].
  symmetry. eapply Forall2_length. exact F.
Qed.

Lemma scrubPublicationInfo_authors_witness :
  exists r,
    _scrubPublicationInfo
      (VObj [("name", VStr "Notes");
             ("authors",
              VArr [VObj [("member", VObj [("firstName", VStr "Ada");
                                           ("lastName", VStr "Lovelace")])];
                    VObj [("name", VStr "unlinked")]])])
    = Ok (VObj r)
    /\ JS.field r "authors"
       = VArr [VObj [("firstname", VStr "Ada"); ("lastname", VStr "Lovelace");
                     ("occupation", VStr "");
                     ("publicIdentifier", VStr "")];
               VObj empty_member]
    /\ List.length [VObj [("firstname", VStr "Ada");
                          ("lastname", VStr "Lovelace");
                          ("occupation", VStr "");
                          ("publicIdentifier", VStr "")];
                    VObj empty_member]
       = List.length [VObj [("member", VObj [("firstName", VStr "Ada");
                                             ("lastName", VStr "Lovelace")])];
                      VObj [("name", VStr "unlinked")]].
Proof.
  apply scrubPublicationInfo_authors.
  - reflexivity.
  - reflexivity.
  - discriminate.
  - repeat constructor.
Defined.

Lemma scrubProjectInfo_writes_members_witness :
  exists r,
    _scrubProjectInfo
      (VObj [("title", VStr "Analytical Engine");
             ("members",
              VArr [VObj [("member", VObj [("firstName", VStr "Ada")])]])])
    = Ok (VObj r,
          VObj (JS.set_prop "members"
                  (VArr [VObj [("firstname", VStr "Ada"); ("lastname", VStr "");
                               ("occupation", VStr "");
                               ("publicIdentifier", VStr "")]])
                  [("title", VStr "Analytical Engine");
                   ("members",
                    VArr [VObj [("member",
                                 VObj [("firstName", VStr "Ada")])]])]))
    /\ JS.lookup "members" r = None.
Proof.
  apply (scrubProjectInfo_writes_members
           [("title", VStr "Analytical Engine");
            ("members",
             VArr [VObj [("member", VObj [("firstName", VStr "Ada")])]])]
           [VObj [("member", VObj [("firstName", VStr "Ada")])]]).
  - reflexivity.
  - reflexivity.
  - discriminate.
  - reflexivity.
Defined.

(** One optional step of [_scrubCompanyResponse] leaves the fields set
    before it alone. *)
Ltac company_step_keeps W a rec :=
  assert (forall k,
            In k ["domain"; "linkedInId"; "parentCompanyLinkedInId";
                  "linkedInUrn"; "source"] ->
            JS.lookup k a = JS.lookup k rec);
  [ let k := fresh "k" in
    let Hk := fresh "Hk" in
    intros k Hk;
    repeat match type of W with
      | (if ?b then _ else _) => destruct b
      | (if ?b then _ else _) = Ok _ => destruct b
      | bind _ _ = Ok _ => bind_inv W
      end;
    first [injection W as <- | subst a];
    cbn [In] in Hk; decompose [or] Hk; subst; try contradiction;
    repeat (rewrite lookup_set_prop_other by discriminate); reflexivity
  | clear W ].

(** X11. What a normalized company says about where it came from is
    read off the raw company by the shared helpers, and no later step
    overwrites it: its [domain] is [extractRootDomain] of the raw page URL,
    its [linkedInId] and [parentCompanyLinkedInId] are [_scrubIdFromUrn] of
    the raw [entityUrn] and [parentCompany], its [linkedInUrn] is the raw
    urn, and its [source] is "LinkedIn", whichever optional parts the raw
    company has. *)
Theorem scrubCompanyResponse_provenance (cr : value)
  (out : list (string * value)) :
  _scrubCompanyResponse cr = Ok (VObj out) ->
  extractRootDomain (JS.prop cr "companyPageUrl")
  = Ok (JS.field out "domain")
  /\ _scrubIdFromUrn (JS.prop cr "entityUrn")
     = Ok (JS.field out "linkedInId")
  /\ _scrubIdFromUrn (JS.prop cr "parentCompany")
     = Ok (JS.field out "parentCompanyLinkedInId")
  /\ JS.field out "linkedInUrn" = JS.prop cr "entityUrn"
  /\ JS.field out "source" = VStr "LinkedIn".
Proof.
  unfold _scrubCompanyResponse. intros H.
  repeat match type of H with
    | bind (JS.get ?v ?k) _ = Ok _ =>
        let x := fresh "x" in
        let E := fresh "E" in
        destruct (JS.get v k) as [x| |] eqn:E; cbn [bind] in H;
        [apply get_prop in E; subst x|discriminate H|discriminate H]
    | bind (when_has _ _ _ _) _ = Ok _ => fail 1
    | bind _ _ = Ok _ => bind_inv H
    end.
  repeat match goal with
    | E : extractRootDomain _ = Ok _ |- _ => rewrite E; clear E
    | E : _scrubIdFromUrn _ = Ok _ |- _ => rewrite E; clear E
    | E : get_or _ _ _ = Ok _ |- _ => clear E
    end.
  repeat match type of H with
    | bind (when_has ?x ?key ?upd ?rec) _ = Ok _ =>
        let a := fresh "a" in
        let W := fresh "W" in
        destruct (when_has x key upd rec) as [a| |] eqn:W; cbn [bind] in H;
        [apply when_has_inv in W; destruct W as [_ W];
         company_step_keeps W a rec
        |discriminate H|discriminate H]
    | bind (has_nested _ _ _) _ = Ok _ => bind_inv H
    | bind (if ?b then ?upd else Ok ?rec) _ = Ok _ =>
        let a := fresh "a" in
        let W := fresh "W" in
        destruct (if b then upd else Ok rec) as [a| |] eqn:W; cbn [bind] in H;
        [company_step_keeps W a rec|discriminate H|discriminate H]
    end.
  injection H as <-. unfold JS.field.
  repeat match goal with
    | K : forall k, In k _ -> JS.lookup k _ = JS.lookup k _ |- _ =>
        rewrite !K by (cbn [In]; tauto); clear K
    end.
  repeat split; reflexivity.
Qed.

Lemma scrubCompanyResponse_provenance_witness :
  exists out,
    _scrubCompanyResponse sample_company = Ok (VObj out)
    /\ extractRootDomain (JS.prop sample_company "companyPageUrl")
       = Ok (JS.field out "domain")
    /\ _scrubIdFromUrn (JS.prop sample_company "entityUrn")
       = Ok (JS.field out "linkedInId")
    /\ _scrubIdFromUrn (JS.prop sample_company "parentCompany")
       = Ok (JS.field out "parentCompanyLinkedInId")
    /\ JS.field out "linkedInUrn" = JS.prop sample_company "entityUrn"
    /\ JS.field out "source" = VStr "LinkedIn".
Proof.
  eexists. split; [vm_compute; reflexivity|].
  apply (scrubCompanyResponse_provenance sample_company).
  reflexivity.
Defined.


(** X12. When the normalized headline and occupation differ, the workaround
    stays out of the way: the occupation of the result is the raw
    mini-profile occupation (or the empty string), whatever the positions
    say. *)
Theorem occupation_kept (profile p : value) :
  _scrubFullProfileResponse profile = Ok p ->
  JS.strict_eq
    (JS.or_else (JS.prop (JS.prop profile "profile") "headline") (VStr ""))
    (JS.or_else
       (JS.prop (JS.prop (JS.prop profile "profile") "miniProfile")
                "occupation") (VStr "")) = false ->
  exists sp,
    p = VObj sp
    /\ JS.field sp "occupation"
       = JS.or_else
           (JS.prop (JS.prop (JS.prop profile "profile") "miniProfile")
                    "occupation") (VStr "").
Proof.
  intros H Q.
  destruct (scrubFullProfileResponse_shape _ _ H)
    as (base & sp & -> & R & Hh & Ho & _).
  rewrite <- Hh, <- Ho in Q.
  pose proof (rederive_occupation_differ _ _ _ Q R) as ->.
  exists base. split; [reflexivity | exact Ho].
Qed.

Lemma occupation_kept_witness :
  exists sp,
    sample_distinct_normalized = VObj sp
    /\ JS.field sp "occupation" = VStr "Mathematician".
Proof.
  apply (occupation_kept sample_profile_distinct sample_distinct_normalized);
    reflexivity.
Defined.

(** X13. [_scrubProjectInfo] writes to its argument and to nothing but its
    [members]: every other property of the raw project reads the same after
    the call, and a project without a non-empty member list is left as it
    was. *)
Theorem scrubProjectInfo_touches_members_only (project out project' : value) :
  _scrubProjectInfo project = Ok (out, project') ->
  (forall k, k <> "members" -> JS.prop project' k = JS.prop project k)
  /\ (has_nonempty project "members" = Ok false -> project' = project).
Proof.
  unfold _scrubProjectInfo. intros H.
  repeat bind_inv H.
  destruct x3.
  - repeat bind_inv H. injection H as _ <-. split.
    + intros k N. destruct project; try reflexivity.
      cbn [assign_prop JS.prop]. unfold JS.field.
      now rewrite lookup_set_prop_other.
    + discriminate.
  - injection H as _ <-. split; reflexivity.
Qed.

Lemma scrubProjectInfo_touches_members_only_witness :
  JS.prop (VObj [("title", VStr "Analytical Engine");
                 ("members",
                  VArr [VObj [("firstname", VStr "Ada");
                              ("lastname", VStr "");
                              ("occupation", VStr "");
                              ("publicIdentifier", VStr "")]])]) "title"
  = JS.prop (VObj [("title", VStr "Analytical Engine");
                   ("members",
                    VArr [VObj [("member",
                                 VObj [("firstName", VStr "Ada")])]])])
            "title".
Proof.
  apply (proj1 (scrubProjectInfo_touches_members_only
                  (VObj [("title", VStr "Analytical Engine");
                         ("members",
                          VArr [VObj [("member",
                                       VObj [("firstName", VStr "Ada")])]])])
                  (VObj [("description", VStr ""); ("timePeriod", VObj []);
                         ("title", VStr "Analytical Engine");
                         ("url", VStr "")])
                  _ eq_refl) "title").
  discriminate.
Defined.

Lemma map_view_shape profile view f x :
  map_view profile view f = Ok x ->
  exists raw out,
    JS.prop (JS.prop profile view) "elements" = VArr raw
    /\ x = VArr out
    /\ mapM f raw = Ok out.
Proof.
  unfold map_view, view_elements. intros H.
  bind_inv H. bind_inv E. apply get_prop in E0. subst x1.
  apply get_prop in E. subst x0.
  destruct (JS.prop (JS.prop profile view) "elements");
    cbn [JS.array_map] in H; try discriminate H.
  repeat bind_inv H. bind_inv E. injection E as <-. injection H as <-.
  eexists _, _. repeat split. exact E0.
Qed.

(** X14. A profile normalizes only if each of its seven views carries an
    array of elements, and then each list of the result has exactly as many
    entries as the raw view: nothing is dropped, nothing is added. *)
Theorem scrubFullProfileResponse_lists (profile p : value) :
  _scrubFullProfileResponse profile = Ok p ->
  exists sp,
    p = VObj sp
    /\ Forall (fun '(name, view) =>
                 exists raw out,
                   JS.prop (JS.prop profile view) "elements" = VArr raw
                   /\ JS.field sp name = VArr out
                   /\ List.length out = List.length raw)
              profile_lists.
Proof.
  unfold _scrubFullProfileResponse. intros H.
  repeat bind_inv H. injection H as <-.
  repeat match goal with
    | E : map_view _ _ _ = Ok _ |- _ =>
        apply map_view_shape in E as (? & ? & ? & -> & ?%mapM_length)
    end.
  eexists. split; [reflexivity|].
  assert (P : forall k, k <> "occupation" -> JS.field x25 k = JS.field x24 k).
  { intros k K. unfold JS.field.
    match goal with
    | R : rederive_occupation _ _ = Ok _ |- _ =>
        now rewrite (rederive_occupation_preserves _ _ _ k R K)
    end. }
  unfold profile_lists.
  repeat (apply Forall_cons;
          [ eexists _, _; split; [eassumption|];
            split; [|eassumption];
            rewrite P by discriminate;
            destruct x23;
            repeat match goal with
              | E : bind _ _ = Ok _ |- _ => bind_inv E
              | E : Ok _ = Ok x24 |- _ => injection E as <-
              end;
            unfold JS.field;
            repeat (rewrite lookup_set_prop_other by discriminate);
            rewrite lookup_set_prop_same; reflexivity
          |]).
  apply Forall_nil.
Qed.

Lemma scrubFullProfileResponse_lists_witness :
  exists sp,
    sample_distinct_normalized = VObj sp
    /\ Forall (fun '(name, view) =>
                 exists raw out,
                   JS.prop (JS.prop sample_profile_distinct view) "elements"
                   = VArr raw
                   /\ JS.field sp name = VArr out
                   /\ List.length out = List.length raw)
              profile_lists.
Proof.
  apply (scrubFullProfileResponse_lists sample_profile_distinct). reflexivity.
Defined.

Lemma lookup_fold_set_absent k props target :
  JS.lookup k props = None ->
  JS.lookup k (fold_left (fun t kv => JS.set_prop (fst kv) (snd kv) t)
                         props target)
  = JS.lookup k target.
Proof.
  revert target. induction props as [|[k0 v0] r IH]; intros target H;
    cbn in *; auto.
  destruct (k =? k0)%string eqn:E; [discriminate|].
  rewrite IH by assumption.
  apply lookup_set_prop_other. now apply String.eqb_neq.
Qed.

(** A property of the source ends up in the target, whatever the target
    held. *)
Lemma lookup_assign_present k v target src :
  NoDup (map fst (own_properties src)) ->
  JS.lookup k (own_properties src) = Some v ->
  JS.lookup k (assign target src) = Some v.
Proof.
  unfold assign. generalize (own_properties src) as props.
  intros props; revert target.
  induction props as [|[k0 v0] r IH]; intros target D H; cbn in *;
    [discriminate|].
  inversion D as [|? ? Nin D']; subst.
  destruct (k =? k0)%string eqn:E.
  - injection H as ->. apply String.eqb_eq in E. subst k0.
    rewrite lookup_fold_set_absent.
    + apply lookup_set_prop_same.
    + clear - Nin. induction r as [|[k1 v1] r IH]; [reflexivity|].
      cbn in *. destruct (k =? k1)%string eqn:E.
      * apply String.eqb_eq in E. subst. tauto.
      * apply IH. tauto.
  - now apply IH.
Qed.

Section MergeFacts.

Variable network : request -> fetch_result.
Variable csrfToken : string.

Lemma getFullProfile_resolved id s w p :
  JS.truthy id = true ->
  JS.to_string id = Ok s ->
  fst (getFullProfile network csrfToken id w) = Ok (Resolved p) ->
  _scrubFullProfileResponse
    (VObj (fold_left assign
             (map (fun r => settled (network (profile_request csrfToken s r)))
                  profile_resources)
             [("publicIdentifier", id)])) = Ok p.
Proof.
  intros T S H.
  destruct (accepted_dec csrfToken) as [A|A];
    [|rewrite (getFullProfile_refused network csrfToken id s w A T S) in H;
      discriminate H].
  rewrite (getFullProfile_run network csrfToken id s) in H by assumption.
  cbv zeta in H. cbn [fst] in H.
  destruct (existsb sets_prototype _); [discriminate H|].
  destruct (_scrubFullProfileResponse _); try discriminate H.
  now injection H as ->.
Qed.

(** X15. The profile [getFullProfile] resolves with carries, as its
    [publicIdentifier], the identifier the caller passed, as long as no
    sub-resource answers with a [publicIdentifier] of its own. *)
Theorem getFullProfile_keeps_identifier (id : value) (s : string) (w : world)
  (p : value) :
  JS.truthy id = true ->
  JS.to_string id = Ok s ->
  Forall (fun r => lacks ["publicIdentifier"]
                         (settled (network (profile_request csrfToken s r))))
         profile_resources ->
  fst (getFullProfile network csrfToken id w) = Ok (Resolved p) ->
  exists sp, p = VObj sp /\ JS.field sp "publicIdentifier" = id.
Proof.
  intros T S L H.
  apply (getFullProfile_resolved id s w p T S) in H.
  destruct (scrubFullProfileResponse_shape _ _ H)
    as (base & sp & -> & R & _ & _ & _ & _ & Hi & _).
  exists sp. split; [reflexivity|].
  unfold JS.field.
  rewrite (rederive_occupation_preserves _ _ _ "publicIdentifier" R)
    by discriminate.
  fold (JS.field base "publicIdentifier"). rewrite Hi.
  cbn [JS.prop map profile_resources fold_left]. unfold JS.field.
  unfold lacks in L. rewrite !Forall_forall in L.
  rewrite !lookup_assign_absent.
  - reflexivity.
  - pose proof (L "profileView" ltac:(cbn; tauto)) as A.
    rewrite Forall_forall in A. apply A. now left.
  - pose proof (L "profileContactInfo" ltac:(cbn; tauto)) as A.
    rewrite Forall_forall in A. apply A. now left.
  - pose proof (L "highlights" ltac:(cbn; tauto)) as A.
    rewrite Forall_forall in A. apply A. now left.
Qed.

(** X16. In the merge a later sub-resource wins: when the contact-info
    answer carries an [emailAddress] and the highlights answer does not,
    the resolved profile has the contact-info address (or the empty string,
    when that address is falsy), whatever address the profile-view answer
    carries. *)
Theorem getFullProfile_contact_email_wins (id : value) (s : string)
  (w : world) (p email : value) :
  JS.truthy id = true ->
  JS.to_string id = Ok s ->
  let contact :=
    settled (network (profile_request csrfToken s "profileContactInfo")) in
  let highlights :=
    settled (network (profile_request csrfToken s "highlights")) in
  NoDup (map fst (own_properties contact)) ->
  JS.lookup "emailAddress" (own_properties contact) = Some email ->
  lacks ["emailAddress"] highlights ->
  fst (getFullProfile network csrfToken id w) = Ok (Resolved p) ->
  exists sp,
    p = VObj sp
    /\ JS.field sp "emailAddress" = JS.or_else email (VStr "").
Proof.
  intros T S contact highlights D E L H.
  apply (getFullProfile_resolved id s w p T S) in H.
  destruct (scrubFullProfileResponse_shape _ _ H)
    as (base & sp & -> & R & _ & _ & He & _).
  exists sp. split; [reflexivity|].
  unfold JS.field at 1.
  rewrite (rederive_occupation_preserves _ _ _ "emailAddress" R)
    by discriminate.
  fold (JS.field base "emailAddress"). rewrite He.
  cbn [JS.prop map profile_resources fold_left]. unfold JS.field.
  unfold lacks in L. rewrite Forall_forall in L.
  fold contact highlights.
  rewrite lookup_assign_absent by (apply L; now left).
  now rewrite (lookup_assign_present "emailAddress" email _ contact D E).
Qed.

End MergeFacts.

(* ===================================================================== *)
(** ** Requests and the company lookup *)
(* ===================================================================== *)

Section TransportFacts.

Variable fetch : string -> value -> fetch_reply.
Variable JSON_stringify : value -> string.
Variable csrfToken : string.

(** X17. [_sendRequest] wants a non-empty plain object: for options that
    are an empty mapping, or no mapping at all (an array, a string, a
    number, a mapping with a [constructor] key of its own), it returns a
    promise rejected with the bare message, calls [fetch] not at all and
    leaves the options alone; for [undefined] or [null] options it does not
    even return a promise but throws a [TypeError]. *)
Theorem sendRequest_needs_options (url : string) (requestOptions : value)
  (calls : list fetch_call) :
  (match requestOptions with
   | VUndef | VNull => False
   | VObj kv => kv = [] \/ JS.has_key "constructor" kv = true
   | _ => True
   end ->
   _sendRequest fetch JSON_stringify url requestOptions calls
   = mkSent (Ok (Rejects (Reject_message
                            "A request options object is required")))
            requestOptions calls)
  /\ (requestOptions = VUndef \/ requestOptions = VNull ->
      _sendRequest fetch JSON_stringify url requestOptions calls
      = mkSent (Throw (TypeError_read "constructor" requestOptions))
               requestOptions calls).
Proof.
  split.
  - intros H. unfold _sendRequest.
    destruct requestOptions; try contradiction; try reflexivity.
    cbn [JS.constructor_is_Object].
    destruct (JS.has_key "constructor" kv) eqn:C; cbn [negb]; [reflexivity|].
    destruct H as [-> | H]; [reflexivity | discriminate H].
  - intros [-> | ->]; reflexivity.
Qed.


Lemma keys_nonempty (kv : list (string * value)) :
  kv <> [] -> (List.length (map fst kv) =? 0)%nat = false.
Proof. destruct kv; [contradiction | reflexivity]. Qed.

(** X18. With usable options [_sendRequest] calls [fetch] exactly once, with
    the options it leaves behind, and rewrites nothing in them but [body]:
    a truthy body that is not a string is replaced by its JSON text, in the
    caller's object too; a string body, and no body, stay as they are. *)
Theorem sendRequest_stringifies_body (url : string)
  (options : list (string * value)) (calls : list fetch_call) :
  options <> [] ->
  JS.has_key "constructor" options = false ->
  let s := _sendRequest fetch JSON_stringify url (VObj options) calls in
  sent_calls s = calls ++ [(url, sent_options s)]
  /\ (forall k, k <> "body" ->
        JS.prop (sent_options s) k = JS.field options k)
  /\ JS.prop (sent_options s) "body"
     = (if body_to_stringify (JS.field options "body")
        then VStr (JSON_stringify (JS.field options "body"))
        else JS.field options "body").
Proof.
  intros N C s. subst s. unfold _sendRequest.
  cbn [JS.constructor_is_Object JS.keys]. rewrite C. cbn [negb].
  rewrite (keys_nonempty _ N). cbn [JS.prop sent_calls sent_options].
  destruct (body_to_stringify (JS.field options "body"));
    cbn [assign_prop JS.prop]; repeat split; try reflexivity.
  - intros k K. unfold JS.field. now rewrite lookup_set_prop_other.
  - unfold JS.field. now rewrite lookup_set_prop_same.
Qed.


(** X19. [_sendRequest] never fulfils on a response that is not ok: when
    its promise fulfils, the one [fetch] it made answered with an ok
    response, delivered as it is under a truthy [raw], and as its parsed
    JSON body otherwise. *)
Theorem sendRequest_fulfils_on_ok (url : string) (requestOptions : value)
  (calls : list fetch_call) (d : delivery) :
  let s := _sendRequest fetch JSON_stringify url requestOptions calls in
  sent_result s = Ok (Fulfils d) ->
  exists res,
    fetch url (sent_options s) = Reply res
    /\ res_ok res = true
    /\ (if JS.truthy (JS.prop (sent_options s) "raw")
        then d = Delivered_raw res
        else exists json, res_json res = Some json /\ d = Delivered_json json).
Proof.
  intros s. subst s. unfold _sendRequest.
  destruct (JS.constructor_is_Object requestOptions) as [[]| |];
    cbn [sent_result]; try discriminate.
  destruct (JS.keys requestOptions) as [ks| |];
    cbn [sent_result]; try discriminate.
  destruct (List.length ks =? 0)%nat; cbn [sent_result sent_options];
    try discriminate.
  match goal with
  | |- context [fetch url ?o] => generalize o
  end.
  intros o. destruct (fetch url o) as [detail|res]; [discriminate|].
  destruct (res_ok res) eqn:K; cbn [negb]; [|discriminate].
  destruct (JS.truthy (JS.prop o "raw")).
  - intros H. injection H as <-. eauto.
  - destruct (res_json res) as [json|] eqn:J; [|discriminate].
    intros H. injection H as <-. eauto 6.
Qed.

Lemma getCompany_run (companyId : value) (id : string)
  (calls : list fetch_call) :
  accepted csrfToken ->
  JS.to_string companyId = Ok id ->
  getCompany fetch JSON_stringify csrfToken companyId calls
  = (match fetch (company_url id) (company_request csrfToken) with
     | Reply_rejects _ => Ok (Resolved (VObj []))
     | Reply res =>
         if res_ok res then
           match res_json res with
           | Some json =>
               match first_company (Delivered_json json) with
               | Ok company => Ok (Resolved company)
               | Throw _ => Ok (Resolved (VObj []))
               | Beyond => Beyond
               end
           | None => Ok (Resolved (VObj []))
           end
         else Ok (Resolved (VObj []))
     end,
     calls ++ [(company_url id, company_request csrfToken)]).
Proof.
  intros A T. unfold getCompany. rewrite T.
  rewrite (getRequestHeaders_accepted csrfToken A).
  fold (company_request csrfToken).
  unfold _sendRequest.
  change (JS.constructor_is_Object (company_request csrfToken)) with (Ok true).
  change (JS.keys (company_request csrfToken))
    with (Ok ["method"; "credentials"; "headers"]).
  cbn [List.length Nat.eqb].
  change (body_to_stringify (JS.prop (company_request csrfToken) "body"))
    with false.
  cbv iota. cbv zeta.
  change (JS.truthy (JS.prop (company_request csrfToken) "raw")) with false.
  cbn [sent_result sent_calls].
  destruct (fetch _ _) as [detail|res]; [reflexivity|].
  destruct (res_ok res); cbn [negb]; [|reflexivity].
  destruct (res_json res) as [json|]; [|reflexivity].
  destruct (first_company (Delivered_json json)); reflexivity.
Qed.

(** X20. [getCompany] does not fail on account of the lookup: in a client
    whose token [Headers.append] accepts, for a company id that prints as
    [id], it returns a promise and the promise resolves, whatever [fetch]
    does, as long as scrubbing the first element of an ok JSON answer stays
    within the JavaScript this development gives a meaning to. *)
Theorem getCompany_never_fails (companyId : value) (id : string)
  (calls : list fetch_call) :
  accepted csrfToken ->
  JS.to_string companyId = Ok id ->
  (forall res json,
      fetch (company_url id) (company_request csrfToken) = Reply res ->
      res_ok res = true ->
      res_json res = Some json ->
      first_company (Delivered_json json) <> Beyond) ->
  exists company,
    fst (getCompany fetch JSON_stringify csrfToken companyId calls)
    = Ok (Resolved company).
Proof.
  intros A T B. rewrite (getCompany_run companyId id calls A T). cbn [fst].
  destruct (fetch _ _) as [detail|res] eqn:F; [eauto|].
  destruct (res_ok res) eqn:K; [|eauto].
  destruct (res_json res) as [json|] eqn:J; [|eauto].
  specialize (B res json eq_refl K J).
  destruct (first_company _); [eauto | eauto | contradiction].
Qed.

(** X21. Every failure of the company lookup comes out as the empty
    mapping: a rejected [fetch], a status that is not 2xx, a body that is not
    JSON, and also an exception of the scrubbing itself, as when the answer
    has an empty [elements] list and there is no first company to scrub.
    (The client holds a token that [Headers.append] accepts.) *)
Theorem getCompany_swallows (companyId : value) (id : string)
  (calls : list fetch_call) :
  accepted csrfToken ->
  JS.to_string companyId = Ok id ->
  let reply := fetch (company_url id) (company_request csrfToken) in
  (match reply with
   | Reply_rejects _ => True
   | Reply res =>
       res_ok res = false
       \/ res_json res = None
       \/ exists json, res_json res = Some json
            /\ ((exists e, first_company (Delivered_json json) = Throw e)
                \/ exists kv, json = VObj kv
                     /\ JS.lookup "elements" kv = Some (VArr []))
   end) ->
  fst (getCompany fetch JSON_stringify csrfToken companyId calls)
  = Ok (Resolved (VObj [])).
Proof.
  intros A T reply H. rewrite (getCompany_run companyId id calls A T).
  cbn [fst]. fold reply. destruct reply as [detail|res]; [reflexivity|].
  destruct (res_ok res); [|reflexivity].
  destruct H as [H | [H | (json & J & H)]]; [discriminate H | now rewrite H |].
  rewrite J. destruct H as [[e ->] | (kv & -> & L)]; [reflexivity|].
  cbn [first_company JS.get JS.prop bind]. unfold JS.field. rewrite L.
  reflexivity.
Qed.

(** X22. When the lookup answers with a JSON body whose [elements] list is
    not empty, [getCompany] resolves with the scrubbed first element, and
    with that alone: the other elements are not looked at. It makes one
    [fetch] call, a same-origin GET on the universal-name query, its header
    the token without the white space around it. (The client holds a token
    that [Headers.append] accepts, and the company id prints as [id].) *)
Theorem getCompany_first_element (companyId : value) (id : string)
  (calls : list fetch_call) (res : response) (body : list (string * value))
  (first : value) (others : list value) (company : value) :
  accepted csrfToken ->
  JS.to_string companyId = Ok id ->
  fetch (company_url id) (company_request csrfToken) = Reply res ->
  res_ok res = true ->
  res_json res = Some (VObj body) ->
  JS.lookup "elements" body = Some (VArr (first :: others)) ->
  _scrubCompanyResponse first = Ok company ->
  getCompany fetch JSON_stringify csrfToken companyId calls
  = (Ok (Resolved company),
     calls ++ [(company_url id, company_request csrfToken)]).
Proof.
  intros A T F K J L S. rewrite (getCompany_run companyId id calls A T).
  rewrite F, K, J.
  cbn [first_company JS.get JS.prop bind]. unfold JS.field. rewrite L.
  cbn [JS.get JS.prop bind]. rewrite elements_prop_0. cbn [nth].
  destruct first; try (now rewrite S);
    unfold _scrubCompanyResponse, get_or in S; cbn in S; discriminate S.
Qed.

End TransportFacts.

Lemma getFullProfile_keeps_identifier_witness :
  exists sp,
    sample_full_profile = VObj sp
    /\ JS.field sp "publicIdentifier" = VStr "ada".
Proof.
  apply (getFullProfile_keeps_identifier sample_network "token" (VStr "ada")
           "ada" fresh_world sample_full_profile).
  - reflexivity.
  - reflexivity.
  - repeat constructor.
  - reflexivity.
Defined.

Lemma getFullProfile_contact_email_wins_witness :
  exists sp,
    sample_contact_profile = VObj sp
    /\ JS.field sp "emailAddress"
       = JS.or_else (VStr "ada@analytical.example") (VStr "").
Proof.
  apply (getFullProfile_contact_email_wins sample_network_contact "token"
           (VStr "ada") "ada" fresh_world sample_contact_profile
           (VStr "ada@analytical.example")).
  - reflexivity.
  - reflexivity.
  - repeat constructor; cbn; intuition discriminate.
  - reflexivity.
  - repeat constructor.
  - reflexivity.
Defined.

Lemma sendRequest_needs_options_witness :
  _sendRequest sample_lookup sample_stringify "https://example.org" (VObj []) []
  = mkSent (Ok (Rejects (Reject_message
                           "A request options object is required")))
           (VObj []) []
  /\ _sendRequest sample_lookup sample_stringify "https://example.org" VUndef []
     = mkSent (Throw (TypeError_read "constructor" VUndef)) VUndef [].
Proof.
  split.
  - apply (proj1 (sendRequest_needs_options sample_lookup sample_stringify
                    "https://example.org"
                    (VObj []) [])). now left.
  - apply (proj2 (sendRequest_needs_options sample_lookup sample_stringify
                    "https://example.org"
                    VUndef [])). now left.
Defined.

Lemma sendRequest_stringifies_body_witness :
  let s := _sendRequest sample_lookup sample_stringify "https://example.org"
             (VObj [("method", VStr "POST");
                    ("body", VObj [("q", VStr "ada")])]) [] in
  sent_calls s = [] ++ [("https://example.org", sent_options s)]
  /\ JS.prop (sent_options s) "method" = VStr "POST"
  /\ JS.prop (sent_options s) "body"
     = VStr (sample_stringify (VObj [("q", VStr "ada")])).
Proof.
  destruct (sendRequest_stringifies_body sample_lookup sample_stringify
              "https://example.org"
              [("method", VStr "POST"); ("body", VObj [("q", VStr "ada")])]
              []) as (A & B & C); [discriminate | reflexivity |].
  split; [exact A|]. split; [|exact C].
  apply (B "method"). discriminate.
Defined.

Lemma sendRequest_fulfils_on_ok_witness :
  exists res,
    sample_lookup "https://example.org"
      (sent_options (_sendRequest sample_lookup sample_stringify
                       "https://example.org"
                       (VObj [("method", VStr "GET"); ("raw", VBool true)])
                       []))
    = Reply res
    /\ res_ok res = true
    /\ (if JS.truthy
             (JS.prop (sent_options
                         (_sendRequest sample_lookup sample_stringify
                            "https://example.org"
                            (VObj [("method", VStr "GET");
                                   ("raw", VBool true)]) []))
                      "raw")
        then Delivered_raw
               (mkResponse true
                  (Some (VObj [("elements",
                                VArr [sample_company;
                                      VObj [("name", VStr "Another")]])])))
             = Delivered_raw res
        else exists json,
               res_json res = Some json
               /\ Delivered_raw
                    (mkResponse true
                       (Some (VObj [("elements",
                                     VArr [sample_company;
                                           VObj [("name", VStr "Another")]])])))
                  = Delivered_json json).
Proof.
  apply (sendRequest_fulfils_on_ok sample_lookup sample_stringify
           "https://example.org"
           (VObj [("method", VStr "GET"); ("raw", VBool true)]) []).
  reflexivity.
Defined.

Lemma getCompany_never_fails_witness :
  exists company,
    fst (getCompany sample_lookup sample_stringify " token "
                    (VNum 1843) [])
    = Ok (Resolved company).
Proof.
  apply (getCompany_never_fails sample_lookup sample_stringify " token "
           (VNum 1843) "1843" []).
  - reflexivity.
  - reflexivity.
  - intros res json F K J. injection F as <-. injection J as <-.
    vm_compute. discriminate.
Defined.

Lemma getCompany_swallows_witness :
  fst (getCompany empty_lookup sample_stringify "token"
                  (VStr "analytical-engines") [])
  = Ok (Resolved (VObj [])).
Proof.
  apply (getCompany_swallows empty_lookup sample_stringify "token"
           (VStr "analytical-engines") "analytical-engines" []).
  - reflexivity.
  - reflexivity.
  - right. right. eexists. split; [reflexivity|].
    right. eexists. split; reflexivity.
Defined.

Lemma getCompany_first_element_witness :
  getCompany sample_lookup sample_stringify " token "
             (VStr "analytical-engines") []
  = (Ok (Resolved sample_company_normalized),
     [] ++ [(company_url "analytical-engines",
             company_options [("csrf-token", "token")])]).
Proof.
  eapply (getCompany_first_element sample_lookup sample_stringify " token "
            (VStr "analytical-engines") "analytical-engines" []);
    reflexivity.
Defined.

(** X28. A token that [Headers.append] refuses makes both lookups throw a
    [TypeError], synchronously: the headers are built while the arguments
    of the request are, outside every [catch], so no promise is returned,
    no request is made and nothing is logged. *)
Theorem refused_token_throws (network : request -> fetch_result)
  (fetch : string -> value -> fetch_reply) (JSON_stringify : value -> string)
  (csrfToken : string) (publicIdentifier companyId : value)
  (s id : string) (w : world) (calls : list fetch_call) :
  ~ accepted csrfToken ->
  JS.truthy publicIdentifier = true ->
  JS.to_string publicIdentifier = Ok s ->
  JS.to_string companyId = Ok id ->
  getFullProfile network csrfToken publicIdentifier w
  = (Throw (TypeError_header_value "csrf-token"
              (header_value_normalize csrfToken)), w)
  /\ getCompany fetch JSON_stringify csrfToken companyId calls
     = (Throw (TypeError_header_value "csrf-token"
                 (header_value_normalize csrfToken)), calls).
Proof.
  intros A T S I. split.
  - exact (getFullProfile_refused network csrfToken publicIdentifier s w
             A T S).
  - unfold getCompany.
    now rewrite I, (getRequestHeaders_refused csrfToken A).
Qed.

Lemma refused_token_throws_witness :
  getFullProfile sample_network line_feed_token (VStr "ada") fresh_world
  = (Throw (TypeError_header_value "csrf-token" line_feed_token),
     fresh_world)
  /\ getCompany sample_lookup sample_stringify line_feed_token
                (VStr "analytical-engines") []
     = (Throw (TypeError_header_value "csrf-token" line_feed_token), []).
Proof.
  apply (refused_token_throws sample_network sample_lookup sample_stringify
           line_feed_token (VStr "ada") (VStr "analytical-engines")
           "ada" "analytical-engines" fresh_world []).
  - discriminate.
  - reflexivity.
  - reflexivity.
  - reflexivity.
Defined.

(* ===================================================================== *)
(** ** Cookies *)
(* ===================================================================== *)

Lemma remove_char_gone x s : has_char x (remove_char x s) = false.
Proof.
  induction s as [|a r IH]; [reflexivity|].
  cbn [remove_char]. destruct (Ascii.eqb a x) eqn:E; [exact IH|].
  cbn [has_char]. now rewrite E, IH.
Qed.

(** X23. Whatever the cookie string and the key, a value that
    [getCookieValue] returns is a string without a double quote in it. *)
Theorem getCookieValue_unquoted (cookies key v : value) :
  getCookieValue cookies key = Ok v ->
  exists r, v = VStr r /\ has_char dquote r = false.
Proof.
  unfold getCookieValue. intros H.
  destruct (negb (JS.truthy cookies) || negb (JS.truthy key)).
  - injection H as <-. exists "". split; reflexivity.
  - bind_inv H. bind_inv H. injection H as <-. eexists. split; [reflexivity|].
    generalize (x ++ "=")%string as ck. intros ck. clear.
    induction x0 as [|c rest IH]; [reflexivity|].
    cbn [find_cookie]. destruct (prefix ck (strip_spaces c)); [|exact IH].
    apply remove_char_gone.
Qed.

Lemma getCookieValue_unquoted_witness :
  exists r, VStr "ajax:5483" = VStr r /\ has_char dquote r = false.
Proof.
  apply (getCookieValue_unquoted
           (VStr (cookie_header
                    [("lang", "v=2&lang=en-us");
                     ("JSESSIONID",
                      String dquote ("ajax:5483" ++ String dquote ""))]))
           (VStr "JSESSIONID")).
  reflexivity.
Defined.

Lemma append_assoc a b c : ((a ++ b) ++ c = a ++ b ++ c)%string.
Proof. induction a as [|x a IH]; cbn; [reflexivity | now rewrite IH]. Qed.

Lemma append_empty a : (a ++ "")%string = a.
Proof. induction a as [|x a IH]; cbn; [reflexivity | now rewrite IH]. Qed.

Lemma split_on_cookies strs :
  Forall (fun s => has_char ";" s = false) strs ->
  JS.split_on ";" (String.concat "; " strs)
  = match strs with
    | [] => [""]
    | s :: rest => s :: map (fun x => String " " x) rest
    end.
Proof.
  induction 1 as [|s rest Hs _ IH]; [reflexivity|].
  destruct rest as [|s' rest'].
  - cbn [String.concat map]. now apply split_on_free.
  - change (String.concat "; " (s :: s' :: rest'))
      with (s ++ String ";" (String " " (String.concat "; " (s' :: rest'))))%string.
    rewrite split_on_app, split_on_free by assumption.
    cbn [app]. f_equal.
    cbn [JS.split_on Ascii.eqb Bool.eqb]. rewrite IH. reflexivity.
Qed.

Lemma strip_spaces_pair name v :
  has_char " " name = false ->
  strip_spaces (name ++ "=" ++ v) = (name ++ "=" ++ v)%string.
Proof.
  destruct name as [|a n]; [reflexivity|].
  cbn [has_char]. intros H. apply orb_false_iff in H as [A _].
  cbn [append strip_spaces]. now rewrite A.
Qed.

Lemma prefix_cookie_key key name v :
  has_char "=" key = false ->
  has_char "=" name = false ->
  prefix (key ++ "=") (name ++ "=" ++ v) = (key =? name)%string.
Proof.
  revert name. induction key as [|k key IH]; intros name K N.
  - destruct name as [|a n]; [now destruct v|].
    cbn [has_char] in N. apply orb_false_iff in N as [A _].
    cbn [append prefix String.eqb].
    destruct (ascii_dec "=" a) as [<-|_]; [discriminate A | reflexivity].
  - cbn [has_char] in K. apply orb_false_iff in K as [Kk K].
    destruct name as [|a n].
    + cbn [append prefix String.eqb].
      destruct (ascii_dec k "=") as [->|_]; [discriminate Kk | reflexivity].
    + cbn [has_char] in N. apply orb_false_iff in N as [_ N].
      cbn [append prefix String.eqb].
      destruct (ascii_dec k a) as [->|D].
      * rewrite Ascii.eqb_refl. now apply IH.
      * apply Ascii.eqb_neq in D. now rewrite D.
Qed.

Lemma cookie_value_cut key v :
  substring (String.length (key ++ "="))
            (String.length (key ++ "=" ++ v) - String.length (key ++ "="))
            (key ++ "=" ++ v)
  = v.
Proof.
  rewrite <- (append_assoc key "=" v).
  rewrite (length_append (key ++ "=") v).
  replace (String.length (key ++ "=") + String.length v
           - String.length (key ++ "="))%nat
    with (String.length v) by lia.
  rewrite substring_skip. apply substring_all.
Qed.

Lemma find_cookie_step key p rest spaced :
  has_char "=" key = false ->
  cookie_pair_ok p ->
  find_cookie (key ++ "=")
    ((if spaced : bool then String " " (fst p ++ "=" ++ snd p)
      else (fst p ++ "=" ++ snd p)%string) :: rest)
  = if (key =? fst p)%string then remove_char dquote (snd p)
    else find_cookie (key ++ "=") rest.
Proof.
  intros K (N1 & _ & N3 & _).
  cbn [find_cookie].
  assert (S : strip_spaces
                (if spaced then String " " (fst p ++ "=" ++ snd p)
                 else (fst p ++ "=" ++ snd p)%string)
              = (fst p ++ "=" ++ snd p)%string).
  { destruct spaced; cbn [strip_spaces Ascii.eqb Bool.eqb];
      now apply strip_spaces_pair. }
  rewrite S. cbv zeta. rewrite prefix_cookie_key by assumption.
  destruct (key =? fst p)%string eqn:E; [|reflexivity].
  apply String.eqb_eq in E. rewrite <- E. now rewrite cookie_value_cut.
Qed.

Lemma find_cookie_spaced key pairs :
  has_char "=" key = false ->
  Forall cookie_pair_ok pairs ->
  find_cookie (key ++ "=")
    (map (fun x => String " " x)
         (map (fun p => (fst p ++ "=" ++ snd p)%string) pairs))
  = match cookie_named key pairs with
    | Some v => remove_char dquote v
    | None => ""
    end.
Proof.
  intros K F. induction F as [|[name v] rest Hp _ IH]; [reflexivity|].
  cbn [map cookie_named].
  rewrite (find_cookie_step key (name, v) _ true K Hp). cbn [fst snd].
  destruct (key =? name)%string; [reflexivity | exact IH].
Qed.

Lemma has_char_pair c name v :
  has_char c name = false -> has_char c v = false ->
  Ascii.eqb "=" c = false ->
  has_char c (name ++ "=" ++ v) = false.
Proof.
  intros A B E. rewrite !has_char_append, A, B. cbn [has_char orb].
  now rewrite E.
Qed.

(** X24. What is put into a cookie string comes out again: from pairs
    written [name=value] and joined by "; ", [getCookieValue] returns the
    value of the first pair named by the key, its double quotes removed, and
    the empty string when no pair has that name. *)
Theorem getCookieValue_lookup (pairs : list (string * string)) (key : string) :
  key <> "" ->
  has_char "=" key = false ->
  Forall cookie_pair_ok pairs ->
  getCookieValue (VStr (cookie_header pairs)) (VStr key)
  = Ok (VStr (match cookie_named key pairs with
              | Some v => remove_char dquote v
              | None => ""
              end)).
Proof.
  intros N K F. unfold getCookieValue.
  assert (Tk : JS.truthy (VStr key) = true)
    by (destruct key; [contradiction | reflexivity]).
  rewrite Tk. cbn [negb orb].
  destruct (JS.truthy (VStr (cookie_header pairs))) eqn:Tc; cbn [negb orb].
  - cbn [JS.to_string bind JS.split]. f_equal. f_equal.
    unfold cookie_header. rewrite split_on_cookies.
    + destruct pairs as [|[name v] rest]; [discriminate Tc|].
      inversion F as [|? ? Hp Fr]; subst.
      cbn [map cookie_named].
      rewrite (find_cookie_step key (name, v) _ false K Hp). cbn [fst snd].
      destruct (key =? name)%string; [reflexivity|].
      now apply find_cookie_spaced.
    + rewrite Forall_map. eapply Forall_impl; [|exact F].
      intros p (_ & A & _ & B). now apply has_char_pair.
  - destruct pairs as [|[name v] rest]; [reflexivity|].
    exfalso. revert Tc. unfold cookie_header. cbn [map].
    destruct rest; cbn [String.concat fst snd];
      destruct name; cbn; discriminate.
Qed.

Lemma getCookieValue_lookup_witness :
  getCookieValue
    (VStr (cookie_header
             [("lang", "v=2&lang=en-us");
              ("JSESSIONID", String dquote ("ajax:5483" ++ String dquote ""));
              ("JSESSIONID", "second")]))
    (VStr "JSESSIONID")
  = Ok (VStr "ajax:5483").
Proof.
  apply (getCookieValue_lookup
           [("lang", "v=2&lang=en-us");
            ("JSESSIONID", String dquote ("ajax:5483" ++ String dquote ""));
            ("JSESSIONID", "second")] "JSESSIONID").
  - discriminate.
  - reflexivity.
  - repeat constructor.
Defined.

(* ===================================================================== *)
(** ** Public identifiers *)
(* ===================================================================== *)


Lemma prefix_extend pat x w :
  (String.length pat <= String.length x)%nat ->
  prefix pat (x ++ w) = prefix pat x.
Proof.
  revert x. induction pat as [|c pat IH]; intros x L.
  - destruct x; [now destruct w | reflexivity].
  - destruct x as [|a x]; [cbn in L; lia|].
    cbn [append prefix]. destruct (ascii_dec c a); [|reflexivity].
    apply IH. cbn in L. lia.
Qed.

Lemma contains_prefix pat s : contains pat s = false -> prefix pat s = false.
Proof.
  destruct s; cbn [contains]; intros H; now apply orb_false_iff in H.
Qed.

Lemma contains_suffix pat a b :
  contains pat (a ++ b) = false -> contains pat b = false.
Proof.
  induction a as [|x a IH]; [trivial|].
  cbn [append contains]. intros H. apply orb_false_iff in H as [_ H]. auto.
Qed.

Lemma contains_middle pat a b : contains pat (a ++ pat ++ b) = true.
Proof.
  induction a as [|x a IH].
  - cbn [append]. destruct (pat ++ b)%string eqn:E; cbn [contains];
      rewrite <- E, prefix_append; reflexivity.
  - cbn [append contains]. rewrite IH. apply orb_true_r.
Qed.

Lemma split_by_nonempty sep s k : split_by sep s k <> [].
Proof.
  revert k. induction s as [|a r IH]; intros k; [discriminate|].
  cbn [split_by]. destruct k; [|apply IH].
  destruct (prefix sep (String a r)); [discriminate|].
  destruct (split_by sep r 0); discriminate.
Qed.

(** Passing over the rest of a separator. *)
Lemma split_by_skip sep u t :
  split_by sep (u ++ t) (String.length u) = split_by sep t 0.
Proof.
  induction u as [|x u IH]; cbn [append String.length].
  - destruct t; reflexivity.
  - cbn [split_by]. exact IH.
Qed.

(** The first piece, when the separator does not occur before the place it
    is known to stand at. [u] is the separator without its last
    character. *)
Lemma split_by_first c sep u z a t :
  String c sep = (u ++ String z "")%string ->
  contains (String c sep) (a ++ u) = false ->
  split_by (String c sep) (a ++ String c sep ++ t) 0
  = a :: split_by (String c sep) t 0.
Proof.
  intros U. induction a as [|x a IH]; intros H.
  - cbn [append]. change (String c (sep ++ t)) with (String c sep ++ t)%string.
    destruct (String c sep ++ t)%string as [|y r] eqn:E; [discriminate E|].
    cbn [split_by]. rewrite <- E at 1. rewrite prefix_append.
    injection E as <- <-.
    cbn [String.length].
    replace (S (String.length sep) - 1)%nat with (String.length sep) by lia.
    now rewrite split_by_skip.
  - cbn [append contains] in H. apply orb_false_iff in H as [P H].
    cbn [append split_by].
    assert (Q : prefix (String c sep) (String x (a ++ String c sep ++ t))
                = false).
    { change (String x (a ++ String c sep ++ t))
        with ((String x a) ++ String c sep ++ t)%string.
      rewrite U, append_assoc.
      rewrite <- (append_assoc (String x a) u).
      rewrite prefix_extend; [rewrite <- U; exact P|].
      rewrite <- U. rewrite (length_append (String x a) u).
      assert (L : String.length (String c sep) = (String.length u + 1)%nat)
        by (rewrite U, length_append; reflexivity).
      rewrite L. cbn [String.length]. lia. }
    change (String c (sep ++ t)) with (String c sep ++ t)%string.
    rewrite Q. now rewrite (IH H).
Qed.

Lemma split_by_absent sep s :
  contains sep s = false -> split_by sep s 0 = [s].
Proof.
  induction s as [|a r IH]; [reflexivity|].
  cbn [contains]. intros H. apply orb_false_iff in H as [P H].
  cbn [split_by]. rewrite P, (IH H). reflexivity.
Qed.

(** The first piece of what follows the marker: the handle and, maybe, a
    stretch of the path. *)
Lemma split_by_handle sep handle rest :
  has_char "/" handle = false ->
  prefix "/" sep = true ->
  is_path rest ->
  exists r ps,
    split_by sep (handle ++ rest) 0 = (handle ++ r)%string :: ps
    /\ is_path r.
Proof.
  intros H S Q. induction handle as [|a h IH].
  - cbn [append]. destruct Q as [-> | [p ->]].
    + exists "", []. split; [reflexivity | now left].
    + cbn [split_by].
      destruct (prefix sep (String "/" p)).
      * eexists "", _. split; [reflexivity | now left].
      * destruct (split_by sep p 0) as [|q qs] eqn:E;
          [now apply split_by_nonempty in E|].
        eexists (String "/" q), qs. split; [reflexivity|].
        right. eauto.
  - cbn [has_char] in H. apply orb_false_iff in H as [A H].
    destruct (IH H) as (r & ps & E & R).
    exists r, ps. split; [|exact R].
    cbn [append split_by].
    assert (P : prefix sep (String a (h ++ rest)) = false).
    { destruct sep as [|c sep]; [discriminate S|].
      cbn [prefix] in S. destruct (ascii_dec "/" c) as [<-|]; [|discriminate S].
      apply prefix_first_differs. intros <-. discriminate A. }
    rewrite P, E. reflexivity.
Qed.

(** X25. From a profile URL, whatever stands before "linkedin.com/in/"
    (as long as no "/in/" comes earlier), [getPublicIdentifier] returns the
    handle: the text after the marker up to the next slash, or to the end. *)
Theorem getPublicIdentifier_handle (pre handle rest : string) :
  contains "/in/" (pre ++ "linkedin.com/in") = false ->
  has_char "/" handle = false ->
  is_path rest ->
  getPublicIdentifier (VStr (pre ++ "linkedin.com/in/" ++ handle ++ rest))
  = Ok (VStr handle).
Proof.
  intros C H Q. unfold getPublicIdentifier.
  assert (T : JS.truthy (VStr (pre ++ "linkedin.com/in/" ++ handle ++ rest))
              = true) by (destruct pre; reflexivity).
  rewrite T. cbn [negb]. rewrite contains_middle.
  change (pre ++ "linkedin.com/in/" ++ handle ++ rest)%string
    with (pre ++ "linkedin.com" ++ "/in/" ++ handle ++ rest)%string.
  rewrite <- (append_assoc pre "linkedin.com").
  rewrite (split_by_first "/" "in/" "/in" "/" (pre ++ "linkedin.com")
             (handle ++ rest) eq_refl).
  2:{ rewrite append_assoc. exact C. }
  destruct (split_by_handle "/in/" handle rest H eq_refl Q)
    as (r & ps & -> & R).
  cbn [nth_error].
  destruct R as [-> | [p ->]].
  - rewrite append_empty, index_absent by assumption. reflexivity.
  - change (String "/" p) with ("/" ++ p)%string.
    rewrite (index_after "/"%char "" handle p H).
    change ("/" ++ p)%string with (String "/" p).
    now rewrite substring_head.
Qed.

Lemma getPublicIdentifier_handle_witness :
  getPublicIdentifier
    (VStr "https://www.linkedin.com/in/ada-lovelace/detail/contact-info/")
  = Ok (VStr "ada-lovelace").
Proof.
  apply (getPublicIdentifier_handle "https://www." "ada-lovelace"
           "/detail/contact-info/").
  - reflexivity.
  - reflexivity.
  - right. eexists. reflexivity.
Defined.

(** X26. An old-style public URL ".../pub/name/a/b/c" is turned into the
    new-style handle "name-cba": the name, a dash, and the id segments in
    reverse order, joined with nothing in between. *)
Theorem getPublicIdentifier_pub (pre username : string) (ids : list string) :
  contains "linkedin.com/in/"
    (pre ++ "linkedin.com/pub/" ++ String.concat "/" (username :: ids))
  = false ->
  contains "/pub/" (pre ++ "linkedin.com/pub") = false ->
  contains "/pub/" (String.concat "/" (username :: ids)) = false ->
  Forall (fun s => has_char "/" s = false) (username :: ids) ->
  getPublicIdentifier
    (VStr (pre ++ "linkedin.com/pub/" ++ String.concat "/" (username :: ids)))
  = Ok (VStr (username ++ "-" ++ String.concat "" (List.rev ids))).
Proof.
  intros I C N F. unfold getPublicIdentifier.
  set (tail := String.concat "/" (username :: ids)) in *.
  assert (T : JS.truthy (VStr (pre ++ "linkedin.com/pub/" ++ tail)) = true)
    by (destruct pre; reflexivity).
  rewrite T, I. cbn [negb]. rewrite contains_middle.
  change (pre ++ "linkedin.com/pub/" ++ tail)%string
    with (pre ++ "linkedin.com" ++ "/pub/" ++ tail)%string.
  rewrite <- (append_assoc pre "linkedin.com").
  rewrite (split_by_first "/" "pub/" "/pub" "/" (pre ++ "linkedin.com")
             tail eq_refl).
  2:{ rewrite append_assoc. exact C. }
  rewrite (split_by_absent _ _ N). cbn [nth_error]. cbv zeta.
  unfold tail. rewrite split_on_concat; [reflexivity | discriminate | exact F].
Qed.

Lemma getPublicIdentifier_pub_witness :
  getPublicIdentifier (VStr "http://www.linkedin.com/pub/ada-lovelace/1a/2b/3c")
  = Ok (VStr "ada-lovelace-3c2b1a").
Proof.
  apply (getPublicIdentifier_pub "http://www." "ada-lovelace"
           ["1a"; "2b"; "3c"]).
  - reflexivity.
  - reflexivity.
  - reflexivity.
  - repeat constructor.
Defined.

Lemma prefix_decompose p s :
  prefix p s = true -> exists r, s = (p ++ r)%string.
Proof.
  revert s. induction p as [|c p IH]; intros s H.
  - exists s. reflexivity.
  - destruct s as [|a s]; [discriminate H|].
    cbn [prefix] in H. destruct (ascii_dec c a) as [<-|]; [|discriminate H].
    destruct (IH s H) as [r ->]. exists r. reflexivity.
Qed.

Lemma contains_tail a b s :
  contains (a ++ b) s = true -> contains b s = true.
Proof.
  induction s as [|x s IH].
  - cbn [contains]. rewrite orb_false_r. intros H.
    destruct (prefix_decompose _ _ H) as [r E].
    destruct a; [|discriminate E]. destruct b; [reflexivity | discriminate E].
  - intros H. cbn [contains] in H. apply orb_true_iff in H as [H|H].
    + destruct (prefix_decompose _ _ H) as [r E]. rewrite E.
      rewrite append_assoc. apply contains_middle.
    + cbn [contains]. rewrite (IH H). apply orb_true_r.
Qed.

Lemma split_by_two c sep s :
  contains (String c sep) s = true ->
  exists p q r, split_by (String c sep) s 0 = p :: q :: r.
Proof.
  induction s as [|a s IH]; [discriminate|].
  cbn [contains]. intros H. cbn [split_by].
  destruct (prefix (String c sep) (String a s)).
  - destruct (split_by (String c sep) s (String.length (String c sep) - 1))
      as [|q r] eqn:E; [now apply split_by_nonempty in E|].
    now exists "", q, r.
  - cbn [orb] in H. destruct (IH H) as (p & q & r & ->).
    now exists (String a p), q, r.
Qed.

Lemma index_none c s :
  String.index 0 (String c "") s = None -> has_char c s = false.
Proof.
  induction s as [|a s IH]; [reflexivity|].
  cbn [String.index prefix]. destruct (ascii_dec c a) as [<-|N].
  - destruct s; discriminate.
  - destruct (String.index 0 (String c "") s); [discriminate|].
    intros _. cbn [has_char]. rewrite IH by reflexivity.
    rewrite orb_false_r. apply Ascii.eqb_neq. congruence.
Qed.

Lemma substring_before_index c s i :
  String.index 0 (String c "") s = Some i ->
  has_char c (substring 0 i s) = false.
Proof.
  revert i. induction s as [|a s IH]; intros i; [discriminate|].
  cbn [String.index prefix]. destruct (ascii_dec c a) as [<-|N].
  - destruct s; intros [= <-]; reflexivity.
  - destruct (String.index 0 (String c "") s) as [n|]; [|discriminate].
    intros [= <-]. cbn [substring has_char]. rewrite (IH n eq_refl).
    rewrite orb_false_r. apply Ascii.eqb_neq. congruence.
Qed.

Lemma split_on_pieces c s :
  Forall (fun p => has_char c p = false) (JS.split_on c s).
Proof.
  induction s as [|a s IH]; [repeat constructor|].
  cbn [JS.split_on]. destruct (Ascii.eqb a c) eqn:E.
  - constructor; [reflexivity | exact IH].
  - destruct (JS.split_on c s) as [|p ps].
    + repeat constructor. cbn [has_char]. now rewrite E.
    + inversion IH; subst. constructor; [|assumption].
      cbn [has_char]. now rewrite E.
Qed.

Lemma has_char_join c l :
  Forall (fun p => has_char c p = false) l ->
  has_char c (String.concat "" l) = false.
Proof.
  induction 1 as [|p l Hp Hl IH]; [reflexivity|].
  destruct l as [|q l]; [exact Hp|].
  change (String.concat "" (p :: q :: l))
    with (p ++ "" ++ String.concat "" (q :: l))%string.
  cbn [append]. rewrite has_char_append, Hp, IH. reflexivity.
Qed.

(** X27. On a string [getPublicIdentifier] always returns, and what it
    returns is a string with no slash in it: one path segment, whatever the
    URL looked like. *)
Theorem getPublicIdentifier_segment (url : string) :
  exists handle,
    getPublicIdentifier (VStr url) = Ok (VStr handle)
    /\ has_char "/" handle = false.
Proof.
  unfold getPublicIdentifier.
  destruct (negb (JS.truthy (VStr url))); [now exists ""|].
  destruct (contains "linkedin.com/in/" url) eqn:I.
  - destruct (split_by_two "/" "in/" url) as (p & q & r & ->).
    { exact (contains_tail "linkedin.com" "/in/" url I). }
    cbn [nth_error].
    destruct (String.index 0 "/" q) as [i|] eqn:E.
    + eexists. split; [reflexivity|]. now apply substring_before_index.
    + eexists. split; [reflexivity|]. now apply index_none.
  - destruct (contains "linkedin.com/pub/" url); [|now exists ""].
    cbv zeta. eexists. split; [reflexivity|].
    set (h := match nth_error (split_by "/pub/" url 0) 1 with
              | Some h => h | None => "" end).
    pose proof (split_on_pieces "/" h) as F.
    destruct (JS.split_on "/" h) as [|u ids]; cbn [hd tl].
    + reflexivity.
    + inversion F; subst.
      rewrite has_char_append. cbn [append has_char]. 
      rewrite has_char_join; [|now apply Forall_rev].
      match goal with H : has_char _ u = false |- _ => rewrite H end.
      reflexivity.
Qed.

(* ===================================================================== *)
(** ** Defaults of the transforms *)
(* ===================================================================== *)

Lemma record_non_nullish v : record v -> non_nullish v.
Proof. destruct v; cbn; tauto. Qed.

Lemma record_hasOwnProperty v k :
  record v -> JS.hasOwnProperty v k = Ok (JS.own v k).
Proof.
  destruct v; cbn [record JS.hasOwnProperty]; try tauto; try reflexivity.
  unfold plain. now intros ->.
Qed.

Lemma hasOwnProperty_record v k b :
  JS.hasOwnProperty v k = Ok b -> record v.
Proof.
  destruct v; cbn [record JS.hasOwnProperty]; try discriminate; try tauto.
  unfold plain. destruct (JS.has_key "hasOwnProperty" kv);
    [discriminate | reflexivity].
Qed.

Lemma get_non_nullish v k : non_nullish v -> JS.get v k = Ok (JS.prop v k).
Proof. destruct v; cbn; tauto || reflexivity. Qed.

Lemma get_or_non_nullish v k d :
  non_nullish v -> get_or v k d = Ok (JS.or_else (JS.prop v k) d).
Proof. intros N. unfold get_or. now rewrite get_non_nullish. Qed.

Lemma has_nested_present a k1 k2 b :
  has_nested a k1 k2 = Ok b -> b = present a [k1; k2].
Proof.
  unfold has_nested. intros H. bind_inv H.
  apply hasOwnProperty_own in E. subst x. cbn [present].
  destruct (JS.own a k1); [|now injection H as <-].
  bind_inv H. apply get_prop in E. subst x.
  apply hasOwnProperty_own in H. now rewrite andb_true_r.
Qed.

Lemma has_nonempty_present x k b :
  has_nonempty x k = Ok b -> present x [k] = false -> b = false.
Proof.
  cbn [present]. rewrite andb_true_r. apply has_nonempty_own.
Qed.

Lemma or_else_falsy_default a d : JS.truthy a = false -> JS.or_else a d = d.
Proof. unfold JS.or_else. now intros ->. Qed.

(** Reading the hypotheses a run of binds leaves behind. *)
Ltac read_binds :=
  repeat match goal with
    | E : get_or _ _ _ = Ok _ |- _ => apply get_or_inv in E
    | E : JS.get _ _ = Ok _ |- _ => apply get_prop in E
    | E : JS.hasOwnProperty _ _ = Ok _ |- _ => apply hasOwnProperty_own in E
    | E : has_nested _ _ _ = Ok _ |- _ => apply has_nested_present in E
    end.

(** One rule, on a record that is written out. *)
Ltac check_rule :=
  unfold holds, top;
  lazymatch goal with
  | |- _ -> _ -> path _ _ = _ =>
      let P := fresh "P" in
      let T := fresh "T" in
      intros P T; cbn [path present] in P, T;
      cbn [path JS.prop JS.field JS.lookup JS.set_prop String.eqb Ascii.eqb
           Bool.eqb];
      rewrite ?(or_else_falsy_default _ _ T); try reflexivity
  | |- _ /\ _ => split; reflexivity
  | |- _ -> JS.own _ _ = false =>
      let O := fresh "O" in
      intros O; try reflexivity
  | |- _ -> JS.prop _ _ = _ =>
      let O := fresh "O" in
      intros O; try reflexivity
  | |- _ \/ _ => idtac
  | |- forall ks, _ => idtac
  end.

Ltac check_rules :=
  repeat (apply Forall_cons; [check_rule|]); try apply Forall_nil.

Lemma scrubPatentInfo_rules raw out :
  _scrubPatentInfo raw = Ok out -> Forall (holds raw out) patent_rules.
Proof.
  unfold _scrubPatentInfo. intros H. repeat bind_inv H.
  read_binds. subst.
  destruct x7; repeat bind_inv H; injection H as <-;
    unfold patent_rules; check_rules.
  discriminate (has_nonempty_present _ _ _ E7 O).
Qed.

Lemma scrubPublicationInfo_rules raw out :
  _scrubPublicationInfo raw = Ok out ->
  Forall (holds raw out) publication_rules.
Proof.
  unfold _scrubPublicationInfo. intros H. repeat bind_inv H.
  read_binds. subst.
  destruct x4; repeat bind_inv H; injection H as <-;
    unfold publication_rules; check_rules.
  discriminate (has_nonempty_present _ _ _ E4 O).
Qed.

Lemma scrubbed_project_rules raw out :
  scrubbed_project raw = Ok out -> Forall (holds raw out) project_rules.
Proof.
  unfold scrubbed_project. intros H. bind_inv H. injection H as <-.
  rename E into H. unfold _scrubProjectInfo in H. repeat bind_inv H.
  read_binds. subst.
  match goal with
  | E : has_nonempty _ _ = Ok ?b |- _ => destruct b
  end; repeat bind_inv H; injection H as <-;
    unfold project_rules; check_rules.
Qed.

Lemma scrubEducationInfo_rules raw out :
  _scrubEducationInfo raw = Ok out -> Forall (holds raw out) education_rules.
Proof.
  unfold _scrubEducationInfo. intros H. repeat bind_inv H.
  read_binds. subst.
  destruct (JS.own raw "school") eqn:S; repeat bind_inv H; read_binds; subst.
  - destruct (JS.own (JS.prop raw "school") "logo");
      repeat bind_inv H; injection H as <-;
      unfold education_rules; check_rules;
      cbn [present] in O; rewrite S in O; discriminate O.
  - injection H as <-. unfold education_rules. check_rules;
      cbn [present] in P; rewrite S in P; discriminate P.
Qed.

Lemma scrubPositionInfo_rules raw out :
  _scrubPositionInfo raw = Ok out -> Forall (holds raw out) position_rules.
Proof.
  unfold _scrubPositionInfo. intros H.
  bind_inv H. apply get_prop in E. subst x.
  bind_inv H.
  assert (U : JS.truthy (JS.prop raw "companyUrn") = false -> x = VStr "").
  { intros T. rewrite T in E. now injection E as <-. }
  clear E. repeat bind_inv H. read_binds. subst.
  destruct (JS.own raw "company") eqn:S; repeat bind_inv H; read_binds; subst.
  - destruct (present (JS.prop raw "company") ["miniCompany"; "logo"]);
      repeat bind_inv H; injection H as <-;
      unfold position_rules; check_rules;
      try (now rewrite (U T));
      cbn [present] in O; rewrite S in O; discriminate O.
  - injection H as <-. unfold position_rules. check_rules;
      try (now rewrite (U T));
      cbn [present] in P; rewrite S in P; discriminate P.
Qed.

Lemma scrubWebsiteInfo_rules raw out :
  _scrubWebsiteInfo raw = Ok out -> Forall (holds raw out) website_rules.
Proof.
  unfold _scrubWebsiteInfo. intros H. repeat bind_inv H.
  read_binds. subst. injection H as <-.
  unfold website_rules. check_rules.
  intros ks K T. rewrite E0 in K. injection K as <-.
  cbn [path] in T. cbn [JS.prop JS.field JS.lookup String.eqb Ascii.eqb
                        Bool.eqb].
  now apply or_else_falsy_default.
Qed.

(** A property that reads as something truthy is an own property. *)
Lemma truthy_prop_own v k : JS.truthy (JS.prop v k) = true -> JS.own v k = true.
Proof.
  assert (L : forall l, JS.truthy (JS.elements_prop l k) = true ->
                        JS.elements_has l k = true).
  { intros l. unfold JS.elements_prop, JS.elements_has.
    destruct (k =? "length")%string; [reflexivity|].
    destruct (JS.index_of_key k) as [i|]; [|discriminate].
    intros T. apply Nat.ltb_lt.
    destruct (Nat.lt_ge_cases i (List.length l)) as [|G]; [assumption|].
    rewrite (nth_overflow _ _ G) in T. discriminate T. }
  destruct v; cbn [JS.prop JS.own]; try discriminate; try apply L.
  unfold JS.field, JS.has_key. destruct (JS.lookup k kv); [reflexivity|].
  discriminate.
Qed.

Lemma member_field_default member k v :
  member_field member k = Ok v ->
  JS.truthy (JS.prop (JS.prop member "member") k) = false ->
  v = VStr "".
Proof.
  unfold member_field. intros H T. bind_inv H. apply get_prop in E. subst x.
  destruct (JS.truthy (JS.prop member "member")); [|now injection H as <-].
  bind_inv H. apply get_prop in E. subst x. rewrite T in H.
  now injection H as <-.
Qed.

Lemma scrubMemberInfo_rules raw out :
  _scrubMemberInfo raw = Ok out -> Forall (holds raw out) member_rules.
Proof.
  unfold _scrubMemberInfo. intros H.
  destruct (JS.truthy raw); cbn [negb] in H.
  2:{ injection H as <-. unfold member_rules, empty_member. check_rules. }
  do 4 bind_inv H.
  pose proof (member_field_default _ _ _ E) as F1.
  pose proof (member_field_default _ _ _ E0) as F2.
  pose proof (member_field_default _ _ _ E1) as F3.
  pose proof (member_field_default _ _ _ E2) as F4.
  clear E E0 E1 E2.
  bind_inv H. apply get_prop in E. subst x3.
  bind_inv H.
  assert (Q : x3 = true -> present raw ["member"; "picture"] = true).
  { intros ->. cbn [present].
    destruct (JS.truthy (JS.prop raw "member")) eqn:I; [|discriminate E].
    apply hasOwnProperty_own in E. rewrite <- E.
    now rewrite (truthy_prop_own _ _ I). }
  clear E.
  destruct x3; repeat bind_inv H; injection H as <-;
    unfold member_rules; check_rules; auto.
  rewrite Q in O by reflexivity. discriminate O.
Qed.

Lemma scrubIdFromUrn_falsy urn id :
  _scrubIdFromUrn urn = Ok id -> JS.truthy urn = false -> id = VStr "".
Proof.
  unfold _scrubIdFromUrn. intros H T. rewrite T in H. now injection H as <-.
Qed.

Lemma extractRootDomain_falsy url dom :
  extractRootDomain url = Ok dom -> JS.truthy url = false -> dom = VStr "".
Proof.
  unfold extractRootDomain. intros H T. rewrite T in H. now injection H as <-.
Qed.

Lemma lookup_set_prop_other_b k k' v kv :
  (k =? k')%string = false ->
  JS.lookup k (JS.set_prop k' v kv) = JS.lookup k kv.
Proof. intros N. apply lookup_set_prop_other. now apply String.eqb_neq. Qed.

(** The fields one optional step of a transform writes, by the raw property
    that guards it. *)
Ltac written key :=
  lazymatch key with
  | "foundedOn" => constr:(["foundedOn"])
  | "companyIndustries" => constr:(["industries"])
  | "headquarter" =>
      constr:(["city"; "country"; "geographicArea"; "addr1"; "addr2";
               "postalCode"])
  | "followingInfo" => constr:(["linkedInFollowerCount"])
  | "staffCount" => constr:(["staffCount"])
  | "logo" => constr:(["logo"])
  | "backgroundCoverImage" => constr:(["backgroundCoverImage"])
  | "backgroundCoverPhoto" => constr:(["backgroundCoverPhoto"])
  | "phoneNumbers" => constr:(["phoneNumbers"])
  | "twitterHandles" => constr:(["twitterHandles"])
  | "pictureInfo" => constr:(["picture"])
  | "websites" => constr:(["websites"])
  end.

(** An optional step leaves the other fields of the record alone. *)
Ltac step_keeps W a rec key :=
  let w := written key in
  let K := fresh "K" in
  assert (K : forall k, existsb (String.eqb k) w = false ->
                        JS.lookup k a = JS.lookup k rec);
  [ let k := fresh "k" in
    let Hk := fresh "Hk" in
    intros k Hk; cbn [existsb] in Hk;
    let r := fresh "r" in
    set (r := rec) in *; clearbody r;
    repeat (apply orb_false_iff in Hk;
            let N := fresh "N" in destruct Hk as [N Hk]);
    repeat match type of W with
      | (if ?b then _ else _) => destruct b
      | (if ?b then _ else _) = Ok _ => destruct b
      | bind _ _ = Ok _ => bind_inv W
      end;
    first [injection W as <- | subst a];
    repeat (rewrite lookup_set_prop_other_b by assumption); reflexivity
  | idtac ].

Lemma scrubCompanyResponse_rules raw out :
  _scrubCompanyResponse raw = Ok out -> Forall (holds raw out) company_rules.
Proof.
  unfold _scrubCompanyResponse. intros H.
  repeat match type of H with
    | bind (JS.get ?v ?k) _ = Ok _ =>
        let x := fresh "x" in
        let E := fresh "E" in
        destruct (JS.get v k) as [x| |] eqn:E; cbn [bind] in H;
        [apply get_prop in E; subst x|discriminate H|discriminate H]
    | bind (when_has _ _ _ _) _ = Ok _ => fail 1
    | bind _ _ = Ok _ => bind_inv H
    end.
  read_binds. subst.
  repeat match type of H with
    | bind (when_has ?x ?key ?upd ?rec) _ = Ok _ =>
        let a := fresh "a" in
        let W := fresh "W" in
        destruct (when_has x key upd rec) as [a| |] eqn:W; cbn [bind] in H;
        [apply when_has_inv in W; destruct W as [_ W];
         step_keeps W a rec key
        |discriminate H|discriminate H]
    | bind (has_nested ?x ?key _) _ = Ok _ =>
        let b := fresh "b" in
        let E := fresh "E" in
        destruct (has_nested x key "image") as [b| |] eqn:E;
        cbn [bind] in H;
        [apply has_nested_present in E; subst b
        |discriminate H|discriminate H];
        match type of H with
        | bind (if ?c then ?upd else Ok ?rec) _ = Ok _ =>
            let a := fresh "a" in
            let W := fresh "W" in
            destruct (if c then upd else Ok rec) as [a| |] eqn:W;
            cbn [bind] in H;
            [step_keeps W a rec key|discriminate H|discriminate H]
        end
    end.
  injection H as <-.
  unfold company_rules.
  repeat (apply Forall_cons; [|]); try apply Forall_nil.
  all: unfold holds, top.
  all: try match goal with
    | |- _ -> _ -> path _ _ = _ => intros P T
    | |- _ -> _ => intros O
    end.
  all: cbn [path present JS.prop JS.own] in *; rewrite ?andb_true_r in *.
  all: unfold JS.field, JS.has_key.
  all: try match goal with
    | O : ?c = ?b, W : (if ?c then _ else _) |- _ =>
        rewrite O in W; cbv beta iota in W
    | O : ?c = ?b, W : (if ?c then _ else _) = Ok _ |- _ =>
        rewrite O in W; cbv beta iota in W
    end.
  all: try match goal with
    | W : bind _ _ = Ok _ |- _ =>
        repeat bind_inv W; read_binds; subst; injection W as <-
    end.
  all: try match goal with
    | W : Ok _ = Ok _ |- _ => injection W as <-
    end.
  all: repeat match goal with
    | K : forall k, existsb (String.eqb k) _ = false ->
                    JS.lookup k ?a = JS.lookup k _
      |- context [JS.lookup ?n ?a] => rewrite (K n eq_refl)
    | W : ?a = ?r |- context [JS.lookup _ ?a] => rewrite W
    end.
  all: repeat (rewrite lookup_set_prop_other by discriminate).
  all: rewrite ?lookup_set_prop_same.
  all: cbn [JS.lookup JS.set_prop String.eqb Ascii.eqb Bool.eqb].
  all: try rewrite (or_else_falsy_default _ _ T).
  all: try reflexivity.
  all: try (split; reflexivity).
  - exact (extractRootDomain_falsy _ _ E1 T).
  - exact (scrubIdFromUrn_falsy _ _ E7 T).
  - exact (scrubIdFromUrn_falsy _ _ E8 T).
Qed.

Lemma non_nullish_prop_own v k : non_nullish (JS.prop v k) -> JS.own v k = true.
Proof.
  assert (L : forall l, non_nullish (JS.elements_prop l k) ->
                        JS.elements_has l k = true).
  { intros l. unfold JS.elements_prop, JS.elements_has.
    destruct (k =? "length")%string; [reflexivity|].
    destruct (JS.index_of_key k) as [i|]; [|contradiction].
    intros T. apply Nat.ltb_lt.
    destruct (Nat.lt_ge_cases i (List.length l)) as [|G]; [assumption|].
    rewrite (nth_overflow _ _ G) in T. contradiction. }
  destruct v; cbn [JS.prop JS.own]; try contradiction; try apply L.
  unfold JS.field, JS.has_key. destruct (JS.lookup k kv); [reflexivity|].
  contradiction.
Qed.

Lemma get_non_nullish_inv v k x : JS.get v k = Ok x -> non_nullish v.
Proof. destruct v; cbn; try discriminate; tauto. Qed.

Lemma profile_field_own profile k x :
  profile_field profile k = Ok x -> JS.own profile "profile" = true.
Proof.
  unfold profile_field. intros H. bind_inv H. apply get_prop in E. subst x0.
  apply get_non_nullish_inv in H. now apply non_nullish_prop_own.
Qed.

Lemma or_else_defined a d :
  JS.truthy d = false ->
  JS.or_else a d = d \/ JS.truthy (JS.or_else a d) = true.
Proof.
  intros D. unfold JS.or_else. destruct (JS.truthy a) eqn:T; auto.
Qed.

Lemma rederive_occupation_defined profile sp0 sp :
  rederive_occupation profile sp0 = Ok sp ->
  JS.field sp0 "occupation" = VStr ""
  \/ JS.truthy (JS.field sp0 "occupation") = true ->
  JS.field sp "occupation" = VStr ""
  \/ JS.truthy (JS.field sp "occupation") = true.
Proof.
  unfold rederive_occupation. intros H D.
  destruct (JS.strict_eq _ _); [|now injection H as <-].
  repeat bind_inv H. injection H as <-. apply get_or_inv in E2. subst x2.
  unfold JS.field. rewrite lookup_set_prop_same.
  now apply or_else_defined.
Qed.

Lemma scrubFullProfileResponse_rules raw out :
  _scrubFullProfileResponse raw = Ok out ->
  Forall (holds raw out) profile_rules.
Proof.
  unfold _scrubFullProfileResponse. intros H.
  repeat match type of H with
    | bind (when_has _ _ _ _) _ = Ok _ => fail 1
    | bind _ _ = Ok _ => bind_inv H
    end.
  pose proof (profile_field_own _ _ _ E7) as Own.
  read_fields. subst.
  repeat match type of H with
    | bind (when_has ?x ?key ?upd ?rec) _ = Ok _ =>
        let a := fresh "a" in
        let W := fresh "W" in
        destruct (when_has x key upd rec) as [a| |] eqn:W; cbn [bind] in H;
        [apply when_has_inv in W; destruct W as [_ W];
         step_keeps W a rec key
        |discriminate H|discriminate H]
    end.
  bind_inv H. apply get_prop in E. subst.
  match type of H with
  | bind (has_nested ?x ?key ?k2) _ = Ok _ =>
      let b := fresh "b" in
      let E := fresh "E" in
      destruct (has_nested x key k2) as [b| |] eqn:E; cbn [bind] in H;
      [apply has_nested_present in E; subst b
      |discriminate H|discriminate H];
      match type of H with
      | bind (if ?c then ?upd else Ok ?rec) _ = Ok _ =>
          let a := fresh "a" in
          let W := fresh "W" in
          destruct (if c then upd else Ok rec) as [a| |] eqn:W;
          cbn [bind] in H;
          [step_keeps W a rec key|discriminate H|discriminate H]
      end
  end.
  repeat match type of H with
    | bind (map_view ?p ?v ?f) _ = Ok _ =>
        let x := fresh "x" in
        let E := fresh "E" in
        destruct (map_view p v f) as [x| |] eqn:E; cbn [bind] in H;
        [apply map_view_shape in E; destruct E as (? & ? & _ & -> & _)
        |discriminate H|discriminate H]
    end.
  bind_inv H. rename E into Web.
  match type of H with
  | bind (if ?c then ?upd else Ok ?rec) _ = Ok _ =>
      let a := fresh "a" in
      let W := fresh "W" in
      destruct (if c then upd else Ok rec) as [a| |] eqn:W;
      cbn [bind] in H;
      [step_keeps W a rec "websites"|discriminate H|discriminate H]
  end.
  bind_inv H. rename E into Red. injection H as <-.
  assert (KR : forall k, existsb (String.eqb k) ["occupation"] = false ->
                         JS.lookup k x14 = JS.lookup k a2).
  { intros k Hk. cbn [existsb] in Hk. rewrite orb_false_r in Hk.
    apply (rederive_occupation_preserves _ _ _ k Red).
    now apply String.eqb_neq. }
  unfold profile_rules.
  repeat (apply Forall_cons; [|]); try apply Forall_nil.
  all: unfold holds, top.
  all: try match goal with
    | |- _ -> _ -> path _ _ = _ => intros P T
    | |- _ -> _ => intros O
    | |- _ \/ _ => idtac
    end.
  all: cbn [path present JS.prop JS.own] in *; rewrite ?andb_true_r in *.
  all: try (rewrite Own in O; cbn [andb] in O).
  all: try (pose proof (has_nonempty_own _ _ _ Web O); subst).
  all: unfold JS.field, JS.has_key.
  all: try match goal with
    | O : ?c = ?b, W : (if ?c then _ else _) |- _ =>
        rewrite O in W; cbv beta iota in W
    | O : ?c = ?b, W : (if ?c then _ else _) = Ok _ |- _ =>
        rewrite O in W; cbv beta iota in W
    end.
  all: try match goal with
    | W : Ok _ = Ok _ |- _ => injection W as <-
    end.
  all: try match goal with
    | |- _ \/ JS.truthy (match JS.lookup "occupation" _ with _ => _ end) = _ =>
        apply (rederive_occupation_defined _ _ _ Red); unfold JS.field
    end.
  all: repeat first
    [ match goal with
      | K : forall k, existsb (String.eqb k) _ = false ->
                      JS.lookup k ?a = JS.lookup k _
        |- context [JS.lookup ?n ?a] => rewrite (K n eq_refl)
      | W : ?a = ?r |- context [JS.lookup _ ?a] => rewrite W
      end
    | rewrite lookup_set_prop_other by discriminate
    | rewrite lookup_set_prop_same ].
  all: cbn [JS.lookup JS.set_prop String.eqb Ascii.eqb Bool.eqb].
  all: try rewrite (or_else_falsy_default _ _ T).
  all: try reflexivity.
  all: try (split; reflexivity).
  all: try (right; reflexivity).
  all: try (now apply or_else_defined).
Qed.

Lemma truthy_non_nullish v : JS.truthy v = true -> non_nullish v.
Proof. destruct v; cbn; try discriminate; tauto. Qed.

Lemma mapM_accepts {A B} (f : A -> outcome B) l :
  Forall (accepts f) l -> accepts (mapM f) l.
Proof.
  induction 1 as [|a l [b Ha] _ [bs IH]]; [now exists []|].
  exists (b :: bs). cbn [mapM]. rewrite Ha. cbn [bind]. now rewrite IH.
Qed.

Lemma has_nonempty_list raw k fit :
  record raw ->
  optional raw k (list_of fit) ->
  has_nonempty raw k = Ok false
  \/ has_nonempty raw k = Ok true
     /\ exists l, JS.prop raw k = VArr l /\ Forall fit l.
Proof.
  intros R L. unfold has_nonempty. rewrite (record_hasOwnProperty _ _ R).
  cbn [bind]. destruct (JS.own raw k) eqn:O; [|now left].
  destruct (L O) as (l & E & F).
  rewrite (get_non_nullish _ _ (record_non_nullish _ R)), E.
  cbn [bind JS.get JS.prop]. unfold JS.elements_prop.
  cbn [String.eqb Ascii.eqb Bool.eqb bind JS.gt_zero].
  destruct l; [now left|]. right. split; [reflexivity|]. eauto.
Qed.

Lemma has_nested_returns a k1 k2 :
  record a -> optional a k1 record ->
  has_nested a k1 k2 = Ok (present a [k1; k2]).
Proof.
  intros R L. unfold has_nested. rewrite (record_hasOwnProperty _ _ R).
  cbn [bind present]. destruct (JS.own a k1) eqn:O; [|reflexivity].
  specialize (L O).
  rewrite (get_non_nullish _ _ (record_non_nullish _ R)). cbn [bind].
  rewrite (record_hasOwnProperty _ _ L). now rewrite andb_true_r.
Qed.

Lemma scrubMemberInfo_returns member :
  member_fit member -> accepts _scrubMemberInfo member.
Proof.
  intros F. unfold accepts, _scrubMemberInfo.
  destruct (JS.truthy member) eqn:T; cbn [negb]; [|eauto].
  destruct (member_field_returns member "firstName" T) as [v1 ->].
  destruct (member_field_returns member "lastName" T) as [v2 ->].
  destruct (member_field_returns member "occupation" T) as [v3 ->].
  destruct (member_field_returns member "publicIdentifier" T) as [v4 ->].
  cbn [bind]. rewrite (get_non_nullish _ _ (truthy_non_nullish _ T)).
  cbn [bind].
  destruct (JS.truthy (JS.prop member "member")) eqn:I; cbn [bind]; [|eauto].
  destruct (F T I) as [R P].
  rewrite (record_hasOwnProperty _ _ R). cbn [bind].
  destruct (JS.own (JS.prop member "member") "picture") eqn:O; [|eauto].
  rewrite (get_non_nullish _ _ (record_non_nullish _ R)). cbn [bind].
  destruct (P O) as [p ->]. cbn [bind]. eauto.
Qed.

Lemma inventors_scrubbed l :
  Forall (fun inventor =>
            record inventor
            /\ optional inventor "member" (accepts _scrubMemberInfo)) l ->
  exists kept,
    filterM (fun inventor => JS.hasOwnProperty inventor "member") l = Ok kept
    /\ accepts (mapM (fun inventor =>
                        m <- JS.get inventor "member" ;; _scrubMemberInfo m))
               kept.
Proof.
  induction 1 as [|i l [R M] _ (kept & E & out & S)].
  - exists []. split; [reflexivity | now exists []].
  - cbn [filterM]. rewrite (record_hasOwnProperty _ _ R), E. cbn [bind].
    destruct (JS.own i "member") eqn:O.
    + exists (i :: kept). split; [reflexivity|].
      destruct (M O) as [o Ho]. exists (o :: out). cbn [mapM].
      rewrite (get_non_nullish _ _ (record_non_nullish _ R)). cbn [bind].
      rewrite Ho. cbn [bind]. now rewrite S.
    + exists kept. split; [reflexivity | now exists out].
Qed.

Lemma scrubPatentInfo_returns raw :
  patent_fit raw -> accepts _scrubPatentInfo raw.
Proof.
  intros [R L]. pose proof (record_non_nullish _ R) as N.
  unfold accepts, _scrubPatentInfo.
  rewrite !(get_or_non_nullish raw) by exact N.
  rewrite !(get_non_nullish raw) by exact N. cbn [bind].
  destruct (has_nonempty_list raw "inventors" _ R L)
    as [-> | (-> & l & E & F)]; cbn [bind]; [eauto|].
  rewrite E. cbn [JS.array_filter].
  destruct (inventors_scrubbed l F) as (kept & -> & out & S).
  cbn [bind JS.array_map]. rewrite S. cbn [bind]. eauto.
Qed.

Lemma scrubPublicationInfo_returns raw :
  publication_fit raw -> accepts _scrubPublicationInfo raw.
Proof.
  intros [R L]. pose proof (record_non_nullish _ R) as N.
  unfold accepts, _scrubPublicationInfo.
  rewrite !(get_or_non_nullish raw) by exact N. cbn [bind].
  destruct (has_nonempty_list raw "authors" _ R L)
    as [-> | (-> & l & E & F)]; cbn [bind]; [eauto|].
  rewrite (get_non_nullish raw) by exact N. rewrite E.
  cbn [bind JS.array_map].
  destruct (mapM_accepts _ l F) as [out S].
  change (fun author => _scrubMemberInfo author) with _scrubMemberInfo.
  rewrite S. cbn [bind]. eauto.
Qed.

Lemma scrubProjectInfo_returns raw :
  project_fit raw -> accepts _scrubProjectInfo raw.
Proof.
  intros [R L]. pose proof (record_non_nullish _ R) as N.
  unfold accepts, _scrubProjectInfo.
  rewrite !(get_or_non_nullish raw) by exact N. cbn [bind].
  destruct (has_nonempty_list raw "members" _ R L)
    as [-> | (-> & l & E & F)]; cbn [bind]; [eauto|].
  rewrite (get_non_nullish raw) by exact N. rewrite E.
  cbn [bind JS.array_map].
  destruct (mapM_accepts _ l F) as [out S].
  change (fun member => _scrubMemberInfo member) with _scrubMemberInfo.
  rewrite S. cbn [bind]. eauto.
Qed.

Lemma scrubbed_project_returns raw :
  project_fit raw -> accepts scrubbed_project raw.
Proof.
  intros F. destruct (scrubProjectInfo_returns raw F) as [r E].
  exists (fst r). unfold scrubbed_project. now rewrite E.
Qed.

Lemma scrubEducationInfo_returns raw :
  education_fit raw -> accepts _scrubEducationInfo raw.
Proof.
  intros [R L]. pose proof (record_non_nullish _ R) as N.
  unfold accepts, _scrubEducationInfo.
  rewrite !(get_or_non_nullish raw) by exact N. cbn [bind].
  rewrite (record_hasOwnProperty _ _ R). cbn [bind].
  destruct (JS.own raw "school") eqn:O; [|eauto].
  destruct (L O) as [Rs Is]. pose proof (record_non_nullish _ Rs) as Ns.
  rewrite (get_non_nullish raw) by exact N. cbn [bind].
  rewrite !(get_or_non_nullish (JS.prop raw "school")) by exact Ns.
  cbn [bind]. rewrite (record_hasOwnProperty _ _ Rs). cbn [bind].
  destruct (JS.own (JS.prop raw "school") "logo") eqn:Ol; [|eauto].
  rewrite (get_non_nullish (JS.prop raw "school")) by exact Ns.
  cbn [bind]. destruct (Is Ol) as [p ->]. cbn [bind]. eauto.
Qed.

Lemma scrubPositionInfo_returns raw :
  position_fit raw -> accepts _scrubPositionInfo raw.
Proof.
  intros (R & [id U] & L). pose proof (record_non_nullish _ R) as N.
  unfold accepts, _scrubPositionInfo.
  rewrite !(get_non_nullish raw) by exact N. cbn [bind].
  assert (I : (if JS.truthy (JS.prop raw "companyUrn")
               then pieces <- JS.split (JS.prop raw "companyUrn") ":"%char ;;
                    JS.parseInt10 (last pieces "")
               else Ok (VStr "")) = Ok id).
  { rewrite <- U. unfold _scrubIdFromUrn.
    now destruct (JS.truthy (JS.prop raw "companyUrn")). }
  rewrite I. cbn [bind].
  rewrite !(get_or_non_nullish raw) by exact N. cbn [bind].
  rewrite (record_hasOwnProperty _ _ R). cbn [bind].
  destruct (JS.own raw "company") eqn:O; [|eauto].
  destruct (L O) as [Rc Mc]. pose proof (record_non_nullish _ Rc) as Nc.
  rewrite !(get_or_non_nullish (JS.prop raw "company")) by exact Nc.
  cbn [bind].
  rewrite (has_nested_returns (JS.prop raw "company") "miniCompany" "logo")
    by (assumption || (intros Om; exact (proj1 (Mc Om)))).
  cbn [bind present]. rewrite andb_true_r.
  destruct (JS.own (JS.prop raw "company") "miniCompany") eqn:Om;
    cbn [andb]; [|eauto].
  destruct (Mc Om) as [Rm Im].
  destruct (JS.own (JS.prop (JS.prop raw "company") "miniCompany") "logo")
    eqn:Ol; [|eauto].
  rewrite (get_non_nullish (JS.prop raw "company")) by exact Nc.
  cbn [bind].
  rewrite (get_non_nullish _ _ (record_non_nullish _ Rm)). cbn [bind].
  destruct (Im Ol) as [p ->]. cbn [bind]. eauto.
Qed.

Lemma scrubWebsiteInfo_returns raw :
  website_fit raw -> accepts _scrubWebsiteInfo raw.
Proof.
  intros (N & ks & K & V). cbn [path] in V.
  unfold accepts, _scrubWebsiteInfo.
  rewrite !(get_non_nullish raw) by exact N. cbn [bind].
  rewrite K. cbn [bind].
  assert (Nt : non_nullish (JS.prop raw "type")).
  { destruct (JS.prop raw "type"); cbn in K |- *; try discriminate K; tauto. }
  rewrite (get_non_nullish _ _ Nt). cbn [bind].
  rewrite (get_non_nullish _ _ V). cbn [bind]. eauto.
Qed.

Lemma when_has_returns x k update rec :
  record x ->
  (JS.own x k = true -> accepts update rec) ->
  accepts (when_has x k update) rec.
Proof.
  intros R U. unfold accepts, when_has.
  rewrite (record_hasOwnProperty _ _ R). cbn [bind].
  destruct (JS.own x k); [now apply U | eauto].
Qed.

(** The step [if (raw.hasOwnProperty(k) && raw.k.hasOwnProperty('image'))]
    of the company transform returns when the part under [k] is fit. *)
Ltac image_step raw k R L r :=
  rewrite (has_nested_returns raw k "image")
    by (assumption || (let O := fresh in intros O; exact (proj1 (L O))));
  cbn [bind];
  match goal with
  | |- context [bind (if present raw [k; "image"] then ?u else ?e) _] =>
      let X := fresh "X" in
      assert (X : exists r, (if present raw [k; "image"] then u else e)
                            = Ok r);
      [ cbn [present]; rewrite andb_true_r;
        let O := fresh "O" in
        destruct (JS.own raw k) eqn:O; cbn [andb]; [|eauto];
        let Rp := fresh "Rp" in
        let Ip := fresh "Ip" in
        destruct (L O) as [Rp Ip];
        let Oi := fresh "Oi" in
        destruct (JS.own (JS.prop raw k) "image") eqn:Oi; [|eauto];
        cbn [bind];
        rewrite (get_non_nullish _ _ (record_non_nullish _ Rp)); cbn [bind];
        let p := fresh "p" in
        destruct (Ip Oi) as [p ->]; cbn [bind]; eauto
      | destruct X as [r ->]; cbn [bind] ]
  end.

Lemma scrubCompanyResponse_returns raw :
  company_fit raw -> accepts _scrubCompanyResponse raw.
Proof.
  intros (R & [dom D] & [pid P] & [cid C] & Lt & Lf & Li & Lh & Lfo
          & Ll & Lc & Lp).
  pose proof (record_non_nullish _ R) as N.
  unfold accepts, _scrubCompanyResponse.
  rewrite !(get_or_non_nullish raw) by exact N.
  rewrite !(get_non_nullish raw) by exact N. cbn [bind].
  rewrite D, P, C. cbn [bind].
  rewrite (record_hasOwnProperty _ _ R). cbn [bind].
  assert (T : exists t,
             (if JS.own raw "companyType"
              then JS.get (JS.prop raw "companyType") "localizedName"
              else Ok (VStr "")) = Ok t).
  { destruct (JS.own raw "companyType") eqn:O; [|eauto].
    rewrite (get_non_nullish _ _ (Lt O)). eauto. }
  destruct T as [t ->]. cbn [bind].
  match goal with
  | |- context [when_has raw "foundedOn" ?u ?r] =>
      destruct (when_has_returns raw "foundedOn" u r R) as [r1 ->]
  end.
  { intros O. unfold accepts.
    rewrite (get_or_non_nullish _ _ _ (Lf O)). cbn [bind]. eauto. }
  cbn [bind].
  match goal with
  | |- context [when_has raw "companyIndustries" ?u ?r] =>
      destruct (when_has_returns raw "companyIndustries" u r R) as [r2 ->]
  end.
  { intros O. unfold accepts. destruct (Li O) as (l & -> & F).
    cbn [JS.array_map].
    destruct (mapM_accepts (fun c => JS.get c "localizedName") l)
      as [names ->].
    - eapply Forall_impl; [|exact F]. intros c Nc.
      exists (JS.prop c "localizedName"). now apply get_non_nullish.
    - cbn [bind]. eauto. }
  cbn [bind].
  match goal with
  | |- context [when_has raw "headquarter" ?u ?r] =>
      destruct (when_has_returns raw "headquarter" u r R) as [r3 ->]
  end.
  { intros O. unfold accepts.
    rewrite !(get_or_non_nullish _ _ _ (Lh O)). cbn [bind]. eauto. }
  cbn [bind].
  match goal with
  | |- context [when_has raw "followingInfo" ?u ?r] =>
      destruct (when_has_returns raw "followingInfo" u r R) as [r4 ->]
  end.
  { intros O. unfold accepts.
    rewrite (get_or_non_nullish _ _ _ (Lfo O)). cbn [bind]. eauto. }
  cbn [bind].
  match goal with
  | |- context [when_has raw "staffCount" ?u ?r] =>
      destruct (when_has_returns raw "staffCount" u r R) as [r5 ->]
  end.
  { intros O. unfold accepts. eauto. }
  cbn [bind].
  image_step raw "logo" R Ll r6.
  image_step raw "backgroundCoverImage" R Lc r7.
  match goal with
  | |- context [when_has raw "backgroundCoverPhoto" ?u ?r] =>
      destruct (when_has_returns raw "backgroundCoverPhoto" u r R)
        as [r8 ->]
  end.
  { intros O. unfold accepts. destruct (Lp O) as [p ->].
    cbn [bind]. eauto. }
  cbn [bind]. eauto.
Qed.

Lemma profile_field_returns profile k :
  non_nullish profile -> non_nullish (JS.prop profile "profile") ->
  profile_field profile k = Ok (JS.prop (JS.prop profile "profile") k).
Proof.
  intros N Np. unfold profile_field.
  rewrite (get_non_nullish _ _ N). cbn [bind]. now apply get_non_nullish.
Qed.

Lemma profile_field_or_returns profile k d :
  non_nullish profile -> non_nullish (JS.prop profile "profile") ->
  profile_field_or profile k d
  = Ok (JS.or_else (JS.prop (JS.prop profile "profile") k) d).
Proof.
  intros N Np. unfold profile_field_or.
  now rewrite profile_field_returns.
Qed.

Lemma filterM_accepts {A} (f : A -> outcome bool) l :
  Forall (accepts f) l -> accepts (filterM f) l.
Proof.
  induction 1 as [|a l [b Ha] _ [bs IH]]; [now exists []|].
  unfold accepts. cbn [filterM]. rewrite Ha. cbn [bind]. rewrite IH.
  cbn [bind]. eauto.
Qed.

Lemma map_view_returns profile name fit f :
  view profile name fit ->
  non_nullish profile ->
  (forall x, fit x -> accepts f x) ->
  accepts (map_view profile name) f.
Proof.
  intros [Nv (l & E & F)] N A. cbn [path] in E.
  unfold accepts, map_view, view_elements.
  rewrite (get_non_nullish _ _ N). cbn [bind].
  rewrite (get_non_nullish _ _ Nv), E. cbn [bind JS.array_map].
  destruct (mapM_accepts f l) as [out ->].
  - eapply Forall_impl; [|exact F]. exact A.
  - cbn [bind]. eauto.
Qed.

Lemma is_current_position_returns p :
  record p -> optional p "timePeriod" record ->
  accepts is_current_position p.
Proof.
  intros R L. unfold accepts, is_current_position.
  rewrite (record_hasOwnProperty _ _ R). cbn [bind].
  destruct (JS.own p "timePeriod") eqn:O; [|eauto].
  rewrite (get_non_nullish _ _ (record_non_nullish _ R)). cbn [bind].
  rewrite !(record_hasOwnProperty _ _ (L O)). cbn [bind].
  destruct (JS.own (JS.prop p "timePeriod") "startDate"); eauto.
Qed.

Lemma rederive_occupation_returns profile sp :
  non_nullish profile ->
  view profile "positionView"
       (fun position =>
          accepts _scrubPositionInfo position
          /\ record position
          /\ optional position "timePeriod" record) ->
  accepts (rederive_occupation profile) sp.
Proof.
  intros N [Nv (l & E & F)]. cbn [path] in E.
  unfold accepts, rederive_occupation.
  destruct (JS.strict_eq _ _); [|eauto].
  unfold view_elements. rewrite (get_non_nullish _ _ N). cbn [bind].
  rewrite (get_non_nullish _ _ Nv), E. cbn [bind JS.array_filter].
  destruct (filterM_accepts is_current_position l) as [held ->].
  { eapply Forall_impl; [|exact F]. intros p (_ & R & L).
    now apply is_current_position_returns. }
  cbn [bind]. change (JS.or_else (VArr held) (VArr [])) with (VArr held).
  cbn [JS.get bind].
  assert (Nc : non_nullish
                 (JS.or_else (JS.prop (VArr held) "0") (VObj []))).
  { unfold JS.or_else.
    destruct (JS.truthy _) eqn:T; [now apply truthy_non_nullish | exact I]. }
  rewrite (get_or_non_nullish _ _ _ Nc). cbn [bind]. eauto.
Qed.

Lemma scrubFullProfileResponse_returns raw :
  profile_fit raw -> accepts _scrubFullProfileResponse raw.
Proof.
  intros (R & Rp & Nm & Lp & Lt & Lw & Ved & Vpa & Vpu & Vpr & Vpo & Vla
          & Vsk).
  pose proof (record_non_nullish _ R) as N.
  pose proof (record_non_nullish _ Rp) as Np.
  cbn [path] in Nm.
  unfold accepts, _scrubFullProfileResponse.
  rewrite !(profile_field_or_returns raw) by assumption.
  rewrite !(profile_field_returns raw) by assumption.
  rewrite !(get_or_non_nullish raw) by exact N.
  rewrite !(get_non_nullish raw) by exact N. cbn [bind].
  rewrite (get_or_non_nullish _ _ _ Nm). cbn [bind].
  match goal with
  | |- context [when_has raw "phoneNumbers" ?u ?r] =>
      destruct (when_has_returns raw "phoneNumbers" u r R) as [r1 ->]
  end.
  { intros O. unfold accepts. eauto. }
  cbn [bind].
  match goal with
  | |- context [when_has raw "twitterHandles" ?u ?r] =>
      destruct (when_has_returns raw "twitterHandles" u r R) as [r2 ->]
  end.
  { intros O. unfold accepts. destruct (Lt O) as (l & -> & F).
    cbn [JS.array_map].
    destruct (mapM_accepts (fun twitter => JS.get twitter "name") l)
      as [names ->].
    - eapply Forall_impl; [|exact F]. intros c Nc.
      exists (JS.prop c "name"). now apply get_non_nullish.
    - cbn [bind]. eauto. }
  cbn [bind].
  rewrite (has_nested_returns (JS.prop raw "profile") "pictureInfo"
             "masterImage")
    by (assumption || (intros O; exact (proj1 (Lp O)))).
  cbn [bind].
  match goal with
  | |- context [bind (if present ?pp ?ks then ?u else ?e) _] =>
      assert (X : exists r, (if present pp ks then u else e) = Ok r)
  end.
  { cbn [present]. rewrite andb_true_r.
    destruct (JS.own (JS.prop raw "profile") "pictureInfo") eqn:O;
      cbn [andb]; [|eauto].
    destruct (Lp O) as [Ri Ii].
    destruct (JS.own (JS.prop (JS.prop raw "profile") "pictureInfo")
                     "masterImage") eqn:Oi; [|eauto].
    cbn [bind].
    rewrite (get_non_nullish _ _ (record_non_nullish _ Ri)). cbn [bind].
    destruct (Ii Oi) as [p ->]. cbn [bind]. eauto. }
  destruct X as [r3 ->]. cbn [bind].
  destruct (map_view_returns raw "educationView" _ _scrubEducationInfo
              Ved N) as [v1 ->]; [auto|]. cbn [bind].
  destruct (map_view_returns raw "patentView" _ _scrubPatentInfo
              Vpa N) as [v2 ->]; [auto|]. cbn [bind].
  destruct (map_view_returns raw "publicationView" _ _scrubPublicationInfo
              Vpu N) as [v3 ->]; [auto|]. cbn [bind].
  destruct (map_view_returns raw "projectView" _
              (fun p => r <- _scrubProjectInfo p ;; Ok (fst r))
              Vpr N) as [v4 ->].
  { intros x [r E]. exists (fst r). now rewrite E. }
  cbn [bind].
  destruct (map_view_returns raw "positionView" _ _scrubPositionInfo
              Vpo N) as [v5 ->]; [intros x H; exact (proj1 H)|]. cbn [bind].
  destruct (map_view_returns raw "languageView" _
              (fun language => JS.get language "name") Vla N) as [v6 ->].
  { intros x Nx. exists (JS.prop x "name"). now apply get_non_nullish. }
  cbn [bind].
  destruct (map_view_returns raw "skillView" _
              (fun skill => JS.get skill "name") Vsk N) as [v7 ->].
  { intros x Nx. exists (JS.prop x "name"). now apply get_non_nullish. }
  cbn [bind].
  assert (W : exists r,
             (has_websites <- has_nonempty raw "websites" ;;
              (if has_websites then
                 ws <- JS.array_map (JS.prop raw "websites")
                                    _scrubWebsiteInfo ;;
                 Ok (JS.set_prop "websites" (JS.or_else ws (VArr []))
                       (JS.set_prop "skills" v7
                          (JS.set_prop "languages" v6
                             (JS.set_prop "positions" v5
                                (JS.set_prop "projects" v4
                                   (JS.set_prop "publications" v3
                                      (JS.set_prop "patents" v2
                                         (JS.set_prop "education" v1
                                                      r3))))))))
               else Ok (JS.set_prop "skills" v7
                          (JS.set_prop "languages" v6
                             (JS.set_prop "positions" v5
                                (JS.set_prop "projects" v4
                                   (JS.set_prop "publications" v3
                                      (JS.set_prop "patents" v2
                                         (JS.set_prop "education" v1
                                                      r3))))))))) = Ok r).
  { destruct (has_nonempty_list raw "websites" _ R Lw)
      as [-> | (-> & l & E & F)]; cbn [bind]; [eauto|].
    rewrite E. cbn [JS.array_map].
    destruct (mapM_accepts _ l F) as [out ->]. cbn [bind]. eauto. }
  destruct W as [r4 W].
  destruct (has_nonempty raw "websites") as [b| |];
    cbn [bind] in W |- *; try discriminate W.
  rewrite W. cbn [bind].
  destruct (rederive_occupation_returns raw r4 N Vpo) as [r5 ->].
  cbn [bind]. eauto.
Qed.

(** C1, as the code has it. Each of the nine transforms returns, without
    raising, on every raw entity whose optional parts are absent or
    well-formed (the [_fit] predicates: lists of entries that the member and
    website transforms accept, sub-records whose properties can be read,
    images that the resource-path rule accepts, urns and a page URL that
    their helpers accept; for a profile, a [profile] with its [miniProfile]
    and the seven views). And whatever a transform returns, on any argument
    at all, keeps the rules of its table: a field written with [||] holds
    its default where the raw field is absent or otherwise falsy, also
    inside an optional part that is there; a field that is set first and
    overwritten under [hasOwnProperty] holds its initial value where the raw
    field is absent; the occupation, and each list of a profile, is its
    default or truthy. The same tables say where C1 fails: a field that is
    copied holds the raw value, so [undefined] where that is absent, and an
    optional part that is absent leaves no field behind. *)
Theorem transforms_default_absent_fields :
  normalizes _scrubFullProfileResponse profile_fit profile_rules
  /\ normalizes _scrubCompanyResponse company_fit company_rules
  /\ normalizes _scrubEducationInfo education_fit education_rules
  /\ normalizes _scrubPositionInfo position_fit position_rules
  /\ normalizes _scrubPatentInfo patent_fit patent_rules
  /\ normalizes _scrubPublicationInfo publication_fit publication_rules
  /\ normalizes scrubbed_project project_fit project_rules
  /\ normalizes _scrubWebsiteInfo website_fit website_rules
  /\ normalizes _scrubMemberInfo member_fit member_rules.
Proof.
  unfold normalizes. repeat split.
  - exact scrubFullProfileResponse_returns.
  - exact scrubFullProfileResponse_rules.
  - exact scrubCompanyResponse_returns.
  - exact scrubCompanyResponse_rules.
  - exact scrubEducationInfo_returns.
  - exact scrubEducationInfo_rules.
  - exact scrubPositionInfo_returns.
  - exact scrubPositionInfo_rules.
  - exact scrubPatentInfo_returns.
  - exact scrubPatentInfo_rules.
  - exact scrubPublicationInfo_returns.
  - exact scrubPublicationInfo_rules.
  - exact scrubbed_project_returns.
  - exact scrubbed_project_rules.
  - exact scrubWebsiteInfo_returns.
  - exact scrubWebsiteInfo_rules.
  - exact scrubMemberInfo_returns.
  - exact scrubMemberInfo_rules.
Qed.

(** Fitness of an entity that is written out. *)
Ltac fit :=
  repeat first
    [ exact I
    | reflexivity
    | match goal with
      | |- _ /\ _ => split
      | |- record _ => unfold record, plain
      | |- with_image _ _ => unfold with_image
      | |- image _ => unfold image
      | |- view _ _ _ => unfold view
      | |- optional _ _ _ =>
          let O := fresh "O" in
          unfold optional; intros O;
          first [discriminate O | clear O; cbn [JS.prop JS.field JS.lookup
                                                String.eqb Ascii.eqb Bool.eqb]]
      | |- JS.own _ _ = true -> _ =>
          let O := fresh "O" in
          intros O;
          first [discriminate O | clear O; cbn [JS.prop JS.field JS.lookup
                                                String.eqb Ascii.eqb Bool.eqb]]
      | |- list_of _ _ =>
          cbn [path JS.prop JS.field JS.lookup String.eqb Ascii.eqb Bool.eqb];
          eexists; split; [reflexivity|]
      | |- Forall _ [] => apply Forall_nil
      | |- Forall _ (_ :: _) => apply Forall_cons
      | |- accepts _ _ => eexists; vm_compute; reflexivity
      | |- non_nullish _ =>
          cbn [path JS.prop JS.field JS.lookup String.eqb Ascii.eqb Bool.eqb]
      end ].

Lemma transforms_default_absent_fields_witness :
  (exists out,
      _scrubFullProfileResponse sample_profile_view = Ok out
      /\ Forall (holds sample_profile_view out) profile_rules)
  /\ (exists out,
         _scrubCompanyResponse sample_company = Ok out
         /\ Forall (holds sample_company out) company_rules)
  /\ (exists out,
         _scrubEducationInfo sample_education = Ok out
         /\ Forall (holds sample_education out) education_rules)
  /\ (exists out,
         _scrubPatentInfo sample_patent = Ok out
         /\ Forall (holds sample_patent out) patent_rules)
  /\ (exists out,
         _scrubMemberInfo VUndef = Ok out
         /\ Forall (holds VUndef out) member_rules).
Proof.
  destruct transforms_default_absent_fields
    as (Pro & Com & Edu & _ & Pat & _ & _ & _ & Mem).
  repeat split.
  - destruct (proj1 Pro sample_profile_view) as [out E].
    + unfold profile_fit. fit.
    + exists out. split; [exact E | exact (proj2 Pro _ _ E)].
  - destruct (proj1 Com sample_company) as [out E].
    + unfold company_fit. fit.
    + exists out. split; [exact E | exact (proj2 Com _ _ E)].
  - destruct (proj1 Edu sample_education) as [out E].
    + unfold education_fit. fit.
    + exists out. split; [exact E | exact (proj2 Edu _ _ E)].
  - destruct (proj1 Pat sample_patent) as [out E].
    + unfold patent_fit. fit.
    + exists out. split; [exact E | exact (proj2 Pat _ _ E)].
  - destruct (proj1 Mem VUndef) as [out E].
    + intros T. discriminate T.
    + exists out. split; [exact E | exact (proj2 Mem _ _ E)].
Defined.

(** C1 as stated fails. A patent without [pending] has a normalized
    [pending] that is [undefined], and a patent without inventors has no
    [inventors] field at all; a company without a description has an
    [undefined] description. And a malformed optional field can raise: an
    [inventors] that is [null], a logo image that is the empty mapping. *)
Lemma transforms_default_counterexample :
  (exists out,
      _scrubPatentInfo (VObj []) = Ok (VObj out)
      /\ JS.lookup "pending" out = Some VUndef
      /\ JS.lookup "inventors" out = None)
  /\ (exists out,
         _scrubCompanyResponse (VObj []) = Ok (VObj out)
         /\ JS.lookup "description" out = Some VUndef
         /\ JS.lookup "name" out = Some VUndef)
  /\ _scrubPatentInfo (VObj [("inventors", VNull)])
     = Throw (TypeError_read "length" VNull)
  /\ _scrubCompanyResponse (VObj [("logo", VObj [("image", VObj [])])])
     = Throw (TypeError_read "id" VUndef).
Proof.
  split; [|split; [|split]].
  - eexists. split; [reflexivity|]. split; reflexivity.
  - eexists. split; [reflexivity|]. split; reflexivity.
  - reflexivity.
  - reflexivity.
Qed.
